(** * Volatility / expected-return pipeline of the Kelly backend

    A shallow embedding of

    - [backend/fetch_volatility.py]          (Yahoo provider, module [Yahoo]),
    - [backend/fetch_volatility_nasdaq.py]   (NASDAQ provider, module [Nasdaq]),
    - [backend/add_stock.py]                 ([add_stock]),
    - [backend/update_stock_data_nasdaq.py]  ([update_stock_settings]),

    followed by the properties of the statistics engine, the freshness
    cache and the settings synchronizer.

    Modelling conventions.

    - a binary64 number is a [float]: a real number, an infinity or NaN.
      Every operation rounds its exact result to 53 significant bits, ties
      to even, with gradual underflow below [2 ^ -1022] and overflow to an
      infinity from [2 ^ 1024]; [log], [pow] and [sqrt] are taken as
      correctly rounded.  The sign of zero is not modelled, and a sum is
      taken from left to right.
    - a Python exception is a value of [exn]; code that may raise returns a
      [result].
    - a price table has an ['Adj Close'] column of numbers and an index
      that is a [DatetimeIndex] or, for a NASDAQ CSV without a ['Date']
      column, a [RangeIndex].
    - files are typed: a cache file is unreadable or holds a JSON object
      symbol -> {volatility, expectedReturn}; the settings file is
      unreadable, holds a document with a [stocks] object, or holds an
      object without one.  The cache directory can be created.
    - the network is an oracle of the environment; every request is logged. *)

From Stdlib Require Import Reals Lra Lia ZArith String Ascii List Sorted.
From stdpp Require Import gmap strings list fin_maps.

Local Open Scope Z_scope.

(** ** Python exceptions and fallible computations *)

Inductive exn : Set :=
| ZeroDivisionError
| IndexError
| KeyError
| AttributeError
| UnboundLocalError
| JSONDecodeError
| FileNotFoundError.

Inductive result (A : Type) : Type :=
| Ok (a : A)
| Raise (e : exn).
Arguments Ok {A} a.
Arguments Raise {A} e.

#[global] Instance result_ret : MRet result := fun _ a => Ok a.
#[global] Instance result_bind : MBind result := fun _ _ k x =>
  match x with
  | Ok a => k a
  | Raise e => Raise e
  end.

Definition raises {A : Type} (x : result A) : Prop :=
  match x with Ok _ => False | Raise _ => True end.

(** ** binary64 *)

Module Float64.

Inductive float : Type :=
| Num (r : R)
| PInf
| NInf
| NaN.

Definition Rsign (r : R) : comparison :=
  match total_order_T r 0 with
  | inleft (left _) => Lt
  | inleft (right _) => Eq
  | inright _ => Gt
  end.

(** Round half to even, to an integer. *)
Definition Rround_half_even (r : R) : Z :=
  let n := Int_part r in
  match total_order_T (r - IZR n) (1 / 2) with
  | inleft (left _) => n
  | inleft (right _) => if Z.even n then n else n + 1
  | inright _ => n + 1
  end.

(** [2 ^ e] *)
Definition bpow (e : Z) : R := powerRZ 2 e.

(** The exponent of the binade of a positive number: the integer part of
    its binary logarithm. *)
Definition ilog2 (x : R) : Z := Zfloor (ln x / ln 2).

(** The exponent of the last place of the binary64 numbers next to [x]:
    53 significant bits; the subnormal numbers are the multiples of
    [2 ^ -1074]. *)
Definition cexp (x : R) : Z := Z.max (ilog2 (Rabs x) - 52) (-1074).

(** Rounding to the nearest binary64 number, ties to the even significand,
    before the range is looked at. *)
Definition rnd (x : R) : R :=
  (IZR (Rround_half_even (x * bpow (- cexp x))) * bpow (cexp x))%R.

(** The binary64 number an exact result is delivered as: a rounded value
    of magnitude [2 ^ 1024] or more is an overflow. *)
Definition fround (x : R) : float :=
  let y := rnd x in
  if Rle_dec (bpow 1024) (Rabs y)
  then if Rlt_dec 0 y then PInf else NInf
  else Num y.

Definition is_nan (x : float) : bool :=
  match x with NaN => true | _ => false end.

Definition is_finite (x : float) : Prop :=
  match x with Num _ => True | _ => False end.

(** [x >= 0] as Python evaluates it: false on NaN. *)
Definition ge0 (x : float) : Prop :=
  match x with
  | Num r => (0 <= r)%R
  | PInf => True
  | NInf | NaN => False
  end.

Definition fneg (x : float) : float :=
  match x with
  | Num r => Num (- r)
  | PInf => NInf
  | NInf => PInf
  | NaN => NaN
  end.

Definition fadd (x y : float) : float :=
  match x, y with
  | NaN, _ | _, NaN => NaN
  | Num a, Num b => fround (a + b)
  | PInf, NInf | NInf, PInf => NaN
  | PInf, _ | _, PInf => PInf
  | NInf, _ | _, NInf => NInf
  end.

Definition fsub (x y : float) : float := fadd x (fneg y).

(** The infinity carrying the sign [s]; NaN for a zero factor. *)
Definition signed_inf (s : comparison) : float :=
  match s with Gt => PInf | Lt => NInf | Eq => NaN end.

Definition fsign (x : float) : option comparison :=
  match x with
  | Num r => Some (Rsign r)
  | PInf => Some Gt
  | NInf => Some Lt
  | NaN => None
  end.

Definition sign_mul (s t : comparison) : comparison :=
  match s, t with
  | Eq, _ | _, Eq => Eq
  | Gt, u | u, Gt => u
  | Lt, Lt => Gt
  end.

Definition fmul (x y : float) : float :=
  match x, y with
  | Num a, Num b => fround (a * b)
  | _, _ =>
      match fsign x, fsign y with
      | Some s, Some t => signed_inf (sign_mul s t)
      | _, _ => NaN
      end
  end.

(** Division of numpy numbers: a zero divisor gives an infinity or NaN. *)
Definition fdiv (x y : float) : float :=
  match x, y with
  | NaN, _ | _, NaN => NaN
  | Num a, Num b =>
      match Rsign b with
      | Eq => signed_inf (Rsign a)
      | _ => fround (a / b)
      end
  | Num _, _ => Num 0
  | _, Num b =>
      match fsign x, Rsign b with
      | Some s, Lt => signed_inf (sign_mul s Lt)
      | Some s, _ => signed_inf s
      | None, _ => NaN
      end
  | _, _ => NaN
  end.

(** [np.log] *)
Definition flog (x : float) : float :=
  match x with
  | Num r =>
      match Rsign r with
      | Gt => fround (ln r)
      | Eq => NInf
      | Lt => NaN
      end
  | PInf => PInf
  | NInf | NaN => NaN
  end.

(** [np.sqrt] *)
Definition fsqrt (x : float) : float :=
  match x with
  | Num r =>
      match Rsign r with
      | Lt => NaN
      | _ => fround (sqrt r)
      end
  | PInf => PInf
  | NInf | NaN => NaN
  end.

Definition Ris_int (y : R) : bool :=
  if Req_EM_T (IZR (Int_part y)) y then true else false.

Definition Ris_odd_int (y : R) : bool :=
  Ris_int y && Z.odd (Int_part y).

(** [x ** y] for a finite exponent [y] (C [pow]). *)
Definition fpow (x : float) (y : R) : float :=
  match Rsign y with
  | Eq => Num 1
  | sy =>
      match x with
      | NaN => NaN
      | Num r =>
          match Rsign r with
          | Gt => fround (Rpower r y)
          | Eq => match sy with Gt => Num 0 | _ => PInf end
          | Lt =>
              if Ris_int y
              then if Z.odd (Int_part y)
                   then fround (- Rpower (- r) y)
                   else fround (Rpower (- r) y)
              else NaN
          end
      | PInf => match sy with Gt => PInf | _ => Num 0 end
      | NInf =>
          match sy with
          | Gt => if Ris_odd_int y then NInf else PInf
          | _ => Num 0
          end
      end
  end.

(** [round(float(x), 2)]: Python rounds the exact value of [x] to two
    decimals, half to even, and returns the binary64 number nearest to
    that decimal. *)
Definition round2 (x : float) : float :=
  match x with
  | Num r => fround (IZR (Rround_half_even (r * 100)) / 100)
  | _ => x
  end.

Definition fsum (l : list float) : float := foldl fadd (Num 0) l.

End Float64.
Export Float64.

(** ** Price tables

    A [DataFrame] is the table of one symbol: its [DatetimeIndex]
    (nanoseconds since the epoch) and its ['Adj Close'] column; the other
    columns are not read by the code below. *)

Record row : Type := Row { date : Z; adj_close : float }.

Definition DataFrame : Type := list row.

Definition Adj_Close (symbol_data : DataFrame) : list float :=
  map adj_close symbol_data.

Definition index (symbol_data : DataFrame) : list Z :=
  map date symbol_data.

(** A table and the kind of its index.  yfinance tables have a
    [DatetimeIndex].  The NASDAQ fetch makes the ['Date'] column the index
    (fetch_volatility_nasdaq.py 77-79); a CSV without that column keeps the
    [RangeIndex] of [read_csv], whose labels are the row numbers, held by
    [date]. *)
Inductive frame : Type :=
| DateIndexed (df : DataFrame)
| RangeIndexed (df : DataFrame).

Definition table (symbol_data : frame) : DataFrame :=
  match symbol_data with
  | DateIndexed df | RangeIndexed df => df
  end.

(** [s.iloc[0]] and [s.iloc[-1]] *)
Definition iloc_first {A : Type} (s : list A) : result A :=
  match head s with
  | Some x => Ok x
  | None => Raise IndexError
  end.

Definition iloc_last {A : Type} (s : list A) : result A :=
  match last s with
  | Some x => Ok x
  | None => Raise IndexError
  end.

(** [Timedelta.days]: whole days, rounded towards minus infinity. *)
Definition ns_per_day : Z := 86400 * 1000000000.

Definition timedelta_days (delta : Z) : Z := delta / ns_per_day.

(** [a / b] on Python integers: the quotient, correctly rounded. *)
Definition truediv (a b : Z) : result R :=
  if decide (b = 0) then Raise ZeroDivisionError
  else Ok (rnd (IZR a / IZR b)).

(** ** Statistics engine *)

(** [s.shift(1)] *)
Definition shift1 (s : list float) : list float :=
  take (length s) (NaN :: s).

(** [s.dropna()] *)
Definition dropna (s : list float) : list float :=
  filter (fun x => is_nan x = false) s.

(** [s.std()]: the two-pass algorithm of pandas' [nanstd] with
    [skipna=True], [ddof=1]; the count is a binary64 number. *)
Definition std (s : list float) : float :=
  let values := dropna s in
  if decide (length values <= 1)%nat then NaN
  else
    let count := fround (INR (length values)) in
    let d := fsub count (Num 1) in
    let avg := fdiv (fsum values) count in
    let sqr := map (fun x => let diff := fsub avg x in fmul diff diff) values in
    fsqrt (fdiv (fsum sqr) d).

(** fetch_volatility.py 39-61, fetch_volatility_nasdaq.py 153-175
    (the two copies are identical). *)
Definition calculate_annualized_volatility (symbol_data : DataFrame) : float :=
  let daily_returns :=
    map flog (zip_with fdiv (Adj_Close symbol_data)
                            (shift1 (Adj_Close symbol_data))) in
  let daily_returns := dropna daily_returns in
  let daily_std := std daily_returns in
  let annualized_volatility :=
    fmul (fmul daily_std (fsqrt (Num 252))) (Num 100) in
  annualized_volatility.

(** [(symbol_data.index[-1] - symbol_data.index[0]).days] *)
Definition span_days (symbol_data : DataFrame) : result Z :=
  t_last ← iloc_last (index symbol_data);
  t_first ← iloc_first (index symbol_data);
  mret (timedelta_days (t_last - t_first)).

(** [calculate_expected_return] on a frame.  With a [RangeIndex] the
    difference [index[-1] - index[0]] is an integer, which has no attribute
    [days]: the statement that computes [days] raises [AttributeError],
    after the two prices have been read. *)
Definition expected_return_on
    (calculate_expected_return : DataFrame -> result float)
    (symbol_data : frame) : result float :=
  match symbol_data with
  | DateIndexed df => calculate_expected_return df
  | RangeIndexed df =>
      first_price ← iloc_first (Adj_Close df);
      last_price ← iloc_last (Adj_Close df);
      Raise AttributeError
  end.

(** ** Symbol statistics, cache files, settings file *)

(** The dictionary [{"volatility": v, "expectedReturn": e}]; [None] is
    Python's [None] (JSON [null]). *)
Record stats : Type := Stats {
  volatility : option float;
  expectedReturn : option float
}.

Definition null_stats : stats := Stats None None.

Inductive cache_content : Type :=
| Corrupt
| CacheJson (entries : gmap string stats).

(** Times are microseconds, the resolution of [datetime]. *)
Record cache_file : Type := CacheFile {
  mtime : Z;
  content : cache_content
}.

Definition one_day : Z := 86400 * 1000000.

#[warnings="-register-all"]
Inductive json : Type :=
| JNull
| JBool (b : bool)
| JNumber (x : float)
| JString (s : string)
| JArray (items : list json)
| JObject (members : list (string * json)).

(** The settings document: the object under ["stocks"] and the other
    top-level members. *)
Record settings_doc : Type := SettingsDoc {
  stocks : gmap string (gmap string json);
  other_members : gmap string json
}.

(** The settings file: text that is not JSON, the document, or a JSON
    object without a ["stocks"] member. *)
Inductive settings_content : Type :=
| Unreadable
| SettingsJson (doc : settings_doc)
| NoStocks (members : gmap string json).

(** What [json.load] returns for the settings file. *)
Inductive settings_json : Type :=
| WithStocks (doc : settings_doc)
| WithoutStocks (members : gmap string json).

(** What [yf.download(symbols, group_by="ticker")] hands back: the table of
    the only symbol, or one table per ticker. *)
Inductive download : Type :=
| Ungrouped (df : DataFrame)
| ByTicker (tables : gmap string DataFrame).

Inductive request : Type :=
| YfDownload (symbols : list string) (period : string)
| NasdaqGet (symbol : string) (period : string).

(** The body of a NASDAQ response, [csv_content] (lines 52-64): the text of
    the response or the ['data'] member of its JSON, which need not be
    text. *)
Inductive csv_body : Type :=
| TextBody (text : string)
| OtherBody.

(** How one NASDAQ request ends (fetch_volatility_nasdaq.py 21-127): without
    a frame, when the request raises, the status is not 200 or the CSV has
    no rows; with an exception while the CSV is processed, which the
    function answers by dumping the start of the body to
    [debug/<symbol>_response.txt], if that file can be opened for writing;
    or with the processed frame. *)
Inductive nasdaq_response : Type :=
| NoResponse
| ProcessingError (csv_content : csv_body) (dumped : bool)
| Processed (processed_df : frame).

(** The state a call can change: the cache files, the settings file, the
    requests sent so far and the files of the [debug] directory. *)
Record world : Type := World {
  cache_dir : gmap string cache_file;
  stock_settings : option settings_content;
  requests : list request;
  debug_dir : gmap string string
}.

(** What a call observes of its environment.  [yf_download] is [None] when
    the download raises; [nasdaq_get] is the outcome of one NASDAQ
    request. *)
Record env : Type := Env {
  now : Z;
  write_time : Z;
  yf_download : list string -> string -> option download;
  nasdaq_get : string -> string -> nasdaq_response;
  cache_writable : bool;
  settings_writable : bool
}.

Definition set_cache_dir (d : gmap string cache_file) (w : world) : world :=
  World d (stock_settings w) (requests w) (debug_dir w).

Definition set_stock_settings (s : option settings_content) (w : world) : world :=
  World (cache_dir w) s (requests w) (debug_dir w).

Definition log_request (r : request) (w : world) : world :=
  World (cache_dir w) (stock_settings w) (requests w ++ [r]) (debug_dir w).

(** [debug/<symbol>_response.txt] *)
Definition debug_path (symbol : string) : string :=
  symbol +:+ "_response.txt".

(** What [open(..., 'w')] followed by [f.write(csv_content[:1000])] leaves
    in the file: the first 1000 characters of a text; nothing when the
    body is not text, as the write then raises on the file just opened. *)
Definition dumped_text (csv_content : csv_body) : string :=
  match csv_content with
  | TextBody text => substring 0 1000 text
  | OtherBody => EmptyString
  end.

Definition write_debug (symbol : string) (csv_content : csv_body)
    (d : gmap string string) : gmap string string :=
  <[debug_path symbol := dumped_text csv_content]> d.

Definition set_debug_dir (d : gmap string string) (w : world) : world :=
  World (cache_dir w) (stock_settings w) (requests w) d.

(** ** Freshness cache: the code shared by both providers *)

(** [os.path.exists(cache_file)] *)
Definition cache_exists (f : option cache_file) : bool :=
  bool_decide (is_Some f).

(** [(datetime.now() - file_mod_time) < timedelta(days=1)], [False] when the
    file does not exist. *)
Definition cache_fresh (e : env) (f : option cache_file) : bool :=
  match f with
  | Some c => bool_decide (now e - mtime c < one_day)
  | None => false
  end.

(** [json.load(f)] on the cache file. *)
Definition json_load (f : option cache_file) : result (gmap string stats) :=
  match f with
  | Some (CacheFile _ (CacheJson entries)) => Ok entries
  | Some (CacheFile _ Corrupt) => Raise JSONDecodeError
  | None => Raise FileNotFoundError
  end.

(** [d[k]] *)
Definition getitem {V : Type} (d : gmap string V) (k : string) : result V :=
  match d !! k with
  | Some v => Ok v
  | None => Raise KeyError
  end.

(** [{s: cache_data[s] for s in symbols}] *)
Definition cached_results (cache_data : gmap string stats)
    (symbols : list string) : result (gmap string stats) :=
  foldl (fun acc s => results ← acc; v ← getitem cache_data s;
                      mret (<[s := v]> results))
        (Ok ∅) symbols.

(** What the cache consultation leaves behind: an early [return], or the
    local variable [cache_data], which is unbound ([None]) unless
    [json.load] succeeded. *)
Inductive consulted : Type :=
| Return (results : gmap string stats)
| Continue (cache_data : option (gmap string stats)).

(** fetch_volatility.py 112-126, fetch_volatility_nasdaq.py 231-245 *)
Definition consult_cache (e : env) (f : option cache_file)
    (symbols : list string) : consulted :=
  if cache_exists f && cache_fresh e f then
    match json_load f with
    | Ok cache_data =>
        let missing_symbols :=
          filter (fun s => cache_data !! s = None) symbols in
        match missing_symbols with
        | [] =>
            match cached_results cache_data symbols with
            | Ok results => Return results
            | Raise _ => Continue (Some cache_data)
            end
        | _ => Continue (Some cache_data)
        end
    | Raise _ => Continue None
    end
  else Continue None.

(** [cache_data = {} if not (cache_exists and cache_fresh) else cache_data]:
    reading an unbound local raises. *)
Definition rebind_cache_data (e : env) (f : option cache_file)
    (cache_data : option (gmap string stats)) : result (gmap string stats) :=
  if negb (cache_exists f && cache_fresh e f) then Ok ∅
  else match cache_data with
       | Some d => Ok d
       | None => Raise UnboundLocalError
       end.

(** The end of the loop body, from "Store results" to the [except] clause:
    [computed] is the outcome of the statements of the [try] block before
    it. *)
Definition store_symbol (symbol : string) (computed : result (float * float))
    (st : gmap string stats * gmap string stats)
    : gmap string stats * gmap string stats :=
  match computed with
  | Ok (volatility, expected_return) =>
      let entry := Stats (Some (round2 volatility))
                         (Some (round2 expected_return)) in
      (<[symbol := entry]> st.1, <[symbol := entry]> st.2)
  | Raise _ => (<[symbol := null_stats]> st.1, st.2)
  end.

(** "Save to cache": [open(cache_file, 'w')] either fails, leaving the file
    as it was, or the whole document is written. *)
Definition save_cache (e : env) (path : string)
    (cache_data : gmap string stats) (w : world) : world :=
  if cache_writable e
  then set_cache_dir
         (<[path := CacheFile (write_time e) (CacheJson cache_data)]>
            (cache_dir w)) w
  else w.

(** ** The Yahoo provider: fetch_volatility.py *)

Module Yahoo.

(** fetch_volatility.py 20-37 *)
Definition fetch_historical_data (e : env) (symbols : list string)
    (period : string) (w : world) : option download * world :=
  (yf_download e symbols period, log_request (YfDownload symbols period) w).

(** fetch_volatility.py 63-84 *)
Definition calculate_expected_return (symbol_data : DataFrame) : result float :=
  first_price ← iloc_first (Adj_Close symbol_data);
  last_price ← iloc_last (Adj_Close symbol_data);
  let total_return := fsub (fdiv last_price first_price) (Num 1) in
  days ← span_days symbol_data;
  exponent ← truediv 365 days;
  let annual_return :=
    fmul (fsub (fpow (fadd (Num 1) total_return) exponent) (Num 1))
         (Num 100) in
  mret annual_return.

Definition cache_path (period : string) : string :=
  "volatility_cache_" +:+ period +:+ ".json".

(** [symbol_data = data] ([len(symbols) == 1]) or [data[symbol]]; a frame
    of the other shape has no such column and raises [KeyError], at once
    or at the first ['Adj Close']. *)
Definition select_symbol_data (symbols : list string) (data : download)
    (symbol : string) : result DataFrame :=
  if decide (length symbols = 1%nat) then
    match data with
    | Ungrouped df => Ok df
    | ByTicker _ => Raise KeyError
    end
  else
    match data with
    | ByTicker tables => getitem tables symbol
    | Ungrouped _ => Raise KeyError
    end.

(** The [try] block of the loop body, lines 142-151. *)
Definition compute_symbol (symbols : list string) (data : download)
    (symbol : string) : result (float * float) :=
  symbol_data ← select_symbol_data symbols data symbol;
  let volatility := calculate_annualized_volatility symbol_data in
  expected_return ← calculate_expected_return symbol_data;
  mret (volatility, expected_return).

(** fetch_volatility.py 86-176 *)
Definition get_stock_volatility_and_returns (e : env)
    (symbols : list string) (period : string) (w : world)
    : result (gmap string stats) * world :=
  let cache_file := cache_path period in
  let f := cache_dir w !! cache_file in
  match consult_cache e f symbols with
  | Return results => (Ok results, w)
  | Continue cache_data =>
      let '(data, w) := fetch_historical_data e symbols period w in
      match data with
      | None => (Ok ∅, w)
      | Some data =>
          match rebind_cache_data e f cache_data with
          | Raise err => (Raise err, w)
          | Ok cache_data =>
              let '(results, cache_data) :=
                foldl (fun st symbol =>
                         store_symbol symbol
                           (compute_symbol symbols data symbol) st)
                      (∅, cache_data) symbols in
              (Ok results, save_cache e cache_file cache_data w)
          end
      end
  end.

End Yahoo.

(** ** The NASDAQ provider: fetch_volatility_nasdaq.py *)

Module Nasdaq.

(** fetch_volatility_nasdaq.py 21-127: the request and the parsing are the
    oracle; a table without rows is reported as no data (lines 72-74). *)
Definition fetch_nasdaq_historical_data (e : env) (symbol period : string)
    (w : world) : option frame * world :=
  let w := log_request (NasdaqGet symbol period) w in
  match nasdaq_get e symbol period with
  | NoResponse => (None, w)
  | ProcessingError csv_content dumped =>
      (None,
       if dumped
       then set_debug_dir (write_debug symbol csv_content (debug_dir w)) w
       else w)
  | Processed processed_df =>
      match table processed_df with
      | [] => (None, w)
      | _ => (Some processed_df, w)
      end
  end.

(** fetch_volatility_nasdaq.py 129-151 *)
Definition fetch_historical_data (e : env) (symbols : list string)
    (period : string) (w : world) : gmap string frame * world :=
  foldl (fun '(result, w) symbol =>
           let '(data, w) := fetch_nasdaq_historical_data e symbol period w in
           match data with
           | Some data => (<[symbol := data]> result, w)
           | None => (result, w)
           end)
        (∅, w) symbols.

(** fetch_volatility_nasdaq.py 177-203 *)
Definition calculate_expected_return (symbol_data : DataFrame) : result float :=
  first_price ← iloc_first (Adj_Close symbol_data);
  last_price ← iloc_last (Adj_Close symbol_data);
  let total_return := fsub (fdiv last_price first_price) (Num 1) in
  days ← span_days symbol_data;
  if decide (days = 0) then mret (Num 0)
  else
    exponent ← truediv 365 days;
    let annual_return :=
      fmul (fsub (fpow (fadd (Num 1) total_return) exponent) (Num 1))
           (Num 100) in
    mret annual_return.

Definition cache_path (period : string) : string :=
  "nasdaq_volatility_cache_" +:+ period +:+ ".json".

(** The [try] block after the availability test, lines 269-273. *)
Definition compute_symbol (symbol_data : frame) : result (float * float) :=
  let volatility := calculate_annualized_volatility (table symbol_data) in
  expected_return ← expected_return_on calculate_expected_return symbol_data;
  mret (volatility, expected_return).

(** fetch_volatility_nasdaq.py 205-298 *)
Definition get_stock_volatility_and_returns (e : env)
    (symbols : list string) (period : string) (w : world)
    : result (gmap string stats) * world :=
  let cache_file := cache_path period in
  let f := cache_dir w !! cache_file in
  match consult_cache e f symbols with
  | Return results => (Ok results, w)
  | Continue cache_data =>
      let '(data_dict, w) := fetch_historical_data e symbols period w in
      if decide (data_dict = ∅) then (Ok ∅, w)
      else
        match rebind_cache_data e f cache_data with
        | Raise err => (Raise err, w)
        | Ok cache_data =>
            let '(results, cache_data) :=
              foldl (fun st symbol =>
                       match data_dict !! symbol with
                       | None => (<[symbol := null_stats]> st.1, st.2)
                       | Some symbol_data =>
                           store_symbol symbol (compute_symbol symbol_data) st
                       end)
                    (∅, cache_data) symbols in
            (Ok results, save_cache e cache_file cache_data w)
        end
  end.

End Nasdaq.

(** ** Settings synchronizer *)

(** [str.upper] on the ASCII letters a ticker symbol is made of. *)
Definition upper_ascii (c : ascii) : ascii :=
  let n := nat_of_ascii c in
  if ((97 <=? n) && (n <=? 122))%nat then ascii_of_nat (n - 32) else c.

Fixpoint upper (s : string) : string :=
  match s with
  | EmptyString => EmptyString
  | String c rest => String (upper_ascii c) (upper rest)
  end.

(** [json.load(f)] on [stock_settings.json]. *)
Definition json_load_settings (w : world) : result settings_json :=
  match stock_settings w with
  | Some (SettingsJson doc) => Ok (WithStocks doc)
  | Some (NoStocks members) => Ok (WithoutStocks members)
  | Some Unreadable => Raise JSONDecodeError
  | None => Raise FileNotFoundError
  end.

(** [settings['stocks']], which both programs evaluate outside any [try]. *)
Definition getitem_stocks (settings : settings_json) : result settings_doc :=
  match settings with
  | WithStocks doc => Ok doc
  | WithoutStocks _ => Raise KeyError
  end.

(** [json.dump(settings, f, indent=2)]: [open(settings_path, 'w')] either
    fails, leaving the file as it was, or the whole document is written. *)
Definition save_settings (e : env) (doc : settings_doc) (w : world)
    : bool * world :=
  if settings_writable e
  then (true, set_stock_settings (Some (SettingsJson doc)) w)
  else (false, w).

Definition set_stocks (s : gmap string (gmap string json))
    (doc : settings_doc) : settings_doc :=
  SettingsDoc s (other_members doc).

(** add_stock.py 9-62 *)
Definition add_stock (e : env) (symbol : string) (w : world)
    : result bool * world :=
  let symbol := upper symbol in
  match json_load_settings w with
  | Raise _ => (Ok false, w)
  | Ok settings =>
      match getitem_stocks settings with
      | Raise err => (Raise err, w)
      | Ok settings =>
          if decide (is_Some (stocks settings !! symbol)) then (Ok false, w)
          else
            let '(stock_data, w) :=
              Yahoo.get_stock_volatility_and_returns e [symbol] "5y" w in
            match stock_data with
            | Raise err => (Raise err, w)
            | Ok stock_data =>
                match stock_data !! symbol with
                | Some (Stats (Some v) (Some r)) =>
                    let entry : gmap string json :=
                      <["expectedReturn" := JNumber r]>
                        (<["volatility" := JNumber v]> ∅) in
                    let settings :=
                      set_stocks (<[symbol := entry]> (stocks settings))
                                 settings in
                    let '(saved, w) := save_settings e settings w in
                    (Ok saved, w)
                | _ => (Ok false, w)
                end
            end
      end
  end.

(** The "Update settings" loop, update_stock_data_nasdaq.py 30-34. *)
Definition update_stocks (stock_data : gmap string stats)
    (stocks : gmap string (gmap string json)) : gmap string (gmap string json) :=
  map_fold
    (fun symbol data stocks =>
       match stocks !! symbol, volatility data, expectedReturn data with
       | Some fields, Some v, Some r =>
           <[symbol := <["expectedReturn" := JNumber r]>
                         (<["volatility" := JNumber v]> fields)]> stocks
       | _, _, _ => stocks
       end)
    stocks stock_data.

(** update_stock_data_nasdaq.py 8-44 *)
Definition update_stock_settings (e : env) (w : world) : result bool * world :=
  match json_load_settings w with
  | Raise _ => (Ok false, w)
  | Ok settings =>
      match getitem_stocks settings with
      | Raise err => (Raise err, w)
      | Ok settings =>
          let symbols := (map_to_list (stocks settings)).*1 in
          let '(stock_data, w) :=
            Nasdaq.get_stock_volatility_and_returns e symbols "y5" w in
          match stock_data with
          | Raise err => (Raise err, w)
          | Ok stock_data =>
              let settings :=
                set_stocks (update_stocks stock_data (stocks settings))
                           settings in
              let '(saved, w) := save_settings e settings w in
              (Ok saved, w)
          end
      end
  end.

(** ** Vocabulary of the properties *)

(** The document of a settings file that can be parsed and has a
    ["stocks"] object; [KeyError] stands for a file that can be parsed and
    has none. *)
Definition load_settings (w : world) : result settings_doc :=
  settings ← json_load_settings w;
  getitem_stocks settings.

(** A finite non-negative number. *)
Definition finite_nonneg (x : float) : Prop :=
  exists r, x = Num r /\ (0 <= r)%R.

Definition pos_float (x : float) : Prop :=
  exists p, x = Num p /\ (0 < p)%R.

(** A valid price series: strictly increasing (hence distinct) dates and
    positive prices. *)
Definition valid_series (symbol_data : DataFrame) : Prop :=
  StronglySorted Z.lt (index symbol_data) /\
  Forall pos_float (Adj_Close symbol_data).

(** The returns after the first one, which is always NaN. *)
Definition later_returns (prices : list float) : list float :=
  map flog (zip_with fdiv (tail prices) prices).

(** The daily price ratios [P_t / P_{t-1}], as computed. *)
Definition price_ratios (symbol_data : DataFrame) : list float :=
  zip_with fdiv (tail (Adj_Close symbol_data)) (Adj_Close symbol_data).

(** A binary64 number: rounding leaves it alone, and it is in range. *)
Definition binary64 (x : float) : Prop :=
  exists r, x = Num r /\ rnd r = r /\ (Rabs r < bpow 1024)%R.

(** A number of magnitude at most [2 ^ k]. *)
Definition bounded (k : Z) (x : float) : Prop :=
  exists r, x = Num r /\ (Rabs r <= bpow k)%R.

(** A number between 0 and [2 ^ k]. *)
Definition bounded_nonneg (k : Z) (x : float) : Prop :=
  exists r, x = Num r /\ (0 <= r <= bpow k)%R.

(** A number that is at least 1, or the positive infinity: what a count
    of at least two items and the count less one are. *)
Definition at_least_1 (y : float) : Prop :=
  y = PInf \/ exists c, y = Num c /\ (1 <= c)%R.

(** A two-row table whose two observations carry the same date. *)
Definition same_day_rows : DataFrame :=
  [Row 0 (Num 100); Row 0 (Num 110)].

(** Two trading days, a positive price on each. *)
Definition two_day_rows : DataFrame :=
  [Row 0 (Num 100); Row ns_per_day (Num 110)].

(** Three trading days, a positive price on each. *)
Definition three_day_rows : DataFrame :=
  [Row 0 (Num 100); Row ns_per_day (Num 110); Row (2 * ns_per_day) (Num 105)].

(** Three trading days on which the price goes from [2 ^ -600] to
    [2 ^ 600] and back. *)
Definition spike_rows : DataFrame :=
  [Row 0 (Num (bpow (-600))); Row ns_per_day (Num (bpow 600));
   Row (2 * ns_per_day) (Num (bpow (-600)))].

(** The two providers, and their entry points under one name. *)
Inductive provider : Set := yahoo | nasdaq.

Definition get_stats (p : provider)
    : env -> list string -> string -> world -> result (gmap string stats) * world :=
  match p with
  | yahoo => Yahoo.get_stock_volatility_and_returns
  | nasdaq => Nasdaq.get_stock_volatility_and_returns
  end.

Definition cache_path (p : provider) : string -> string :=
  match p with
  | yahoo => Yahoo.cache_path
  | nasdaq => Nasdaq.cache_path
  end.

(** The table the provider delivers for [symbol] within the batch
    [symbols], if any. *)
Definition fetched (p : provider) (e : env) (symbols : list string)
    (period symbol : string) : option frame :=
  match p with
  | yahoo =>
      match yf_download e symbols period with
      | Some data =>
          match Yahoo.select_symbol_data symbols data symbol with
          | Ok df => Some (DateIndexed df)
          | Raise _ => None
          end
      | None => None
      end
  | nasdaq =>
      match nasdaq_get e symbol period with
      | Processed processed_df =>
          match table processed_df with
          | [] => None
          | _ => Some processed_df
          end
      | _ => None
      end
  end.

(** The provider delivers something for the batch: the download does not
    fail (Yahoo), at least one symbol has a table (NASDAQ). *)
Definition delivered (p : provider) (e : env) (symbols : list string)
    (period : string) : Prop :=
  match p with
  | yahoo => is_Some (yf_download e symbols period)
  | nasdaq =>
      exists s, s ∈ symbols /\ is_Some (fetched nasdaq e symbols period s)
  end.

(** The statistics of a fetched frame. *)
Definition compute_stats (p : provider) (symbol_data : frame)
    : result (float * float) :=
  match p with
  | yahoo =>
      expected_return ←
        expected_return_on Yahoo.calculate_expected_return symbol_data;
      mret (calculate_annualized_volatility (table symbol_data),
            expected_return)
  | nasdaq => Nasdaq.compute_symbol symbol_data
  end.

(** The outcome of the [try] block of the loop for [symbol]. *)
Definition computed (p : provider) (e : env) (symbols : list string)
    (period symbol : string) : result (float * float) :=
  match fetched p e symbols period symbol with
  | Some df => compute_stats p df
  | None => Raise KeyError
  end.

(** The requests one recomputation sends. *)
Definition sent (p : provider) (symbols : list string) (period : string)
    : list request :=
  match p with
  | yahoo => [YfDownload symbols period]
  | nasdaq => map (fun s => NasdaqGet s period) symbols
  end.

(** The debug files one batch leaves: the dumps of the NASDAQ responses
    that could not be processed, in the order of the requests. *)
Definition debug_dumps (p : provider) (e : env) (symbols : list string)
    (period : string) (d : gmap string string) : gmap string string :=
  match p with
  | yahoo => d
  | nasdaq =>
      foldl (fun d symbol =>
               match nasdaq_get e symbol period with
               | ProcessingError csv_content true =>
                   write_debug symbol csv_content d
               | _ => d
               end)
            d symbols
  end.

(** The world once the batch has been fetched. *)
Definition fetch_world (p : provider) (e : env) (symbols : list string)
    (period : string) (w : world) : world :=
  World (cache_dir w) (stock_settings w)
        (requests w ++ sent p symbols period)
        (debug_dumps p e symbols period (debug_dir w)).

(** The entry a symbol gets in the result mapping. *)
Definition stats_of (c : result (float * float)) : stats :=
  match c with
  | Ok (v, r) => Stats (Some (round2 v)) (Some (round2 r))
  | Raise _ => null_stats
  end.

(** The loop over the symbols, for a given per-symbol outcome. *)
Definition run_loop (F : string -> result (float * float))
    (symbols : list string) (cache_data : gmap string stats)
    : gmap string stats * gmap string stats :=
  foldl (fun st symbol => store_symbol symbol (F symbol) st)
        (∅, cache_data) symbols.

Definition non_null (st : stats) : Prop :=
  is_Some (volatility st) /\ is_Some (expectedReturn st).

(** The entries of a readable cache file. *)
Definition cache_entries (w : world) (path : string)
    : option (gmap string stats) :=
  match cache_dir w !! path with
  | Some (CacheFile _ (CacheJson entries)) => Some entries
  | _ => None
  end.

Definition caches_non_null (w : world) : Prop :=
  forall path entries s st,
    cache_entries w path = Some entries -> entries !! s = Some st ->
    non_null st.

(** The cache file of [path] is fresh and unreadable. *)
Definition fresh_corrupt (e : env) (w : world) (path : string) : Prop :=
  exists t, cache_dir w !! path = Some (CacheFile t Corrupt) /\
            now e - t < one_day.

(** The worlds the program produces, starting without cache files. *)
Inductive reachable : world -> Prop :=
| reach_init settings dumps : reachable (World ∅ settings [] dumps)
| reach_get_stats p e symbols period w :
    reachable w -> reachable (get_stats p e symbols period w).2
| reach_add_stock e symbol w :
    reachable w -> reachable (add_stock e symbol w).2
| reach_update e w :
    reachable w -> reachable (update_stock_settings e w).2.


(** The four ways the cache consultation can end. *)
Inductive cache_view (e : env) (f : option cache_file)
    (symbols : list string) : consulted -> Prop :=
| view_hit t entries results :
    f = Some (CacheFile t (CacheJson entries)) ->
    now e - t < one_day ->
    Forall (fun s => is_Some (entries !! s)) symbols ->
    (forall s, results !! s
               = if decide (s ∈ symbols) then entries !! s else None) ->
    cache_view e f symbols (Return results)
| view_partial t entries :
    f = Some (CacheFile t (CacheJson entries)) ->
    now e - t < one_day ->
    ~ Forall (fun s => is_Some (entries !! s)) symbols ->
    cache_view e f symbols (Continue (Some entries))
| view_corrupt t :
    f = Some (CacheFile t Corrupt) ->
    now e - t < one_day ->
    cache_view e f symbols (Continue None)
| view_stale :
    cache_exists f && cache_fresh e f = false ->
    cache_view e f symbols (Continue None).

(** What a call does once the cache consultation falls through, given that
    the provider delivers. *)
Definition recompute (p : provider) (e : env) (symbols : list string)
    (period : string) (w : world) (cache_data : option (gmap string stats))
    : result (gmap string stats) * world :=
  let w1 := fetch_world p e symbols period w in
  match rebind_cache_data e (cache_dir w !! cache_path p period) cache_data with
  | Raise err => (Raise err, w1)
  | Ok c0 =>
      let st := run_loop (computed p e symbols period) symbols c0 in
      (Ok st.1, save_cache e (cache_path p period) st.2 w1)
  end.


(** A Yahoo environment whose download delivers [three_day_rows], an hour
    after the epoch. *)
Definition yahoo_env : env :=
  Env 3600000000 3600000000
      (fun _ _ => Some (Ungrouped three_day_rows)) (fun _ _ => NoResponse)
      true true.

(** A world whose Yahoo cache for ["1y"] is unreadable. *)
Definition corrupt_world : world :=
  World {[ "volatility_cache_1y.json" := CacheFile 0 Corrupt ]} None [] ∅.


(** A world without files, and NASDAQ environments in which no request
    succeeds, resp. only the request for ["A"] succeeds. *)
Definition empty_world : world := World ∅ None [] ∅.

Definition dead_env : env :=
  Env 0 0 (fun _ _ => None) (fun _ _ => NoResponse) true true.

Definition only_A_env : env :=
  Env 0 0 (fun _ _ => None)
      (fun s _ => if decide (s = "A")
                  then Processed (DateIndexed three_day_rows) else NoResponse)
      true true.


(** A cache document with two symbols, the world in which it was written
    at time [0] for NASDAQ's ["y5"], and an environment one hour later in
    which no request would succeed. *)
Definition two_entries : gmap string stats :=
  <["A" := Stats (Some (Num 20)) (Some (Num 5))]>
    (<["B" := Stats (Some (Num 30)) (Some (Num 7))]> ∅).

Definition cached_world : world :=
  World {[ "nasdaq_volatility_cache_y5.json" := CacheFile 0 (CacheJson two_entries) ]}
        None [] ∅.

Definition hour_later_env : env :=
  Env 3600000000 3600000000 (fun _ _ => None) (fun _ _ => NoResponse) true true.

(** Two days later the only request that succeeds is the one for ["C"]. *)
Definition two_days_later_env : env :=
  Env (2 * one_day) (2 * one_day) (fun _ _ => None)
      (fun s _ => if decide (s = "C")
                  then Processed (DateIndexed three_day_rows) else NoResponse)
      true true.

(** A cache document whose entry has a volatility and no expected return,
    and the world in which it was written at time [0] for NASDAQ's
    ["y5"]. *)
Definition half_null_entries : gmap string stats :=
  {[ "A" := Stats (Some (Num 20)) None ]}.

Definition half_null_world : world :=
  World {[ "nasdaq_volatility_cache_y5.json"
           := CacheFile 0 (CacheJson half_null_entries) ]}
        None [] ∅.

(** A cache document with a null entry, and the world in which it was
    written at time [0] for NASDAQ's ["y5"]. *)
Definition null_entries : gmap string stats :=
  {[ "B" := null_stats ]}.

Definition null_entry_world : world :=
  World {[ "nasdaq_volatility_cache_y5.json"
           := CacheFile 0 (CacheJson null_entries) ]}
        None [] ∅.

(** An hour later the requests for ["A"] and ["C"] succeed. *)
Definition hour_later_AC_env : env :=
  Env 3600000000 3600000000 (fun _ _ => None)
      (fun s _ => if decide (s = "B")
                  then NoResponse else Processed (DateIndexed three_day_rows))
      true true.


(** The fields of a settings entry after the bulk update, given the
    statistics computed for its symbol, if any. *)
Definition updated_fields (computed_stats : option stats)
    (fields : gmap string json) : gmap string json :=
  match computed_stats with
  | Some (Stats (Some v) (Some r)) =>
      <["expectedReturn" := JNumber r]> (<["volatility" := JNumber v]> fields)
  | _ => fields
  end.

(** A settings document with one stock, which carries an application field
    besides the two statistics, and a world holding it. *)
Definition tsla_fields : gmap string json :=
  <["volatility" := JNumber (Num 55)]>
    (<["expectedReturn" := JNumber (Num 12)]>
       (<["name" := JString "Tesla"]> ∅)).

Definition tsla_doc : settings_doc :=
  SettingsDoc {[ "TSLA" := tsla_fields ]} {[ "riskFreeRate" := JNumber (Num 4) ]}.

Definition tsla_world : world :=
  World ∅ (Some (SettingsJson tsla_doc)) [] ∅.

(** A NASDAQ environment in which every request delivers
    [three_day_rows]. *)
Definition live_env : env :=
  Env 0 0 (fun _ _ => None)
      (fun _ _ => Processed (DateIndexed three_day_rows)) true true.


(** A price that doubles within 365 days, and a price that does not
    move. *)
Definition doubling_rows : DataFrame :=
  [Row 0 (Num 100); Row (365 * ns_per_day) (Num 200)].

Definition flat_rows : DataFrame :=
  [Row 0 (Num 100); Row ns_per_day (Num 100); Row (2 * ns_per_day) (Num 100)].

(** A NASDAQ environment in which every request delivers
    [same_day_rows]. *)
Definition same_day_env : env :=
  Env 0 0 (fun _ _ => None)
      (fun _ _ => Processed (DateIndexed same_day_rows)) true true.


(** A Yahoo environment whose download delivers [same_day_rows]. *)
Definition same_day_yahoo_env : env :=
  Env 0 0 (fun _ _ => Some (Ungrouped same_day_rows)) (fun _ _ => NoResponse)
      true true.


(** The environment [e] with the cache file made writable or not. *)
Definition with_cache_writable (b : bool) (e : env) : env :=
  Env (now e) (write_time e) (yf_download e) (nasdaq_get e) b
      (settings_writable e).

(** A NASDAQ environment an hour after [live_env], still delivering. *)
Definition live_hour_later_env : env :=
  Env 3600000000 3600000000 (fun _ _ => None)
      (fun _ _ => Processed (DateIndexed three_day_rows)) true true.


(** ** The command lines *)

(** add_stock.py 64-71.  The exit status; an exception that nobody catches
    ends the interpreter with status 1. *)
Definition add_stock_main (e : env) (argv : list string) (w : world)
    : Z * world :=
  if decide (length argv <> 2%nat) then (1, w)
  else
    match argv !! 1%nat with
    | Some symbol =>
        match add_stock e symbol w with
        | (Ok success, w) => (if success then 0 else 1, w)
        | (Raise _, w) => (1, w)
        end
    | None => (1, w)
    end.

(** update_stock_data_nasdaq.py 46-47: the value [update_stock_settings]
    returns is dropped. *)
Definition update_stock_data_main (e : env) (w : world) : Z * world :=
  match update_stock_settings e w with
  | (Ok _, w) => (0, w)
  | (Raise _, w) => (1, w)
  end.

(** The entry [add_stock] writes for a new symbol. *)
Definition new_entry (v r : float) : gmap string json :=
  <["expectedReturn" := JNumber r]> (<["volatility" := JNumber v]> ∅).

(** A world whose settings file cannot be parsed. *)
Definition unreadable_settings_world : world :=
  World ∅ (Some Unreadable) [] ∅.


(** A world with the settings of [tsla_world] and an unreadable NASDAQ
    cache for ["y5"]. *)
Definition corrupt_nasdaq_world : world :=
  World {[ "nasdaq_volatility_cache_y5.json" := CacheFile 0 Corrupt ]}
        (Some (SettingsJson tsla_doc)) [] ∅.


(** ** Price table normalizer: the column mapping

    The part of [fetch_nasdaq_historical_data] between the cleaning of the
    price columns and the sort, fetch_volatility_nasdaq.py 88-108.  A frame
    is the list of its columns, in order, each with its name; [C] is the
    type of a column of values.  The column names of a frame that
    [read_csv] delivers are distinct (it renames duplicates), so [df[col]]
    is the one column of that name; and a ['Date'] column has become the
    index by then, so it is no longer among [df.columns]. *)

(** [needle in haystack] on strings. *)
Fixpoint contains (needle haystack : string) : bool :=
  String.prefix needle haystack ||
  match haystack with
  | EmptyString => false
  | String _ rest => contains needle rest
  end.

(** fetch_volatility_nasdaq.py 89-96 *)
Definition column_mapping : list (string * string) :=
  [("Date", "Date"); ("Close/Last", "Close"); ("Volume", "Volume");
   ("Open", "Open"); ("High", "High"); ("Low", "Low")].

(** [df[name] = column]: in place when the frame has the column, at the
    end otherwise. *)
Fixpoint set_column {C : Type} (name : string) (column : C)
    (df : list (string * C)) : list (string * C) :=
  match df with
  | [] => [(name, column)]
  | (n, c) :: rest =>
      if decide (n = name) then (name, column) :: rest
      else (n, c) :: set_column name column rest
  end.

(** [df[name]] *)
Fixpoint get_column {C : Type} (name : string) (df : list (string * C))
    : result C :=
  match df with
  | [] => Raise KeyError
  | (n, c) :: rest => if decide (n = name) then Ok c else get_column name rest
  end.

(** The inner loop, lines 102-105: the first column whose name contains
    [nasdaq_col]. *)
Fixpoint first_matching {C : Type} (nasdaq_col : string)
    (df : list (string * C)) : option C :=
  match df with
  | [] => None
  | (col, c) :: rest =>
      if contains nasdaq_col col then Some c else first_matching nasdaq_col rest
  end.

(** fetch_volatility_nasdaq.py 98-108 *)
Definition map_columns {C : Type} (df : list (string * C))
    : result (list (string * C)) :=
  let processed_df :=
    foldl (fun processed_df '(nasdaq_col, our_col) =>
             match first_matching nasdaq_col df with
             | Some column => set_column our_col column processed_df
             | None => processed_df
             end)
          [] column_mapping in
  close ← get_column "Close" processed_df;
  mret (set_column "Adj Close" close processed_df).

(** The columns of a NASDAQ download once the date is the index. *)
Definition nasdaq_columns {C : Type} (close volume open high low : C)
    : list (string * C) :=
  [("Close/Last", close); ("Volume", volume); ("Open", open);
   ("High", high); ("Low", low)].


(** The NASDAQ header a column of the produced frame is looked up by. *)
Definition nasdaq_name (our_col : string) : string :=
  if decide (our_col = "Close") then "Close/Last" else our_col.

(** * Properties *)

(** ** Signs and finite values *)

Lemma Rsign_Gt r : Rsign r = Gt <-> (0 < r)%R.
Proof. unfold Rsign. destruct (total_order_T r 0) as [[?|?]|?]; split; (discriminate || lra || trivial). Qed.

Lemma Rsign_Lt r : Rsign r = Lt <-> (r < 0)%R.
Proof. unfold Rsign. destruct (total_order_T r 0) as [[?|?]|?]; split; (discriminate || lra || trivial). Qed.

Lemma Rsign_Eq r : Rsign r = Eq <-> r = 0%R.
Proof. unfold Rsign. destruct (total_order_T r 0) as [[?|?]|?]; split; (discriminate || lra || trivial). Qed.

Lemma Rsign_pos r : (0 < r)%R -> Rsign r = Gt.
Proof. apply Rsign_Gt. Qed.

Lemma Rsign_0 : Rsign 0 = Eq.
Proof. by apply Rsign_Eq. Qed.

Lemma finite_nonneg_spec x : finite_nonneg x <-> ge0 x /\ is_finite x.
Proof.
  split.
  - intros (r & -> & Hr). by split.
  - intros [Hge Hfin]. destruct x; try done. by exists r.
Qed.

(** ** Powers of two and rounding *)

Local Open Scope R_scope.

Lemma bpow_pos e : 0 < bpow e.
Proof. apply powerRZ_lt; lra. Qed.

Lemma bpow_add a b : bpow (a + b) = bpow a * bpow b.
Proof. apply powerRZ_add; lra. Qed.

Lemma bpow_IZR e : (0 <= e)%Z -> bpow e = IZR (2 ^ e).
Proof.
  intros He. destruct e as [|p|p]; [reflexivity| |lia].
  unfold bpow. symmetry. apply Zpower_pos_powerRZ.
Qed.

Lemma bpow_ge_1 e : (0 <= e)%Z -> 1 <= bpow e.
Proof.
  intros He. rewrite bpow_IZR by done. apply IZR_le.
  pose proof (Z.pow_pos_nonneg 2 e). lia.
Qed.

Lemma bpow_le a b : (a <= b)%Z -> bpow a <= bpow b.
Proof.
  intros H. replace b with (a + (b - a))%Z by lia. rewrite bpow_add.
  pose proof (bpow_ge_1 (b - a)). pose proof (bpow_pos a).
  assert (1 <= bpow (b - a)) by (apply H0; lia). nra.
Qed.

Lemma bpow_succ a : bpow (a + 1) = 2 * bpow a.
Proof. rewrite bpow_add. change (bpow 1) with (2 * 1). ring. Qed.

Lemma bpow_lt a b : (a < b)%Z -> bpow a < bpow b.
Proof.
  intros H. apply Rlt_le_trans with (bpow (a + 1)).
  - rewrite bpow_succ. pose proof (bpow_pos a). lra.
  - apply bpow_le. lia.
Qed.

Lemma bpow_lt_inv a b : bpow a < bpow b -> (a < b)%Z.
Proof.
  intros H. destruct (Z_lt_le_dec a b) as [|Hle]; [done|].
  apply bpow_le in Hle. lra.
Qed.

Lemma bpow_le_inv a b : bpow a <= bpow b -> (a <= b)%Z.
Proof.
  intros H. destruct (Z_le_gt_dec a b) as [|Hgt]; [done|].
  assert (b < a)%Z as Hlt by lia. apply bpow_lt in Hlt. lra.
Qed.

Lemma ln2_pos : 0 < ln 2.
Proof. rewrite <- ln_1. apply ln_increasing; lra. Qed.

Lemma bpow_exp e : bpow e = exp (IZR e * ln 2).
Proof. unfold bpow. rewrite powerRZ_Rpower by lra. reflexivity. Qed.

Lemma exp_le a b : a <= b -> exp a <= exp b.
Proof.
  intros [H| ->]; [left; by apply exp_increasing|right; reflexivity].
Qed.

Lemma ilog2_spec x : 0 < x -> bpow (ilog2 x) <= x < bpow (ilog2 x + 1).
Proof.
  intros Hx. pose proof (Zfloor_bound (ln x / ln 2)) as [H1 H2].
  fold (ilog2 x) in H1, H2. pose proof ln2_pos as H0.
  assert (Hl : ln x = ln x / ln 2 * ln 2) by (field; lra).
  rewrite !bpow_exp, plus_IZR. split.
  - rewrite <- (exp_ln x Hx) at 2. apply exp_le. nra.
  - rewrite <- (exp_ln x Hx) at 1. apply exp_increasing. nra.
Qed.

Lemma ilog2_ge x k : 0 < x -> bpow k <= x -> (k <= ilog2 x)%Z.
Proof.
  intros Hx Hk. destruct (ilog2_spec x Hx) as [_ H].
  assert (bpow k < bpow (ilog2 x + 1)) as Hlt by lra.
  apply bpow_lt_inv in Hlt. lia.
Qed.

Lemma ilog2_lt x k : 0 < x -> x < bpow k -> (ilog2 x < k)%Z.
Proof.
  intros Hx Hk. destruct (ilog2_spec x Hx) as [H _].
  apply bpow_lt_inv. lra.
Qed.

Lemma ilog2_le x y : 0 < x -> x <= y -> (ilog2 x <= ilog2 y)%Z.
Proof.
  intros Hx Hxy. apply ilog2_ge; [lra|].
  destruct (ilog2_spec x Hx). lra.
Qed.

Lemma ilog2_unique x k : bpow k <= x < bpow (k + 1) -> ilog2 x = k.
Proof.
  intros [H1 H2]. pose proof (bpow_pos k).
  assert (0 < x) as Hx by lra.
  pose proof (ilog2_ge x k Hx H1). pose proof (ilog2_lt x (k + 1) Hx H2). lia.
Qed.

(** Round half even *)

Lemma Int_part_bound r : IZR (Int_part r) <= r < IZR (Int_part r) + 1.
Proof. destruct (base_Int_part r). lra. Qed.

Lemma Int_part_IZR n : Int_part (IZR n) = n.
Proof. symmetry. apply Int_part_spec. lra. Qed.

Lemma Int_part_le a b : a <= b -> (Int_part a <= Int_part b)%Z.
Proof.
  intros H. pose proof (Int_part_bound a). pose proof (Int_part_bound b).
  assert (IZR (Int_part a) < IZR (Int_part b) + 1) as Hlt by lra.
  rewrite <- plus_IZR in Hlt. apply lt_IZR in Hlt. lia.
Qed.

Lemma Rround_half_even_IZR n : Rround_half_even (IZR n) = n.
Proof.
  unfold Rround_half_even. rewrite Int_part_IZR.
  destruct (total_order_T (IZR n - IZR n) (1 / 2)) as [[H|H]|H]; [done|lra..].
Qed.

Lemma Rround_half_even_cases r :
  (r - IZR (Int_part r) < 1 / 2 /\ Rround_half_even r = Int_part r) \/
  (r - IZR (Int_part r) = 1 / 2 /\
   Rround_half_even r
   = if Z.even (Int_part r) then Int_part r else (Int_part r + 1)%Z) \/
  (r - IZR (Int_part r) > 1 / 2 /\ Rround_half_even r = (Int_part r + 1)%Z).
Proof.
  unfold Rround_half_even.
  destruct (total_order_T (r - IZR (Int_part r)) (1 / 2)) as [[H|H]|H]; auto.
Qed.

Lemma Rround_half_even_near r :
  (Int_part r <= Rround_half_even r <= Int_part r + 1)%Z.
Proof.
  destruct (Rround_half_even_cases r) as [[_ ->]|[[_ ->]|[_ ->]]];
    try destruct (Z.even _); lia.
Qed.

Lemma Rround_half_even_le a b :
  a <= b -> (Rround_half_even a <= Rround_half_even b)%Z.
Proof.
  intros H. pose proof (Int_part_le a b H) as Hn.
  pose proof (Rround_half_even_near a). pose proof (Rround_half_even_near b).
  destruct (Z.eq_dec (Int_part a) (Int_part b)) as [E|E]; [|lia].
  destruct (Rround_half_even_cases a) as [[Ha ->]|[[Ha ->]|[Ha ->]]];
  destruct (Rround_half_even_cases b) as [[Hb ->]|[[Hb ->]|[Hb ->]]];
    rewrite <- ?E in *; try destruct (Z.even (Int_part a)); try lia; lra.
Qed.

Lemma Rround_half_even_opp r : Rround_half_even (- r) = (- Rround_half_even r)%Z.
Proof.
  pose proof (Int_part_bound r) as [H1 H2].
  destruct (Req_dec r (IZR (Int_part r))) as [E|E].
  { rewrite E. generalize (Int_part r). intros n.
    by rewrite <- opp_IZR, !Rround_half_even_IZR. }
  assert (Hn : Int_part (- r) = (- Int_part r - 1)%Z).
  { symmetry. apply Int_part_spec. rewrite minus_IZR, opp_IZR. lra. }
  assert (Hev : Z.even (- Int_part r - 1) = negb (Z.even (Int_part r))).
  { rewrite Z.even_sub, Z.even_opp. simpl. by destruct (Z.even _). }
  destruct (Rround_half_even_cases r) as [[Ha ->]|[[Ha ->]|[Ha ->]]];
  destruct (Rround_half_even_cases (- r)) as [[Hb ->]|[[Hb ->]|[Hb ->]]];
    rewrite Hn in *; rewrite ?Hev; rewrite ?minus_IZR, ?opp_IZR in *;
    try destruct (Z.even (Int_part r)); simpl; try lia; lra.
Qed.

(** rnd *)

Lemma cexp_ge x : (-1074 <= cexp x)%Z.
Proof. unfold cexp. lia. Qed.

Lemma cexp_opp x : cexp (- x) = cexp x.
Proof. unfold cexp. by rewrite Rabs_Ropp. Qed.

Lemma cexp_pos x : 0 < x -> cexp x = Z.max (ilog2 x - 52) (-1074).
Proof. intros Hx. unfold cexp. rewrite Rabs_pos_eq; [done|lra]. Qed.

Lemma bpow_cancel c j : bpow (c + j) * bpow (- c) = bpow j.
Proof. rewrite <- bpow_add. f_equal. lia. Qed.

Lemma scaled_le x c j :
  (0 <= j)%Z -> x <= bpow (c + j) ->
  (Rround_half_even (x * bpow (- c)) <= 2 ^ j)%Z.
Proof.
  intros Hj Hx. rewrite <- (Rround_half_even_IZR (2 ^ j)).
  apply Rround_half_even_le. rewrite <- bpow_IZR by done.
  rewrite <- (bpow_cancel c j).
  apply Rmult_le_compat_r; [left; apply bpow_pos|done].
Qed.

Lemma scaled_ge x c j :
  (0 <= j)%Z -> bpow (c + j) <= x ->
  (2 ^ j <= Rround_half_even (x * bpow (- c)))%Z.
Proof.
  intros Hj Hx. rewrite <- (Rround_half_even_IZR (2 ^ j)) at 1.
  apply Rround_half_even_le. rewrite <- bpow_IZR by done.
  rewrite <- (bpow_cancel c j).
  apply Rmult_le_compat_r; [left; apply bpow_pos|done].
Qed.

Lemma rnd_opp x : rnd (- x) = - rnd x.
Proof.
  unfold rnd. rewrite cexp_opp.
  replace (- x * bpow (- cexp x)) with (- (x * bpow (- cexp x))) by ring.
  rewrite Rround_half_even_opp, opp_IZR. ring.
Qed.

Lemma rnd_0 : rnd 0 = 0.
Proof.
  unfold rnd. rewrite Rmult_0_l. change 0 with (IZR 0) at 1.
  rewrite Rround_half_even_IZR. ring.
Qed.

Lemma rnd_nonneg x : 0 <= x -> 0 <= rnd x.
Proof.
  intros Hx. unfold rnd. apply Rmult_le_pos; [|left; apply bpow_pos].
  apply IZR_le. rewrite <- (Rround_half_even_IZR 0).
  apply Rround_half_even_le. apply Rmult_le_pos; [done|left; apply bpow_pos].
Qed.

(** The rounded value is below the next power of two, and above the
    previous one. *)
Lemma rnd_le_bpow x k :
  (-1074 <= k)%Z -> 0 < x -> x <= bpow k -> rnd x <= bpow k.
Proof.
  intros Hk Hx Hxk. unfold rnd.
  destruct (Z_le_gt_dec (cexp x) k) as [Hc|Hc].
  - replace (bpow k) with (IZR (2 ^ (k - cexp x)) * bpow (cexp x)).
    2:{ rewrite <- bpow_IZR by lia. rewrite <- bpow_add. f_equal; lia. }
    apply Rmult_le_compat_r; [left; apply bpow_pos|].
    apply IZR_le, scaled_le; [lia|]. by replace (cexp x + (k - cexp x))%Z with k by lia.
  - (* cexp x > k >= -1074: impossible *)
    rewrite cexp_pos in Hc by done.
    assert (k + 52 < ilog2 x)%Z as Hl by lia.
    destruct (ilog2_spec x Hx) as [H1 _].
    assert (bpow k < bpow (ilog2 x)) by (apply bpow_lt; lia). lra.
Qed.

Lemma rnd_ge_bpow x k :
  (-1074 <= k)%Z -> bpow k <= x -> bpow k <= rnd x.
Proof.
  intros Hk Hxk. pose proof (bpow_pos k) as Hp.
  assert (Hx : 0 < x) by lra. unfold rnd.
  destruct (Z_le_gt_dec (cexp x) k) as [Hc|Hc].
  - replace (bpow k) with (IZR (2 ^ (k - cexp x)) * bpow (cexp x)).
    2:{ rewrite <- bpow_IZR by lia. rewrite <- bpow_add. f_equal; lia. }
    apply Rmult_le_compat_r; [left; apply bpow_pos|].
    apply IZR_le, scaled_ge; [lia|].
    by replace (cexp x + (k - cexp x))%Z with k by lia.
  - pose proof Hc as Hc'. rewrite cexp_pos in Hc' by done.
    assert (He : cexp x = (ilog2 x - 52)%Z) by (rewrite cexp_pos by done; lia).
    destruct (ilog2_spec x Hx) as [H1 _].
    apply Rle_trans with (bpow (cexp x + 52)); [apply bpow_le; lia|].
    rewrite bpow_add, Rmult_comm. rewrite (bpow_IZR 52) by lia.
    apply Rmult_le_compat_r; [left; apply bpow_pos|].
    apply IZR_le, scaled_ge; [lia|]. rewrite He.
    by replace (ilog2 x - 52 + 52)%Z with (ilog2 x) by lia.
Qed.

Lemma cexp_le x y : 0 < x -> x <= y -> (cexp x <= cexp y)%Z.
Proof.
  intros Hx Hxy. rewrite !cexp_pos by lra.
  pose proof (ilog2_le x y Hx Hxy). lia.
Qed.

Lemma rnd_le_pos x y : 0 < x -> x <= y -> rnd x <= rnd y.
Proof.
  intros Hx Hxy. pose proof (cexp_le x y Hx Hxy) as Hc.
  destruct (Z.eq_dec (cexp x) (cexp y)) as [E|E].
  - unfold rnd. rewrite E. apply Rmult_le_compat_r; [left; apply bpow_pos|].
    apply IZR_le, Rround_half_even_le.
    apply Rmult_le_compat_r; [left; apply bpow_pos|done].
  - assert (Hy : 0 < y) by lra.
    assert (He : cexp y = (ilog2 y - 52)%Z).
    { pose proof (cexp_ge x). pose proof (cexp_pos y Hy). lia. }
    destruct (ilog2_spec x Hx) as [_ H1]. destruct (ilog2_spec y Hy) as [H2 _].
    apply Rle_trans with (bpow (cexp x + 53)).
    + apply rnd_le_bpow; [pose proof (cexp_ge x); lia|done|].
      left. apply Rlt_le_trans with (1 := H1). apply bpow_le.
      rewrite cexp_pos by done. lia.
    + apply Rle_trans with (bpow (ilog2 y)); [apply bpow_le; lia|].
      apply rnd_ge_bpow; [pose proof (cexp_ge y); lia|done].
Qed.

Lemma rnd_le x y : x <= y -> rnd x <= rnd y.
Proof.
  intros Hxy. destruct (Rlt_le_dec 0 x) as [Hx|Hx].
  - by apply rnd_le_pos.
  - destruct (Rlt_le_dec y 0) as [Hy|Hy].
    + rewrite <- (Ropp_involutive x), <- (Ropp_involutive y), !(rnd_opp (- _)).
      apply Ropp_le_contravar. apply rnd_le_pos; lra.
    + apply Rle_trans with 0; [|by apply rnd_nonneg].
      rewrite <- (Ropp_involutive x), rnd_opp.
      pose proof (rnd_nonneg (- x)). lra.
Qed.

(** The binary64 numbers: what [rnd] leaves alone. *)
Lemma rnd_repr n e :
  (Z.abs n < 2 ^ 53)%Z -> (-1074 <= e)%Z -> rnd (IZR n * bpow e) = IZR n * bpow e.
Proof.
  intros Hn He.
  assert (Hpos : forall m, (0 < m < 2 ^ 53)%Z ->
            rnd (IZR m * bpow e) = IZR m * bpow e).
  { intros m Hm. set (x := IZR m * bpow e).
    pose proof (bpow_pos e) as Hp.
    assert (Hx : 0 < x).
    { apply Rmult_lt_0_compat; [apply IZR_lt; lia|done]. }
    assert (Hc : (cexp x <= e)%Z).
    { rewrite cexp_pos by done.
      assert (ilog2 x < e + 53)%Z; [|lia].
      apply ilog2_lt; [done|]. rewrite Z.add_comm, bpow_add.
      rewrite (bpow_IZR 53) by lia. unfold x.
      apply Rmult_lt_compat_r; [done|]. apply IZR_lt. lia. }
    unfold rnd.
    replace (x * bpow (- cexp x)) with (IZR (m * 2 ^ (e - cexp x))).
    2:{ rewrite mult_IZR, <- bpow_IZR by lia. unfold x.
        rewrite Rmult_assoc, <- bpow_add. do 2 f_equal; lia. }
    rewrite Rround_half_even_IZR, mult_IZR, <- bpow_IZR by lia.
    rewrite Rmult_assoc, <- bpow_add. unfold x. do 2 f_equal; lia. }
  destruct (Z.lt_trichotomy n 0) as [H|[->|H]].
  - replace (IZR n) with (- IZR (- n)) by (rewrite opp_IZR; ring).
    rewrite Ropp_mult_distr_l_reverse, rnd_opp, Hpos; [done|lia].
  - rewrite Rmult_0_l. apply rnd_0.
  - apply Hpos. lia.
Qed.

Lemma rnd_bpow k : (-1074 <= k)%Z -> rnd (bpow k) = bpow k.
Proof.
  intros Hk. rewrite <- (Rmult_1_l (bpow k)).
  apply (rnd_repr 1); [done|done].
Qed.

Lemma rnd_IZR n : (Z.abs n < 2 ^ 53)%Z -> rnd (IZR n) = IZR n.
Proof.
  intros Hn. rewrite <- (Rmult_1_r (IZR n)). change 1 with (bpow 0).
  by apply rnd_repr.
Qed.

(** A rounded value is a multiple of its last place. *)
Lemma rnd_grid x :
  exists m, rnd x = IZR m * bpow (cexp x) /\ (Z.abs m <= 2 ^ 53)%Z.
Proof.
  exists (Rround_half_even (x * bpow (- cexp x))). split; [done|].
  assert (Hpos : forall y, 0 < y ->
            (0 <= Rround_half_even (y * bpow (- cexp y)) <= 2 ^ 53)%Z).
  { intros y Hy. split.
    - rewrite <- (Rround_half_even_IZR 0). apply Rround_half_even_le.
      apply Rmult_le_pos; [lra|left; apply bpow_pos].
    - apply scaled_le; [lia|]. destruct (ilog2_spec y Hy) as [_ H].
      left. apply Rlt_le_trans with (1 := H). apply bpow_le.
      rewrite cexp_pos by done. lia. }
  destruct (Rtotal_order x 0) as [H|[->|H]].
  - specialize (Hpos (- x)). rewrite cexp_opp in Hpos.
    replace (- x * bpow (- cexp x)) with (- (x * bpow (- cexp x))) in Hpos by ring.
    rewrite Rround_half_even_opp in Hpos. assert (0 < - x) as H' by lra.
    apply Hpos in H'. lia.
  - rewrite Rmult_0_l. change 0 with (IZR 0). rewrite Rround_half_even_IZR. lia.
  - specialize (Hpos x H). lia.
Qed.

Lemma rnd_idem x : rnd (rnd x) = rnd x.
Proof.
  destruct (rnd_grid x) as (m & -> & Hm). pose proof (cexp_ge x).
  destruct (Z.eq_dec (Z.abs m) (2 ^ 53)%Z) as [E|E].
  - assert (Hm' : m = (2 ^ 53)%Z \/ m = (- 2 ^ 53)%Z) by lia.
    assert (H53 : IZR (2 ^ 53) * bpow (cexp x) = bpow (53 + cexp x)).
    { rewrite <- bpow_IZR by lia. by rewrite bpow_add. }
    destruct Hm' as [-> | ->].
    + rewrite H53. apply rnd_bpow. lia.
    + rewrite opp_IZR, Ropp_mult_distr_l_reverse, rnd_opp, H53.
      f_equal. apply rnd_bpow. lia.
  - apply rnd_repr; lia.
Qed.

(** The smallest positive binary64 number. *)
Lemma rnd_pos_ge x : 0 < rnd x -> bpow (-1074) <= rnd x.
Proof.
  destruct (rnd_grid x) as (m & -> & _). intros Hpos.
  pose proof (bpow_pos (cexp x)) as Hp.
  assert (0 < IZR m) as Hm by nra. apply lt_IZR in Hm.
  assert (1 <= IZR m) as Hm1 by (apply IZR_le; lia).
  pose proof (bpow_le (-1074) (cexp x) (cexp_ge x)). nra.
Qed.

(** Underflow and saturation *)

Lemma bpow_m1 : bpow (-1) = 1 / 2.
Proof. unfold bpow. simpl. lra. Qed.

Lemma bpow_m2 : bpow (-2) = 1 / 4.
Proof. unfold bpow. simpl. lra. Qed.

Lemma Rround_half_even_small x : 0 <= x < 1 / 2 -> Rround_half_even x = 0%Z.
Proof.
  intros Hx. assert (Hn : Int_part x = 0%Z).
  { symmetry. apply Int_part_spec. simpl. lra. }
  destruct (Rround_half_even_cases x) as [[_ ->]|[[H _]|[H _]]];
    [done|rewrite Hn in H; simpl in H; lra..].
Qed.

Lemma rnd_underflow x : 0 <= x < bpow (-1075) -> rnd x = 0.
Proof.
  intros [[Hx| <-] Hlt]; [|apply rnd_0].
  assert (Hc : cexp x = (-1074)%Z).
  { rewrite cexp_pos by done. pose proof (ilog2_lt x (-1075) Hx Hlt). lia. }
  unfold rnd. rewrite Hc. rewrite Rround_half_even_small; [simpl; ring|].
  pose proof (bpow_pos (- -1074)). split; [nra|].
  rewrite <- bpow_m1. replace (-1)%Z with (-1075 + - (-1074))%Z by lia.
  rewrite bpow_add. apply Rmult_lt_compat_r; done.
Qed.

Lemma rnd_add_sat_le k a x :
  (-1075 <= k)%Z -> rnd a = a -> a <= bpow (k + 54) -> x <= bpow k ->
  rnd (a + x) <= bpow (k + 54).
Proof.
  intros Hk Ha HaB Hx.
  pose proof (bpow_pos k) as Hpk.
  assert (H54 : bpow (k + 54) = 2 * bpow (k + 53)).
  { rewrite <- bpow_succ. f_equal. lia. }
  assert (Hk53 : bpow k <= bpow (k + 53)) by (apply bpow_le; lia).
  assert (HB : rnd (bpow (k + 54)) = bpow (k + 54)) by (apply rnd_bpow; lia).
  destruct (Rle_lt_dec a (bpow (k + 53))) as [H1|H1].
  { rewrite <- HB. apply rnd_le. lra. }
  destruct HaB as [HaB|HaB].
  - (* a is in the last binade below the bound *)
    assert (Hpos : 0 < a) by (pose proof (bpow_pos (k + 53)); lra).
    assert (Hl : ilog2 a = (k + 53)%Z).
    { apply ilog2_unique. split; [lra|].
      by replace (k + 53 + 1)%Z with (k + 54)%Z by lia. }
    assert (Hc : cexp a = (k + 1)%Z) by (rewrite cexp_pos by done; lia).
    destruct (rnd_grid a) as (m & Hm & _). rewrite Ha, Hc in Hm.
    assert (HBm : bpow (k + 54) = IZR (2 ^ 53) * bpow (k + 1)).
    { rewrite <- bpow_IZR by lia. rewrite <- bpow_add. f_equal. lia. }
    pose proof (bpow_pos (k + 1)) as Hp1.
    assert (Hlt : IZR m < IZR (2 ^ 53)) by (rewrite HBm, Hm in HaB; nra).
    apply lt_IZR in Hlt.
    assert (Hle : IZR (m + 1) <= IZR (2 ^ 53)) by (apply IZR_le; lia).
    rewrite plus_IZR in Hle. rewrite bpow_succ in *.
    rewrite <- HB. apply rnd_le. rewrite HBm, Hm. nra.
  - (* a is the bound: the sum rounds back to it *)
    apply Rle_trans with (rnd (bpow (k + 54) + bpow k)); [apply rnd_le; lra|].
    set (y := bpow (k + 54) + bpow k).
    assert (Hy : 0 < y) by (unfold y; pose proof (bpow_pos (k + 54)); lra).
    assert (Hl : ilog2 y = (k + 54)%Z).
    { apply ilog2_unique. unfold y. rewrite bpow_succ. split; lra. }
    assert (Hc : cexp y = (k + 2)%Z) by (rewrite cexp_pos by done; lia).
    assert (Hs : y * bpow (- (k + 2)) = IZR (2 ^ 52) + 1 / 4).
    { unfold y. rewrite Rmult_plus_distr_r, <- !bpow_add.
      replace (k + 54 + - (k + 2))%Z with 52%Z by lia.
      replace (k + - (k + 2))%Z with (-2)%Z by lia.
      by rewrite bpow_m2, (bpow_IZR 52) by lia. }
    unfold rnd. rewrite Hc, Hs.
    assert (Hr : Rround_half_even (IZR (2 ^ 52) + 1 / 4) = (2 ^ 52)%Z).
    { assert (Hn : Int_part (IZR (2 ^ 52) + 1 / 4) = (2 ^ 52)%Z).
      { symmetry. apply Int_part_spec. lra. }
      destruct (Rround_half_even_cases (IZR (2 ^ 52) + 1 / 4))
        as [[_ ->]|[[H _]|[H _]]]; [done|rewrite Hn in H; lra..]. }
    rewrite Hr, <- bpow_IZR by lia. rewrite <- bpow_add. right. f_equal. lia.
Qed.

Lemma Rabs_le_between a b : Rabs a <= b -> - b <= a <= b.
Proof. unfold Rabs. destruct (Rcase_abs a); lra. Qed.

Lemma rnd_add_sat k a x :
  (-1075 <= k)%Z -> rnd a = a ->
  Rabs a <= bpow (k + 54) -> Rabs x <= bpow k ->
  Rabs (rnd (a + x)) <= bpow (k + 54).
Proof.
  intros Hk Ha HaB Hx. apply Rabs_le. apply Rabs_le_between in HaB, Hx. split.
  - assert (rnd (- a + - x) <= bpow (k + 54)) as H.
    { apply rnd_add_sat_le; [done| |lra..]. rewrite rnd_opp. by f_equal. }
    replace (- a + - x) with (- (a + x)) in H by ring.
    rewrite rnd_opp in H. lra.
  - apply rnd_add_sat_le; [done..|lra|lra].
Qed.

(** ** Numbers within a range *)

Lemma fround_Num_inv x q : fround x = Num q -> q = rnd x /\ Rabs q < bpow 1024.
Proof.
  unfold fround. destruct (Rle_dec _ _) as [H|H].
  - by destruct (Rlt_dec _ _).
  - intros [= <-]. split; [done|lra].
Qed.

Lemma fround_small k r :
  (-1074 <= k < 1024)%Z -> Rabs r <= bpow k ->
  fround r = Num (rnd r) /\ Rabs (rnd r) <= bpow k.
Proof.
  intros Hk Hr. apply Rabs_le_between in Hr.
  assert (Hb : Rabs (rnd r) <= bpow k).
  { apply Rabs_le. split.
    - rewrite <- (rnd_bpow k), <- rnd_opp by lia. apply rnd_le. lra.
    - rewrite <- (rnd_bpow k) by lia. apply rnd_le. lra. }
  split; [|done]. unfold fround.
  destruct (Rle_dec _ _) as [H|H]; [|done].
  assert (bpow k < bpow 1024) by (apply bpow_lt; lia). lra.
Qed.

Lemma fround_bounded k r :
  (-1074 <= k < 1024)%Z -> Rabs r <= bpow k -> bounded k (fround r).
Proof.
  intros Hk Hr. destruct (fround_small k r Hk Hr) as [-> H]. by eexists.
Qed.

Lemma fround_bounded_nonneg k r :
  (-1074 <= k < 1024)%Z -> 0 <= r <= bpow k -> bounded_nonneg k (fround r).
Proof.
  intros Hk Hr. destruct (fround_small k r Hk) as [-> H].
  { rewrite Rabs_pos_eq; lra. }
  eexists. split; [done|]. pose proof (rnd_nonneg r).
  apply Rabs_le_between in H. lra.
Qed.

Lemma bounded_nonneg_bounded k x : bounded_nonneg k x -> bounded k x.
Proof.
  intros (r & -> & Hr). exists r. split; [done|]. rewrite Rabs_pos_eq; lra.
Qed.

Lemma bounded_nonneg_finite k x : bounded_nonneg k x -> finite_nonneg x.
Proof. intros (r & -> & Hr). exists r. split; [done|lra]. Qed.

Lemma fround_at_least_1 r : 1 <= r -> at_least_1 (fround r).
Proof.
  intros Hr. assert (H1 : 1 <= rnd r).
  { rewrite <- (rnd_IZR 1) by done. by apply rnd_le. }
  unfold fround. destruct (Rle_dec _ _) as [H|H].
  - left. destruct (Rlt_dec 0 (rnd r)); [done|lra].
  - right. by eexists.
Qed.

Lemma fround_at_least_2 r :
  2 <= r -> fround r = PInf \/ exists c, fround r = Num c /\ 2 <= c.
Proof.
  intros Hr. assert (H1 : 2 <= rnd r).
  { rewrite <- (rnd_IZR 2) by done. by apply rnd_le. }
  unfold fround. destruct (Rle_dec _ _) as [H|H].
  - left. destruct (Rlt_dec 0 (rnd r)); [done|lra].
  - right. by eexists.
Qed.

Lemma fdiv_at_least_1 k x y :
  (-1074 <= k < 1024)%Z -> bounded k x -> at_least_1 y -> bounded k (fdiv x y).
Proof.
  intros Hk (s & -> & Hs) [->|(c & -> & Hc)].
  - exists 0. split; [done|]. rewrite Rabs_R0. left. apply bpow_pos.
  - simpl. rewrite Rsign_pos by lra. apply fround_bounded; [done|].
    apply Rabs_le_between in Hs. apply Rabs_le.
    assert (0 < / c <= 1) as Hi.
    { split; [apply Rinv_0_lt_compat; lra|].
      rewrite <- Rinv_1. apply Rinv_le_contravar; lra. }
    pose proof (bpow_pos k). unfold Rdiv. nra.
Qed.

Lemma fdiv_at_least_1_nonneg k x y :
  (-1074 <= k < 1024)%Z -> bounded_nonneg k x -> at_least_1 y ->
  bounded_nonneg k (fdiv x y).
Proof.
  intros Hk (s & -> & Hs) [->|(c & -> & Hc)].
  - exists 0. split; [done|]. pose proof (bpow_pos k). lra.
  - simpl. rewrite Rsign_pos by lra. apply fround_bounded_nonneg; [done|].
    assert (0 < / c <= 1) as Hi.
    { split; [apply Rinv_0_lt_compat; lra|].
      rewrite <- Rinv_1. apply Rinv_le_contravar; lra. }
    unfold Rdiv. nra.
Qed.

Lemma fsub_bounded j k m x y :
  (-1074 <= m < 1024)%Z -> bpow j + bpow k <= bpow m ->
  bounded j x -> bounded k y -> bounded m (fsub x y).
Proof.
  intros Hm Hjk (a & -> & Ha) (b & -> & Hb). simpl.
  apply fround_bounded; [done|].
  apply Rabs_le_between in Ha, Hb. apply Rabs_le. lra.
Qed.

Lemma fmul_square k x :
  (-1074 <= k + k < 1024)%Z -> bounded k x -> bounded_nonneg (k + k) (fmul x x).
Proof.
  intros Hk (a & -> & Ha). simpl. apply fround_bounded_nonneg; [done|].
  rewrite bpow_add. apply Rabs_le_between in Ha. pose proof (bpow_pos k). nra.
Qed.

Lemma fmul_bounded_nonneg j k x y :
  (-1074 <= j + k < 1024)%Z ->
  bounded_nonneg j x -> bounded_nonneg k y -> bounded_nonneg (j + k) (fmul x y).
Proof.
  intros Hk (a & -> & Ha) (b & -> & Hb). simpl.
  apply fround_bounded_nonneg; [done|]. rewrite bpow_add.
  pose proof (bpow_pos j). pose proof (bpow_pos k). nra.
Qed.

Lemma fsqrt_bounded_nonneg k x :
  (0 <= k)%Z -> (k + 1 < 1024)%Z ->
  bounded_nonneg k x -> bounded_nonneg (k + 1) (fsqrt x).
Proof.
  intros Hk Hk1 (v & -> & Hv). simpl.
  assert (Hs : fround (sqrt v) = match Rsign v with
                                 | Lt => NaN | _ => fround (sqrt v) end).
  { destruct (Rsign v) eqn:E; try done. apply Rsign_Lt in E. lra. }
  rewrite <- Hs. apply fround_bounded_nonneg; [lia|].
  pose proof (sqrt_pos v) as Hp. pose proof (sqrt_sqrt v (proj1 Hv)) as Hq.
  pose proof (bpow_ge_1 k Hk). rewrite bpow_succ. nra.
Qed.

(** ** Sums *)

Lemma foldl_fadd_bounded k l a :
  (-1075 <= k)%Z -> (k + 54 < 1024)%Z ->
  Forall (bounded k) l -> rnd a = a -> Rabs a <= bpow (k + 54) ->
  exists s, foldl fadd (Num a) l = Num s /\ rnd s = s /\
            Rabs s <= bpow (k + 54).
Proof.
  intros Hk Hk' Hl. revert a.
  induction Hl as [|x l (b & -> & Hb) _ IH]; intros a Ha HaB; simpl.
  - by exists a.
  - pose proof (rnd_add_sat k a b Hk Ha HaB Hb) as Hsat.
    assert (Hf : fround (a + b) = Num (rnd (a + b))).
    { unfold fround. destruct (Rle_dec _ _) as [H|H]; [|done].
      assert (bpow (k + 54) < bpow 1024) by (apply bpow_lt; lia). lra. }
    rewrite Hf. apply IH; [apply rnd_idem|done].
Qed.

Lemma foldl_fadd_bounded_nonneg k l a :
  (-1075 <= k)%Z -> (k + 54 < 1024)%Z ->
  Forall (bounded_nonneg k) l -> rnd a = a -> 0 <= a <= bpow (k + 54) ->
  exists s, foldl fadd (Num a) l = Num s /\ 0 <= s <= bpow (k + 54).
Proof.
  intros Hk Hk' Hl. revert a.
  induction Hl as [|x l (b & -> & Hb) _ IH]; intros a Ha HaB; simpl.
  - by exists a.
  - assert (Hsat : Rabs (rnd (a + b)) <= bpow (k + 54)).
    { apply rnd_add_sat; [done..| |]; rewrite Rabs_pos_eq; lra. }
    assert (Hf : fround (a + b) = Num (rnd (a + b))).
    { unfold fround. destruct (Rle_dec _ _) as [H|H]; [|done].
      assert (bpow (k + 54) < bpow 1024) by (apply bpow_lt; lia). lra. }
    rewrite Hf. apply IH; [apply rnd_idem|].
    pose proof (rnd_nonneg (a + b)). apply Rabs_le_between in Hsat. lra.
Qed.

Lemma fsum_bounded k l :
  (-1075 <= k)%Z -> (k + 54 < 1024)%Z ->
  Forall (bounded k) l -> bounded (k + 54) (fsum l).
Proof.
  intros Hk Hk' Hl.
  destruct (foldl_fadd_bounded k l 0 Hk Hk' Hl rnd_0) as (s & Hs & _ & Hb).
  { rewrite Rabs_R0. left. apply bpow_pos. }
  by exists s.
Qed.

Lemma fsum_bounded_nonneg k l :
  (-1075 <= k)%Z -> (k + 54 < 1024)%Z ->
  Forall (bounded_nonneg k) l -> bounded_nonneg (k + 54) (fsum l).
Proof.
  intros Hk Hk' Hl.
  destruct (foldl_fadd_bounded_nonneg k l 0 Hk Hk' Hl rnd_0) as (s & Hs & Hb).
  { pose proof (bpow_pos (k + 54)). lra. }
  by exists s.
Qed.

Lemma dropna_finite l : Forall is_finite l -> dropna l = l.
Proof.
  induction 1 as [|x l Hx _ IH]; [done|].
  unfold dropna in *. rewrite filter_cons.
  destruct x; try done; simpl; by rewrite IH.
Qed.

Lemma bounded_finite k x : bounded k x -> is_finite x.
Proof. by intros (r & -> & _). Qed.

(** ** The sample standard deviation *)

Lemma std_bounded l :
  Forall (bounded 11) l -> (2 <= length l)%nat -> bounded_nonneg 187 (std l).
Proof.
  intros Hl Hlen. unfold std.
  rewrite (dropna_finite l)
    by (eapply Forall_impl; [exact Hl|apply bounded_finite]).
  destruct (decide _) as [?|_]; [lia|]. cbv zeta.
  set (count := fround (INR (length l))).
  assert (Hn : 2 <= INR (length l)).
  { change 2 with (INR 2). by apply le_INR. }
  assert (Hcount : at_least_1 count /\ at_least_1 (fsub count (Num 1))).
  { destruct (fround_at_least_2 _ Hn) as [E|(c & E & Hc)]; fold count in E;
      rewrite E.
    - split; by left.
    - split; [right; exists c; split; [done|lra]|].
      simpl. apply fround_at_least_1. lra. }
  destruct Hcount as [Hc Hd].
  pose proof (fsum_bounded 11 l ltac:(lia) ltac:(lia) Hl) as Hsum.
  pose proof (fdiv_at_least_1 65 _ _ ltac:(lia) Hsum Hc) as Havg.
  set (avg := fdiv (fsum l) count) in *.
  assert (Hsqr : Forall (bounded_nonneg 132)
                   (map (fun x => fmul (fsub avg x) (fsub avg x)) l)).
  { apply Forall_fmap. eapply Forall_impl; [exact Hl|].
    intros x Hx. simpl. apply (fmul_square 66); [lia|].
    apply (fsub_bounded 65 11); [lia| |done..].
    assert (bpow 11 <= bpow 65) by (apply bpow_le; lia).
    pose proof (bpow_succ 65) as H66. change (65 + 1)%Z with 66%Z in H66. lra. }
  pose proof (fsum_bounded_nonneg 132 _ ltac:(lia) ltac:(lia) Hsqr) as Hq.
  apply (fsqrt_bounded_nonneg 186); [lia..|].
  by apply fdiv_at_least_1_nonneg.
Qed.

Lemma dropna_length l : (length (dropna l) <= length l)%nat.
Proof. apply length_filter. Qed.

Lemma std_short l : (length l <= 1)%nat -> std l = NaN.
Proof.
  intros H. unfold std.
  pose proof (dropna_length l).
  destruct (decide _); [done|lia].
Qed.

(** ** Daily returns *)

Lemma fdiv_nan_r x : fdiv x NaN = NaN.
Proof. by destruct x. Qed.

Lemma fmul_nan_l y : fmul NaN y = NaN.
Proof. by destruct y. Qed.

Lemma daily_returns_cons (p : float) (rest : list float) :
  map flog (zip_with fdiv (p :: rest) (shift1 (p :: rest)))
  = NaN :: later_returns (p :: rest).
Proof.
  unfold shift1, later_returns. simpl. rewrite fdiv_nan_r. simpl.
  do 2 f_equal.
  change (match rest with [] => [] | y :: l' => y :: take (length l') (p :: l') end)
    with (take (length rest) (p :: rest)).
  revert p. induction rest as [|q rest IH]; intros p; [done|].
  simpl. f_equal. apply IH.
Qed.

Lemma later_returns_length prices :
  length (later_returns prices) = Nat.pred (length prices).
Proof.
  unfold later_returns. rewrite length_map, length_zip_with.
  destruct prices; simpl; lia.
Qed.

Lemma dropna_nan_cons l : dropna (NaN :: l) = dropna l.
Proof. done. Qed.

Lemma dropna_returns_length prices :
  (length (dropna (map flog (zip_with fdiv prices (shift1 prices))))
   <= Nat.pred (length prices))%nat.
Proof.
  destruct prices as [|p rest]; [done|].
  rewrite daily_returns_cons, dropna_nan_cons.
  etrans; [apply dropna_length|]. by rewrite later_returns_length.
Qed.

Lemma volatility_short symbol_data :
  (length symbol_data <= 2)%nat ->
  calculate_annualized_volatility symbol_data = NaN.
Proof.
  intros H. unfold calculate_annualized_volatility.
  rewrite std_short; [by rewrite !fmul_nan_l|].
  etrans; [apply dropna_returns_length|].
  unfold Adj_Close. rewrite length_map. lia.
Qed.

Lemma ln_bpow e : ln (bpow e) = IZR e * ln 2.
Proof. rewrite bpow_exp. apply ln_exp. Qed.

Lemma ln2_lt_1 : ln 2 < 1.
Proof.
  rewrite <- (ln_exp 1). apply ln_increasing; [lra|].
  pose proof (exp_ineq1 1). lra.
Qed.

Lemma ln_le x y : 0 < x -> x <= y -> ln x <= ln y.
Proof.
  intros Hx [H| ->]; [left; by apply ln_increasing|right; reflexivity].
Qed.

(** The logarithm of a positive binary64 number lies between
    [ln (2 ^ -1074)] and [ln (2 ^ 1024)]. *)
Lemma flog_bounded x q :
  fround x = Num q -> 0 < q -> bounded 11 (flog (Num q)).
Proof.
  intros Hq Hpos. apply fround_Num_inv in Hq as [-> Hlt].
  pose proof (rnd_pos_ge x Hpos) as Hge.
  rewrite Rabs_pos_eq in Hlt by lra.
  simpl. rewrite Rsign_pos by done. apply fround_bounded; [lia|].
  pose proof (ln_le _ _ (bpow_pos (-1074)) Hge) as H1.
  pose proof (ln_le _ _ Hpos (Rlt_le _ _ Hlt)) as H2.
  rewrite ln_bpow in H1, H2. pose proof ln2_pos. pose proof ln2_lt_1.
  rewrite (bpow_IZR 11) by lia. apply Rabs_le.
  change (IZR (2 ^ 11)) with 2048. nra.
Qed.

Lemma returns_bounded l k :
  Forall pos_float l -> Forall pos_float k ->
  Forall pos_float (zip_with fdiv l k) ->
  Forall (bounded 11) (map flog (zip_with fdiv l k)).
Proof.
  intros Hl. revert k. induction Hl as [|x l Hx _ IH]; intros k Hk Hq; [done|].
  destruct Hk as [|y k Hy Hk]; [done|].
  simpl in *. inversion Hq as [|? ? Hq1 Hq2]; subst. constructor; [|by apply IH].
  destruct Hx as (a & -> & Ha), Hy as (b & -> & Hb), Hq1 as (q & Hq1 & Hpos).
  rewrite Hq1. simpl in Hq1. rewrite Rsign_pos in Hq1 by done.
  by eapply flog_bounded.
Qed.

Lemma later_returns_bounded prices :
  Forall pos_float prices ->
  Forall pos_float (zip_with fdiv (tail prices) prices) ->
  Forall (bounded 11) (later_returns prices).
Proof.
  intros Hp Hq. apply returns_bounded; [|done..].
  destruct Hp; [done|]. done.
Qed.

Lemma fround_IZR z : (Z.abs z < 2 ^ 53)%Z -> fround (IZR z) = Num (IZR z).
Proof.
  intros Hz. destruct (fround_small 53 (IZR z)) as [-> _]; [lia| |].
  - rewrite (bpow_IZR 53), <- abs_IZR by lia. apply IZR_le. lia.
  - by rewrite rnd_IZR.
Qed.

Lemma volatility_valid symbol_data :
  Forall pos_float (Adj_Close symbol_data) ->
  (3 <= length symbol_data)%nat ->
  Forall pos_float (price_ratios symbol_data) ->
  bounded_nonneg 203 (calculate_annualized_volatility symbol_data).
Proof.
  intros Hpos Hlen Hq. unfold calculate_annualized_volatility.
  unfold price_ratios in Hq.
  assert (Hl : length (Adj_Close symbol_data) = length symbol_data)
    by apply length_map.
  destruct (Adj_Close symbol_data) as [|p rest] eqn:E; [simpl in Hl; lia|].
  rewrite daily_returns_cons, dropna_nan_cons.
  pose proof (later_returns_bounded _ Hpos Hq) as Hb.
  pose proof (later_returns_length (p :: rest)) as Hlr.
  rewrite (dropna_finite (later_returns (p :: rest)))
    by (eapply Forall_impl; [exact Hb|apply bounded_finite]).
  apply (fmul_bounded_nonneg 196 7); [lia| |].
  - apply (fmul_bounded_nonneg 187 9); [lia| |].
    + apply std_bounded; [done|]. rewrite Hlr, Hl. lia.
    + apply (fsqrt_bounded_nonneg 8); [lia..|].
      exists 252. split; [done|]. rewrite (bpow_IZR 8) by lia. simpl. lra.
  - exists 100. split; [done|]. rewrite (bpow_IZR 7) by lia. simpl. lra.
Qed.

Lemma fround_overflow x : bpow 1024 <= x -> fround x = PInf.
Proof.
  intros Hx. pose proof (bpow_pos 1024).
  assert (bpow 1024 <= rnd x) as Hr by (apply rnd_ge_bpow; [lia|done]).
  unfold fround. rewrite Rabs_pos_eq by lra.
  destruct (Rle_dec _ _); [|lra]. destruct (Rlt_dec _ _); [done|lra].
Qed.

Lemma fround_underflow x : 0 <= x < bpow (-1075) -> fround x = Num 0.
Proof.
  intros Hx. unfold fround. rewrite (rnd_underflow x Hx), Rabs_R0.
  pose proof (bpow_pos 1024). destruct (Rle_dec _ _); [lra|done].
Qed.

Lemma bpow_inv e : / bpow e = bpow (- e).
Proof.
  pose proof (bpow_pos e). apply Rmult_eq_reg_l with (bpow e); [|lra].
  rewrite Rinv_r by lra. rewrite <- bpow_add. by replace (e + - e)%Z with 0%Z by lia.
Qed.

Local Close Scope R_scope.

(** ** Expected return *)

Lemma span_days_nonempty symbol_data d :
  span_days symbol_data = Ok d -> symbol_data <> [].
Proof. by intros H ->. Qed.

Lemma iloc_first_Adj_Close r rest :
  iloc_first (Adj_Close (r :: rest)) = Ok (adj_close r).
Proof. done. Qed.

Lemma iloc_last_Adj_Close r rest :
  exists p, iloc_last (Adj_Close (r :: rest)) = Ok p.
Proof.
  unfold iloc_last, Adj_Close. rewrite fmap_last.
  destruct (last (r :: rest)) eqn:E; [by eexists|].
  by apply last_None in E.
Qed.

Lemma nasdaq_expected_return_same_day symbol_data :
  span_days symbol_data = Ok 0 ->
  Nasdaq.calculate_expected_return symbol_data = Ok (Num 0).
Proof.
  intros Hdays. destruct symbol_data as [|r rest]; [done|].
  unfold Nasdaq.calculate_expected_return.
  rewrite iloc_first_Adj_Close.
  destruct (iloc_last_Adj_Close r rest) as [p ->].
  by rewrite Hdays.
Qed.

Lemma yahoo_expected_return_same_day symbol_data :
  span_days symbol_data = Ok 0 ->
  Yahoo.calculate_expected_return symbol_data = Raise ZeroDivisionError.
Proof.
  intros Hdays. destruct symbol_data as [|r rest]; [done|].
  unfold Yahoo.calculate_expected_return.
  rewrite iloc_first_Adj_Close.
  destruct (iloc_last_Adj_Close r rest) as [p ->].
  by rewrite Hdays.
Qed.

(** C1.  When the first and the last observation are less than a day apart
    ([days == 0]) the NASDAQ copy of [calculate_expected_return] returns
    0.0, while the Yahoo copy, which lacks the guard, raises
    [ZeroDivisionError] at [365 / days]. *)
Theorem expected_return_same_day (symbol_data : DataFrame) :
  span_days symbol_data = Ok 0 ->
  Nasdaq.calculate_expected_return symbol_data = Ok (Num 0) /\
  Yahoo.calculate_expected_return symbol_data = Raise ZeroDivisionError.
Proof.
  intros Hdays. split.
  - by apply nasdaq_expected_return_same_day.
  - by apply yahoo_expected_return_same_day.
Qed.

Lemma expected_return_same_day_witness :
  span_days same_day_rows = Ok 0 /\
  Nasdaq.calculate_expected_return same_day_rows = Ok (Num 0) /\
  Yahoo.calculate_expected_return same_day_rows = Raise ZeroDivisionError.
Proof.
  split; [reflexivity|].
  apply (expected_return_same_day same_day_rows). reflexivity.
Defined.

Lemma valid_two_day_rows : valid_series two_day_rows.
Proof.
  split.
  - repeat constructor; done.
  - repeat constructor; eexists; (split; [reflexivity|lra]).
Qed.

Lemma valid_three_day_rows : valid_series three_day_rows.
Proof.
  split.
  - repeat constructor; done.
  - repeat constructor; eexists; (split; [reflexivity|lra]).
Qed.

Lemma valid_spike_rows : valid_series spike_rows.
Proof.
  split.
  - repeat constructor; done.
  - repeat constructor; eexists; (split; [reflexivity|apply bpow_pos]).
Qed.

Lemma binary64_bpow e : -1074 <= e < 1024 -> binary64 (Num (bpow e)).
Proof.
  intros He. eexists. split; [done|]. split; [apply rnd_bpow; lia|].
  pose proof (bpow_pos e). rewrite Rabs_pos_eq by lra. apply bpow_lt. lia.
Qed.

(** A daily ratio between [2 ^ j] and [2 ^ k] neither underflows nor
    overflows. *)
Lemma fdiv_in_range j k a b :
  -1074 <= j -> k < 1024 -> (0 < b)%R ->
  (bpow j <= a / b <= bpow k)%R -> pos_float (fdiv (Num a) (Num b)).
Proof.
  intros Hj Hk Hb [H1 H2]. simpl. rewrite Rsign_pos by done.
  pose proof (bpow_pos j) as Hp.
  assert (j <= k) as Hjk by (apply bpow_le_inv; lra).
  destruct (fround_small k (a / b)) as [-> _]; [lia| |].
  { rewrite Rabs_pos_eq; lra. }
  eexists. split; [done|].
  pose proof (rnd_ge_bpow (a / b) j Hj H1). lra.
Qed.

Lemma three_day_ratios : Forall pos_float (price_ratios three_day_rows).
Proof.
  pose proof bpow_m1 as H0.
  assert (H1 : (2 <= bpow 1)%R) by (rewrite (bpow_IZR 1) by lia; simpl; lra).
  change (price_ratios three_day_rows)
    with [fdiv (Num 110) (Num 100); fdiv (Num 105) (Num 110)].
  apply Forall_cons_2; [|apply Forall_cons_2; [|apply Forall_nil_2]];
    apply (fdiv_in_range (-1) 1); try lia; lra.
Qed.

(** The returns of [spike_rows]: the first ratio overflows, the second
    underflows to zero. *)
Lemma spike_returns :
  later_returns (Adj_Close spike_rows) = [PInf; NInf].
Proof.
  unfold later_returns, spike_rows, Adj_Close.
  cbn [map tail zip_with adj_close fdiv].
  rewrite !Rsign_pos by apply bpow_pos. unfold Rdiv.
  rewrite !bpow_inv, <- !bpow_add.
  rewrite fround_overflow by (apply bpow_le; lia).
  rewrite fround_underflow.
  2:{ split; [left; apply bpow_pos|apply bpow_lt; lia]. }
  cbn [flog]. by rewrite Rsign_0.
Qed.

(** A valid series of length 2 has a single daily return, which has no
    sample standard deviation: the volatility is NaN. *)
Lemma volatility_two_rows_not_finite :
  valid_series two_day_rows /\
  (2 <= length two_day_rows)%nat /\
  calculate_annualized_volatility two_day_rows = NaN /\
  ~ (ge0 (calculate_annualized_volatility two_day_rows) /\
     is_finite (calculate_annualized_volatility two_day_rows)).
Proof.
  split; [apply valid_two_day_rows|]. split; [done|].
  assert (H : calculate_annualized_volatility two_day_rows = NaN)
    by (by apply volatility_short).
  split; [done|]. rewrite H. by intros [[] _].
Qed.

(** A valid series of three binary64 prices one of whose daily ratios
    overflows: the returns are [inf] and [-inf], and the volatility is
    NaN. *)
Lemma volatility_overflow_not_finite :
  valid_series spike_rows /\
  (3 <= length spike_rows)%nat /\
  Forall binary64 (Adj_Close spike_rows) /\
  calculate_annualized_volatility spike_rows = NaN /\
  ~ (ge0 (calculate_annualized_volatility spike_rows) /\
     is_finite (calculate_annualized_volatility spike_rows)).
Proof.
  split; [apply valid_spike_rows|]. split; [simpl; lia|].
  split; [repeat constructor; apply binary64_bpow; lia|].
  assert (H : calculate_annualized_volatility spike_rows = NaN).
  { unfold calculate_annualized_volatility.
    change (Adj_Close spike_rows)
      with (Num (bpow (-600)) :: tail (Adj_Close spike_rows)) at 1 2.
    rewrite daily_returns_cons.
    change (Num (bpow (-600)) :: tail (Adj_Close spike_rows))
      with (Adj_Close spike_rows).
    rewrite spike_returns. unfold std, dropna. cbn [filter is_nan].
    reflexivity. }
  split; [done|]. rewrite H. by intros [[] _].
Qed.

(** C2, as stated, fails in two ways: on a series of two rows, and on a
    series one of whose daily price ratios overflows. *)
Lemma volatility_not_finite :
  (valid_series two_day_rows /\
   (2 <= length two_day_rows)%nat /\
   ~ (ge0 (calculate_annualized_volatility two_day_rows) /\
      is_finite (calculate_annualized_volatility two_day_rows))) /\
  (valid_series spike_rows /\
   (2 <= length spike_rows)%nat /\
   Forall binary64 (Adj_Close spike_rows) /\
   ~ (ge0 (calculate_annualized_volatility spike_rows) /\
      is_finite (calculate_annualized_volatility spike_rows))).
Proof.
  destruct volatility_two_rows_not_finite as (H1 & H2 & _ & H3).
  destruct volatility_overflow_not_finite as (H4 & H5 & H6 & _ & H7).
  refine (conj (conj H1 (conj H2 H3)) (conj H4 (conj _ (conj H6 H7)))).
  simpl. lia.
Qed.

(** C2, amended.  For a valid price series of at least three rows in which
    every daily price ratio, as computed, is a positive finite number (it
    neither overflows nor underflows to zero), the annualized volatility
    is finite and not negative. *)
Theorem volatility_finite_nonneg (symbol_data : DataFrame) :
  valid_series symbol_data ->
  (3 <= length symbol_data)%nat ->
  Forall pos_float (price_ratios symbol_data) ->
  ge0 (calculate_annualized_volatility symbol_data) /\
  is_finite (calculate_annualized_volatility symbol_data).
Proof.
  intros [_ Hpos] Hlen Hq. apply finite_nonneg_spec.
  eapply bounded_nonneg_finite. by apply volatility_valid.
Qed.

Lemma volatility_finite_nonneg_witness :
  valid_series three_day_rows /\
  (3 <= length three_day_rows)%nat /\
  Forall pos_float (price_ratios three_day_rows) /\
  ge0 (calculate_annualized_volatility three_day_rows) /\
  is_finite (calculate_annualized_volatility three_day_rows).
Proof.
  split; [apply valid_three_day_rows|]. split; [simpl; lia|].
  split; [apply three_day_ratios|].
  apply (volatility_finite_nonneg three_day_rows);
    [apply valid_three_day_rows|simpl; lia|apply three_day_ratios].
Defined.

(** ** The loop over the symbols *)

Lemma run_loop_snoc F symbols x c0 :
  run_loop F (symbols ++ [x]) c0
  = store_symbol x (F x) (run_loop F symbols c0).
Proof. unfold run_loop. by rewrite foldl_snoc. Qed.

Lemma store_symbol_results x c st :
  (store_symbol x c st).1 = <[x := stats_of c]> st.1.
Proof. by destruct c as [[v r]|err]. Qed.

Lemma store_symbol_cache x c st :
  (store_symbol x c st).2
  = match c with
    | Ok _ => <[x := stats_of c]> st.2
    | Raise _ => st.2
    end.
Proof. by destruct c as [[v r]|err]. Qed.

Lemma elem_of_snoc (s x : string) (symbols : list string) :
  s ∈ symbols ++ [x] <-> s ∈ symbols \/ s = x.
Proof. by rewrite elem_of_app, list_elem_of_singleton. Qed.

Lemma decide_elem_of_snoc {A : Type} (s x : string) (symbols : list string)
    (a b : A) :
  (if decide (s ∈ symbols ++ [x]) then a else b)
  = if decide (x = s) then a else if decide (s ∈ symbols) then a else b.
Proof.
  destruct (decide (x = s)) as [->|Hne].
  - rewrite decide_True; [done|]. apply elem_of_snoc. by right.
  - destruct (decide (s ∈ symbols)) as [Hin|Hin].
    + rewrite decide_True; [done|]. apply elem_of_snoc. by left.
    + rewrite decide_False; [done|]. intros [?| ->]%elem_of_snoc; done.
Qed.

Lemma run_loop_results F symbols c0 s :
  (run_loop F symbols c0).1 !! s
  = if decide (s ∈ symbols) then Some (stats_of (F s)) else None.
Proof.
  induction symbols as [|x symbols IH] using rev_ind.
  - rewrite decide_False; [done|]. apply not_elem_of_nil.
  - rewrite run_loop_snoc, store_symbol_results, decide_elem_of_snoc.
    destruct (decide (x = s)) as [->|Hne].
    + by rewrite lookup_insert_eq.
    + by rewrite lookup_insert_ne, IH.
Qed.

Lemma run_loop_cache F symbols c0 s :
  (run_loop F symbols c0).2 !! s
  = if decide (s ∈ symbols)
    then match F s with
         | Ok _ => Some (stats_of (F s))
         | Raise _ => c0 !! s
         end
    else c0 !! s.
Proof.
  induction symbols as [|x symbols IH] using rev_ind.
  - rewrite decide_False; [done|]. apply not_elem_of_nil.
  - rewrite run_loop_snoc, store_symbol_cache, decide_elem_of_snoc.
    destruct (decide (x = s)) as [->|Hne].
    + destruct (F s) eqn:E; [by rewrite lookup_insert_eq|].
      rewrite IH. by destruct (decide (s ∈ symbols)).
    + rewrite <- IH. destruct (F x); [by rewrite lookup_insert_ne|done].
Qed.

Lemma stats_of_Ok_non_null a : non_null (stats_of (Ok a)).
Proof. destruct a as [v r]. by split; eexists. Qed.

Lemma stats_of_paired c :
  volatility (stats_of c) = None <-> expectedReturn (stats_of c) = None.
Proof. by destruct c as [[v r]|err]. Qed.

Lemma run_loop_ext F G symbols c0 :
  (forall s, F s = G s) -> run_loop F symbols c0 = run_loop G symbols c0.
Proof.
  intros H. induction symbols as [|x symbols IH] using rev_ind; [done|].
  by rewrite !run_loop_snoc, IH, H.
Qed.

Lemma foldl_ext_in {A B : Type} (f g : A -> B -> A) (l : list B) (a : A) :
  (forall st x, x ∈ l -> f st x = g st x) -> foldl f a l = foldl g a l.
Proof.
  induction l as [|x l IH] using rev_ind; intros H; [done|].
  rewrite !foldl_snoc, IH.
  - apply H. apply elem_of_app. right. by apply list_elem_of_singleton.
  - intros st y Hy. apply H. apply elem_of_app. by left.
Qed.

(** ** The cache consultation *)

Lemma missing_symbols_nil (entries : gmap string stats) symbols :
  filter (fun s => entries !! s = None) symbols = []
  <-> Forall (fun s => is_Some (entries !! s)) symbols.
Proof.
  induction symbols as [|x symbols IH]; [done|].
  rewrite filter_cons. destruct (decide (entries !! x = None)) as [Hx|Hx].
  - split; [done|]. intros H. inversion H as [|? ? [v Hv] _]. congruence.
  - rewrite IH. split.
    + intros H. constructor; [|done].
      destruct (entries !! x); [by eexists|done].
    + intros H. by inversion H.
Qed.

Lemma cached_results_spec (entries : gmap string stats) symbols :
  Forall (fun s => is_Some (entries !! s)) symbols ->
  exists results,
    cached_results entries symbols = Ok results /\
    forall s, results !! s
              = if decide (s ∈ symbols) then entries !! s else None.
Proof.
  unfold cached_results.
  induction symbols as [|x symbols IH] using rev_ind; intros H.
  - exists ∅. split; [done|]. intros s. rewrite lookup_empty.
    destruct (decide (s ∈ [])) as [Hs|_]; [by apply elem_of_nil in Hs|done].
  - apply Forall_app in H as [H Hx]. apply Forall_singleton in Hx as [v Hv].
    destruct (IH H) as (results & Heq & Hres).
    exists (<[x := v]> results). rewrite foldl_snoc, Heq. split.
    + simpl. unfold getitem. by rewrite Hv.
    + intros s. destruct (decide (x = s)) as [->|Hne].
      * rewrite lookup_insert_eq, decide_True; [done|].
        apply elem_of_app. right. by apply list_elem_of_singleton.
      * rewrite lookup_insert_ne, Hres by done.
        destruct (decide (s ∈ symbols)) as [Hin|Hin].
        -- rewrite decide_True; [done|]. apply elem_of_app. by left.
        -- rewrite decide_False; [done|].
           intros [?|Hs%list_elem_of_singleton]%elem_of_app; congruence.
Qed.

Lemma consult_cache_view e f symbols :
  cache_view e f symbols (consult_cache e f symbols).
Proof.
  unfold consult_cache.
  destruct (cache_exists f && cache_fresh e f) eqn:Husable;
    [|by apply view_stale].
  apply andb_true_iff in Husable as [_ Hfresh].
  destruct f as [[t [|entries]]|]; simpl in *; [| |done].
  - apply bool_decide_eq_true in Hfresh. by eapply view_corrupt.
  - apply bool_decide_eq_true in Hfresh.
    destruct (filter _ symbols) eqn:Hmiss.
    + apply missing_symbols_nil in Hmiss.
      destruct (cached_results_spec entries symbols Hmiss)
        as (results & -> & Hres).
      by eapply view_hit.
    + eapply view_partial; [done..|].
      intros H%missing_symbols_nil. congruence.
Qed.

(** ** The providers *)

Lemma fetch_world_nasdaq_nil e period w : fetch_world nasdaq e [] period w = w.
Proof. destruct w. unfold fetch_world. simpl. by rewrite app_nil_r. Qed.

Lemma fetch_world_snoc e symbols x period w :
  fetch_world nasdaq e [x] period (fetch_world nasdaq e symbols period w)
  = fetch_world nasdaq e (symbols ++ [x]) period w.
Proof.
  unfold fetch_world. simpl. by rewrite map_app, foldl_snoc, app_assoc.
Qed.

Lemma nasdaq_fetch_one e symbol period w :
  Nasdaq.fetch_nasdaq_historical_data e symbol period w
  = (fetched nasdaq e [] period symbol, fetch_world nasdaq e [symbol] period w).
Proof.
  unfold Nasdaq.fetch_nasdaq_historical_data, fetch_world. simpl.
  destruct (nasdaq_get e symbol period) as [|csv_content [|]|t]; try done.
  by destruct (table t).
Qed.

Lemma nasdaq_fetch_spec e symbols period w :
  exists data_dict,
    Nasdaq.fetch_historical_data e symbols period w
    = (data_dict, fetch_world nasdaq e symbols period w) /\
    forall s, data_dict !! s
              = if decide (s ∈ symbols)
                then fetched nasdaq e symbols period s else None.
Proof.
  unfold Nasdaq.fetch_historical_data.
  induction symbols as [|x symbols IH] using rev_ind.
  - exists ∅. simpl. rewrite fetch_world_nasdaq_nil. split; [done|].
    intros s. rewrite lookup_empty.
    destruct (decide (s ∈ [])) as [Hs|_]; [by apply elem_of_nil in Hs|done].
  - destruct IH as (dict & Heq & Hdict).
    rewrite foldl_snoc, Heq, nasdaq_fetch_one, fetch_world_snoc.
    assert (Hcase : forall s, s ∈ symbols ++ [x] <-> s ∈ symbols \/ s = x).
    { intros s. rewrite elem_of_app, list_elem_of_singleton. done. }
    destruct (fetched nasdaq e [] period x) as [t|] eqn:Hx.
    + exists (<[x := t]> dict). split; [done|]. intros s.
      destruct (decide (x = s)) as [->|Hne].
      * rewrite lookup_insert_eq, decide_True; [by symmetry|].
        apply Hcase. by right.
      * rewrite lookup_insert_ne, Hdict by done.
        destruct (decide (s ∈ symbols)) as [Hin|Hin].
        -- rewrite decide_True; [done|]. apply Hcase. by left.
        -- rewrite decide_False; [done|]. intros [?| ->]%Hcase; congruence.
    + exists dict. split; [done|]. intros s. rewrite Hdict.
      destruct (decide (s ∈ symbols)) as [Hin|Hin].
      * rewrite decide_True; [done|]. apply Hcase. by left.
      * destruct (decide (s ∈ symbols ++ [x])) as [[?| ->]%Hcase|_];
          [done| |done].
        by symmetry.
Qed.

Lemma nasdaq_dict_empty e symbols period
    (data_dict : gmap string frame) :
  (forall s, data_dict !! s
             = if decide (s ∈ symbols)
               then fetched nasdaq e symbols period s else None) ->
  data_dict = ∅ <-> ~ delivered nasdaq e symbols period.
Proof.
  intros Hdict. split.
  - intros -> (s & Hin & [df Hdf]).
    specialize (Hdict s). rewrite lookup_empty, decide_True in Hdict by done.
    congruence.
  - intros Hno. apply map_empty. intros s. rewrite Hdict.
    destruct (decide (s ∈ symbols)) as [Hin|_]; [|done].
    destruct (fetched nasdaq e symbols period s) eqn:E; [|done].
    exfalso. apply Hno. exists s. split; [done|]. rewrite E. by eexists.
Qed.

Lemma yahoo_select_raises symbols data symbol err :
  Yahoo.select_symbol_data symbols data symbol = Raise err -> err = KeyError.
Proof.
  unfold Yahoo.select_symbol_data, getitem.
  destruct (decide _), data as [df|tables]; try congruence.
  destruct (tables !! symbol); congruence.
Qed.

Lemma yahoo_compute_symbol e symbols period data symbol :
  yf_download e symbols period = Some data ->
  Yahoo.compute_symbol symbols data symbol
  = computed yahoo e symbols period symbol.
Proof.
  intros Hdata. unfold computed, fetched, Yahoo.compute_symbol. rewrite Hdata.
  destruct (Yahoo.select_symbol_data symbols data symbol) as [df|err] eqn:E.
  - done.
  - apply yahoo_select_raises in E as ->. done.
Qed.

(** ** One call, case by case *)

Lemma get_stats_hit p e symbols period w results :
  consult_cache e (cache_dir w !! cache_path p period) symbols = Return results ->
  get_stats p e symbols period w = (Ok results, w).
Proof.
  intros H. destruct p; simpl in *.
  - unfold Yahoo.get_stock_volatility_and_returns. by rewrite H.
  - unfold Nasdaq.get_stock_volatility_and_returns. by rewrite H.
Qed.

Lemma get_stats_undelivered p e symbols period w cache_data :
  consult_cache e (cache_dir w !! cache_path p period) symbols
  = Continue cache_data ->
  ~ delivered p e symbols period ->
  get_stats p e symbols period w
  = (Ok ∅, fetch_world p e symbols period w).
Proof.
  intros H Hno. destruct p; simpl in *.
  - unfold Yahoo.get_stock_volatility_and_returns. rewrite H. simpl.
    destruct (yf_download e symbols period) eqn:E; [|done].
    exfalso. apply Hno. by eexists.
  - unfold Nasdaq.get_stock_volatility_and_returns. rewrite H.
    destruct (nasdaq_fetch_spec e symbols period w) as (dict & -> & Hdict).
    destruct (decide (dict = ∅)) as [_|Hne]; [done|].
    exfalso. apply Hne. by eapply nasdaq_dict_empty.
Qed.

Lemma get_stats_delivered p e symbols period w cache_data :
  consult_cache e (cache_dir w !! cache_path p period) symbols
  = Continue cache_data ->
  delivered p e symbols period ->
  get_stats p e symbols period w = recompute p e symbols period w cache_data.
Proof.
  intros H Hyes. unfold recompute. destruct p; simpl in *.
  - unfold Yahoo.get_stock_volatility_and_returns. rewrite H. simpl.
    destruct Hyes as [data Hdata]. rewrite Hdata.
    destruct (rebind_cache_data _ _ _) as [c0|err]; [|done].
    change (foldl _ (∅, c0) symbols)
      with (run_loop (Yahoo.compute_symbol symbols data) symbols c0).
    rewrite (run_loop_ext _ (computed yahoo e symbols period));
      [|intros s; by apply yahoo_compute_symbol].
    by destruct (run_loop _ _ _).
  - unfold Nasdaq.get_stock_volatility_and_returns. rewrite H.
    destruct (nasdaq_fetch_spec e symbols period w) as (dict & -> & Hdict).
    destruct (decide (dict = ∅)) as [Hemp|_].
    { exfalso. by eapply nasdaq_dict_empty. }
    destruct (rebind_cache_data _ _ _) as [c0|err]; [|done].
    rewrite (foldl_ext_in _
      (fun st symbol =>
         store_symbol symbol (computed nasdaq e symbols period symbol) st)).
    + change (foldl _ (∅, c0) symbols)
        with (run_loop (computed nasdaq e symbols period) symbols c0).
      by destruct (run_loop _ _ _).
    + intros st x Hx. rewrite Hdict, decide_True by done.
      unfold computed. by destruct (fetched nasdaq e symbols period x).
Qed.

Lemma consult_fresh_corrupt e w path symbols :
  fresh_corrupt e w path ->
  consult_cache e (cache_dir w !! path) symbols = Continue None /\
  rebind_cache_data e (cache_dir w !! path) None = Raise UnboundLocalError.
Proof.
  intros (t & -> & Hfresh).
  unfold consult_cache, rebind_cache_data. simpl.
  by rewrite bool_decide_eq_true_2.
Qed.

Lemma rebind_continue e f symbols cache_data :
  consult_cache e f symbols = Continue cache_data ->
  (exists t, f = Some (CacheFile t Corrupt) /\ now e - t < one_day /\
             rebind_cache_data e f cache_data = Raise UnboundLocalError) \/
  rebind_cache_data e f cache_data = Ok ∅ \/
  (exists t entries,
     f = Some (CacheFile t (CacheJson entries)) /\ now e - t < one_day /\
     ~ Forall (fun s => is_Some (entries !! s)) symbols /\
     rebind_cache_data e f cache_data = Ok entries).
Proof.
  intros H. pose proof (consult_cache_view e f symbols) as V.
  rewrite H in V. unfold rebind_cache_data.
  inversion V as [| t entries Hf Hfresh Hpart | t Hf Hfresh | Hstale]; subst.
  - right. right. exists t, entries. simpl.
    by rewrite bool_decide_eq_true_2.
  - left. exists t. simpl. by rewrite bool_decide_eq_true_2.
  - right. left. by rewrite Hstale.
Qed.

(** C3.  A fresh but unreadable cache file is not treated as a cache miss:
    as soon as the provider delivers data, reading the unbound local
    [cache_data] raises [UnboundLocalError], which leaves
    [get_stock_volatility_and_returns]. *)
Theorem corrupt_fresh_cache_raises (p : provider) (e : env)
    (symbols : list string) (period : string) (w : world) :
  fresh_corrupt e w (cache_path p period) ->
  delivered p e symbols period ->
  (get_stats p e symbols period w).1 = Raise UnboundLocalError.
Proof.
  intros Hcorrupt Hdel.
  destruct (consult_fresh_corrupt e w _ symbols Hcorrupt) as [Hc Hr].
  rewrite (get_stats_delivered _ _ _ _ _ _ Hc Hdel).
  unfold recompute. by rewrite Hr.
Qed.

Lemma corrupt_fresh_cache_raises_witness :
  fresh_corrupt yahoo_env corrupt_world (cache_path yahoo "1y") /\
  delivered yahoo yahoo_env ["TSLA"] "1y" /\
  (get_stats yahoo yahoo_env ["TSLA"] "1y" corrupt_world).1
  = Raise UnboundLocalError.
Proof.
  assert (H1 : fresh_corrupt yahoo_env corrupt_world (cache_path yahoo "1y")).
  { exists 0. split; [reflexivity|]. reflexivity. }
  assert (H2 : delivered yahoo yahoo_env ["TSLA"] "1y").
  { simpl. by eexists. }
  split; [exact H1|]. split; [exact H2|].
  exact (corrupt_fresh_cache_raises yahoo yahoo_env ["TSLA"] "1y"
           corrupt_world H1 H2).
Defined.

Lemma span_days_cons r df : exists d, span_days (r :: df) = Ok d.
Proof.
  unfold span_days, iloc_last, index. rewrite fmap_last.
  destruct (last (r :: df)) eqn:E; [by eexists|].
  by apply last_None in E.
Qed.

(** On a table with at least one row and a date index the NASDAQ
    statistics never raise; without a date index they raise. *)
Lemma nasdaq_compute_total r df :
  exists v x, Nasdaq.compute_symbol (DateIndexed (r :: df)) = Ok (v, x).
Proof.
  unfold Nasdaq.compute_symbol, expected_return_on,
    Nasdaq.calculate_expected_return.
  rewrite iloc_first_Adj_Close.
  destruct (iloc_last_Adj_Close r df) as [p ->].
  destruct (span_days_cons r df) as [d ->]. simpl.
  destruct (decide (d = 0)) as [->|Hd]; [by eexists _, _|].
  unfold truediv. rewrite decide_False by done. by eexists _, _.
Qed.



Lemma consult_no_file e symbols : consult_cache e None symbols = Continue None.
Proof. done. Qed.

Lemma dead_env_undelivered symbols period :
  ~ delivered nasdaq dead_env symbols period.
Proof. by intros (s & _ & [df Hdf]). Qed.




(** ** The fresh cache *)

Lemma consult_hit e f symbols t entries :
  f = Some (CacheFile t (CacheJson entries)) ->
  now e - t < one_day ->
  Forall (fun s => is_Some (entries !! s)) symbols ->
  exists results,
    consult_cache e f symbols = Return results /\
    forall s, results !! s
              = if decide (s ∈ symbols) then entries !! s else None.
Proof.
  intros -> Hfresh Hall.
  pose proof (consult_cache_view e (Some (CacheFile t (CacheJson entries)))
                symbols) as V.
  inversion V as [t' entries' results Hf _ _ Hres
                 | t' entries' Hf _ Hpart | t' Hf _ | Hstale].
  - injection Hf as <- <-. by exists results.
  - injection Hf as <- <-. done.
  - done.
  - simpl in Hstale. by rewrite bool_decide_eq_true_2 in Hstale.
Qed.

Lemma save_cache_file e path entries w :
  cache_writable e = true ->
  cache_dir (save_cache e path entries w) !! path
  = Some (CacheFile (write_time e) (CacheJson entries)).
Proof.
  intros Hw. unfold save_cache. rewrite Hw. simpl. apply lookup_insert_eq.
Qed.

(** Write, then read: a document written to the cache file and requested
    again within a day, for exactly its symbols, comes back unchanged and
    without a request to the provider. *)
Lemma write_then_read (p : provider) (e1 e2 : env) (symbols : list string)
    (period : string) (w : world) (entries : gmap string stats) :
  cache_writable e1 = true ->
  now e2 - write_time e1 < one_day ->
  (forall s, is_Some (entries !! s) <-> s ∈ symbols) ->
  get_stats p e2 symbols period (save_cache e1 (cache_path p period) entries w)
  = (Ok entries, save_cache e1 (cache_path p period) entries w).
Proof.
  intros Hw Hfresh Hdom.
  set (w1 := save_cache e1 (cache_path p period) entries w).
  assert (Hall : Forall (fun s => is_Some (entries !! s)) symbols).
  { apply Forall_forall. intros s Hs. by apply Hdom. }
  destruct (consult_hit e2 (cache_dir w1 !! cache_path p period) symbols
              (write_time e1) entries) as (results & Hc & Hres);
    [by apply save_cache_file|done|done|].
  rewrite (get_stats_hit _ _ _ _ _ _ Hc). do 2 f_equal.
  apply map_eq. intros s. rewrite Hres.
  destruct (decide (s ∈ symbols)) as [|Hs]; [done|].
  destruct (entries !! s) eqn:E; [|done].
  exfalso. apply Hs, Hdom. by eexists.
Qed.

(** C5.  When the cache file exists, is less than a day old and holds every
    requested symbol, the call returns the cached statistics of the
    requested symbols and changes nothing: no request is sent, no file is
    written.  And the round trip: once a document has been written to the
    cache file, a call within a day of the write, for exactly the symbols
    of the document, returns the document as it was written, again
    without a request. *)
Theorem fresh_cache_hit (p : provider) (e : env) (symbols : list string)
    (period : string) :
  (forall (w : world) (t : Z) (entries : gmap string stats),
     cache_dir w !! cache_path p period
     = Some (CacheFile t (CacheJson entries)) ->
     now e - t < one_day ->
     Forall (fun s => is_Some (entries !! s)) symbols ->
     exists results,
       get_stats p e symbols period w = (Ok results, w) /\
       (forall s, s ∈ symbols -> results !! s = entries !! s) /\
       (forall s, s ∉ symbols -> results !! s = None) /\
       ((forall s, is_Some (entries !! s) -> s ∈ symbols) ->
        results = entries)) /\
  (forall (e1 : env) (w0 : world) (written : gmap string stats),
     cache_writable e1 = true ->
     now e - write_time e1 < one_day ->
     (forall s, is_Some (written !! s) <-> s ∈ symbols) ->
     let w := save_cache e1 (cache_path p period) written w0 in
     cache_dir w !! cache_path p period
     = Some (CacheFile (write_time e1) (CacheJson written)) /\
     get_stats p e symbols period w = (Ok written, w)).
Proof.
  split.
  - intros w t entries Hf Hfresh Hall.
    destruct (consult_hit e _ symbols t entries Hf Hfresh Hall)
      as (results & Hc & Hres).
    exists results. split; [by apply get_stats_hit|].
    split; [|split].
    + intros s Hs. by rewrite Hres, decide_True.
    + intros s Hs. by rewrite Hres, decide_False.
    + intros Hdom. apply map_eq. intros s. rewrite Hres.
      destruct (decide (s ∈ symbols)) as [|Hs]; [done|].
      destruct (entries !! s) eqn:E; [|done].
      exfalso. apply Hs, Hdom. by eexists.
  - intros e1 w0 written Hw Hfresh Hdom. cbv zeta.
    split; [by apply save_cache_file|by apply write_then_read].
Qed.

Lemma fresh_cache_hit_witness :
  (cache_dir cached_world !! cache_path nasdaq "y5"
   = Some (CacheFile 0 (CacheJson two_entries)) /\
   now hour_later_env - 0 < one_day /\
   Forall (fun s => is_Some (two_entries !! s)) ["A"; "B"] /\
   exists results,
     get_stats nasdaq hour_later_env ["A"; "B"] "y5" cached_world
     = (Ok results, cached_world) /\
     (forall s, s ∈ ["A"; "B"] -> results !! s = two_entries !! s) /\
     (forall s, s ∉ ["A"; "B"] -> results !! s = None) /\
     ((forall s, is_Some (two_entries !! s) -> s ∈ ["A"; "B"]) ->
      results = two_entries)) /\
  (cache_writable dead_env = true /\
   now hour_later_env - write_time dead_env < one_day /\
   (forall s, is_Some (two_entries !! s) <-> s ∈ ["A"; "B"]) /\
   let w := save_cache dead_env (cache_path nasdaq "y5") two_entries
              empty_world in
   cache_dir w !! cache_path nasdaq "y5"
   = Some (CacheFile (write_time dead_env) (CacheJson two_entries)) /\
   get_stats nasdaq hour_later_env ["A"; "B"] "y5" w = (Ok two_entries, w)).
Proof.
  assert (H1 : cache_dir cached_world !! cache_path nasdaq "y5"
               = Some (CacheFile 0 (CacheJson two_entries))) by reflexivity.
  assert (H2 : now hour_later_env - 0 < one_day) by reflexivity.
  assert (H3 : Forall (fun s => is_Some (two_entries !! s)) ["A"; "B"]).
  { repeat constructor; by eexists. }
  assert (H4 : cache_writable dead_env = true) by reflexivity.
  assert (H5 : now hour_later_env - write_time dead_env < one_day)
    by reflexivity.
  assert (H6 : forall s, is_Some (two_entries !! s) <-> s ∈ ["A"; "B"]).
  { intros s. unfold two_entries.
    rewrite !lookup_insert_is_Some, lookup_empty, !elem_of_cons, elem_of_nil.
    split.
    - intros [->|[_ [->|[_ [? H]]]]]; [by left|right; by left|done].
    - intros [->|[->|[]]]; [by left|].
      destruct (decide ("A" = "B")) as [E|E]; [discriminate E|].
      right. split; [done|]. by left. }
  destruct (fresh_cache_hit nasdaq hour_later_env ["A"; "B"] "y5")
    as [Hhit Hround].
  split.
  - split; [exact H1|]. split; [exact H2|]. split; [exact H3|].
    exact (Hhit cached_world 0 two_entries H1 H2 H3).
  - split; [exact H4|]. split; [exact H5|]. split; [exact H6|].
    exact (Hround dead_env empty_world two_entries H4 H5 H6).
Defined.

(** ** Recomputation and the cache file *)

Lemma recompute_written p e symbols period w cache_data c0 :
  rebind_cache_data e (cache_dir w !! cache_path p period) cache_data = Ok c0 ->
  cache_writable e = true ->
  let w' := (recompute p e symbols period w cache_data).2 in
  (requests w' = requests w ++ sent p symbols period /\
   cache_dir w' !! cache_path p period
   = Some (CacheFile (write_time e)
             (CacheJson (run_loop (computed p e symbols period) symbols c0).2))).
Proof.
  intros Hr Hw. unfold recompute. rewrite Hr. simpl. split.
  - unfold save_cache. by rewrite Hw.
  - by rewrite save_cache_file.
Qed.

(** C6, as stated, fails for a stale cache: its contents are dropped, and
    the rewritten file holds the newly computed symbols only. *)
Lemma stale_cache_dropped :
  cache_entries cached_world (cache_path nasdaq "y5") = Some two_entries /\
  is_Some (two_entries !! "A") /\
  ("A" ∉ ["C"]) /\
  exists entries',
    cache_entries (get_stats nasdaq two_days_later_env ["C"] "y5" cached_world).2
                  (cache_path nasdaq "y5") = Some entries' /\
    is_Some (entries' !! "C") /\
    entries' !! "A" = None.
Proof.
  split; [reflexivity|]. split; [by eexists|].
  split; [intros H%list_elem_of_singleton; discriminate H|].
  assert (Hc : consult_cache two_days_later_env
                 (cache_dir cached_world !! cache_path nasdaq "y5") ["C"]
               = Continue None) by reflexivity.
  assert (Hd : delivered nasdaq two_days_later_env ["C"] "y5").
  { exists "C". split; [by left|]. by eexists. }
  rewrite (get_stats_delivered _ _ _ _ _ _ Hc Hd).
  destruct (recompute_written nasdaq two_days_later_env ["C"] "y5"
              cached_world None ∅) as [_ Hfile]; [reflexivity..|].
  eexists. split; [unfold cache_entries; by rewrite Hfile|].
  rewrite !run_loop_cache. split.
  - rewrite decide_True by (by left).
    destruct (nasdaq_compute_total (Row 0 (Num 100))
                [Row ns_per_day (Num 110); Row (2 * ns_per_day) (Num 105)])
      as (v & x & Hvx).
    change (computed nasdaq two_days_later_env ["C"] "y5" "C")
      with (Nasdaq.compute_symbol (DateIndexed three_day_rows)).
    unfold three_day_rows. rewrite Hvx. by eexists.
  - rewrite decide_False; [done|].
    intros H%list_elem_of_singleton. discriminate H.
Qed.

(** C6, amended.  When the cache file is fresh and readable but lacks a
    requested symbol, the provider delivers and the file can be written,
    the call sends the requests for the whole batch and rewrites the file
    with the prior entries merged with the new ones: every symbol cached
    before is still there, unchanged if it is outside the request, and
    every requested symbol whose statistics are computed is there with
    them. *)
Theorem fresh_partial_cache_merged (p : provider) (e : env)
    (symbols : list string) (period : string) (w : world) (t : Z)
    (entries : gmap string stats) :
  cache_dir w !! cache_path p period = Some (CacheFile t (CacheJson entries)) ->
  now e - t < one_day ->
  ~ Forall (fun s => is_Some (entries !! s)) symbols ->
  delivered p e symbols period ->
  cache_writable e = true ->
  let w' := (get_stats p e symbols period w).2 in
  requests w' = requests w ++ sent p symbols period /\
  exists entries',
    cache_dir w' !! cache_path p period
    = Some (CacheFile (write_time e) (CacheJson entries')) /\
    (forall s, is_Some (entries !! s) -> is_Some (entries' !! s)) /\
    (forall s, s ∉ symbols -> entries' !! s = entries !! s) /\
    (forall s a, s ∈ symbols ->
       computed p e symbols period s = Ok a ->
       entries' !! s = Some (stats_of (Ok a))).
Proof.
  intros Hf Hfresh Hpart Hdel Hw.
  pose proof (consult_cache_view e (cache_dir w !! cache_path p period) symbols)
    as V.
  rewrite Hf in V.
  inversion V as [t' entries' results Hf' _ Hall _
                 | t' entries' Hf' _ _ | t' Hf' _ | Hstale].
  - injection Hf' as <- <-. done.
  - injection Hf' as <- <-. symmetry in H. rewrite <- Hf in H.
    rewrite (get_stats_delivered _ _ _ _ _ _ H Hdel).
    destruct (recompute_written p e symbols period w (Some entries) entries)
      as [Hreq Hfile]; [|done|].
    { unfold rebind_cache_data. rewrite Hf. simpl.
      by rewrite bool_decide_eq_true_2. }
    split; [done|]. eexists. split; [exact Hfile|].
    split; [|split].
    + intros s Hs. rewrite run_loop_cache.
      destruct (decide (s ∈ symbols)); [|done].
      by destruct (computed p e symbols period s).
    + intros s Hs. by rewrite run_loop_cache, decide_False.
    + intros s a Hs Ha. by rewrite run_loop_cache, decide_True, Ha.
  - done.
  - simpl in Hstale. by rewrite bool_decide_eq_true_2 in Hstale.
Qed.

Lemma fresh_partial_cache_merged_witness :
  cache_dir cached_world !! cache_path nasdaq "y5"
  = Some (CacheFile 0 (CacheJson two_entries)) /\
  now hour_later_AC_env - 0 < one_day /\
  ~ Forall (fun s => is_Some (two_entries !! s)) ["A"; "C"] /\
  delivered nasdaq hour_later_AC_env ["A"; "C"] "y5" /\
  cache_writable hour_later_AC_env = true /\
  let w' := (get_stats nasdaq hour_later_AC_env ["A"; "C"] "y5" cached_world).2 in
  requests w' = requests cached_world ++ sent nasdaq ["A"; "C"] "y5" /\
  exists entries',
    cache_dir w' !! cache_path nasdaq "y5"
    = Some (CacheFile (write_time hour_later_AC_env) (CacheJson entries')) /\
    (forall s, is_Some (two_entries !! s) -> is_Some (entries' !! s)) /\
    (forall s, s ∉ ["A"; "C"] -> entries' !! s = two_entries !! s) /\
    (forall s a, s ∈ ["A"; "C"] ->
       computed nasdaq hour_later_AC_env ["A"; "C"] "y5" s = Ok a ->
       entries' !! s = Some (stats_of (Ok a))).
Proof.
  assert (H1 : cache_dir cached_world !! cache_path nasdaq "y5"
               = Some (CacheFile 0 (CacheJson two_entries))) by reflexivity.
  assert (H2 : now hour_later_AC_env - 0 < one_day) by reflexivity.
  assert (H3 : ~ Forall (fun s => is_Some (two_entries !! s)) ["A"; "C"]).
  { intros H. inversion H as [|? ? _ H']. inversion H' as [|? ? [v Hv] _].
    discriminate Hv. }
  assert (H4 : delivered nasdaq hour_later_AC_env ["A"; "C"] "y5").
  { exists "A". split; [by left|]. by eexists. }
  assert (H5 : cache_writable hour_later_AC_env = true) by reflexivity.
  split; [exact H1|]. split; [exact H2|]. split; [exact H3|].
  split; [exact H4|]. split; [exact H5|].
  exact (fresh_partial_cache_merged nasdaq hour_later_AC_env ["A"; "C"] "y5"
           cached_world 0 two_entries H1 H2 H3 H4 H5).
Defined.

(** ** What the cache files hold *)

Lemma fresh_partial_recompute p e symbols period w t entries :
  cache_dir w !! cache_path p period = Some (CacheFile t (CacheJson entries)) ->
  now e - t < one_day ->
  ~ Forall (fun s => is_Some (entries !! s)) symbols ->
  delivered p e symbols period ->
  get_stats p e symbols period w
  = (Ok (run_loop (computed p e symbols period) symbols entries).1,
     save_cache e (cache_path p period)
       (run_loop (computed p e symbols period) symbols entries).2
       (fetch_world p e symbols period w)).
Proof.
  intros Hf Hfresh Hpart Hdel.
  pose proof (consult_cache_view e (cache_dir w !! cache_path p period) symbols)
    as V.
  rewrite Hf in V.
  inversion V as [t' entries' results Hf' _ Hall _
                 | t' entries' Hf' _ _ | t' Hf' _ | Hstale].
  - injection Hf' as <- <-. done.
  - injection Hf' as <- <-. symmetry in H. rewrite <- Hf in H.
    rewrite (get_stats_delivered _ _ _ _ _ _ H Hdel). unfold recompute.
    unfold rebind_cache_data. rewrite Hf. simpl.
    by rewrite bool_decide_eq_true_2.
  - done.
  - simpl in Hstale. by rewrite bool_decide_eq_true_2 in Hstale.
Qed.

Lemma delivered_dec p e symbols period :
  delivered p e symbols period \/ ~ delivered p e symbols period.
Proof.
  destruct p; simpl.
  - destruct (yf_download e symbols period); [left; by eexists|right].
    by intros [? ?].
  - destruct (decide (Exists (fun s => is_Some (fetched nasdaq e symbols period s))
                             symbols)) as [H|H].
    + left. apply Exists_exists in H. exact H.
    + right. intros H'. apply H, Exists_exists. exact H'.
Qed.

(** An entry of a cache file after a call was computed by this call, with
    both fields non-null, or was in that file before the call. *)
Lemma get_stats_cache_provenance p e symbols period w path entries' s st :
  cache_entries (get_stats p e symbols period w).2 path = Some entries' ->
  entries' !! s = Some st ->
  non_null st \/
  exists entries, cache_entries w path = Some entries /\ entries !! s = Some st.
Proof.
  intros Hfile Hs.
  destruct (consult_cache e (cache_dir w !! cache_path p period) symbols)
    as [results|cache_data] eqn:Hc.
  { rewrite (get_stats_hit _ _ _ _ _ _ Hc) in Hfile. right. by exists entries'. }
  destruct (delivered_dec p e symbols period) as [Hdel|Hno].
  2:{ rewrite (get_stats_undelivered _ _ _ _ _ _ Hc Hno) in Hfile.
      right. by exists entries'. }
  rewrite (get_stats_delivered _ _ _ _ _ _ Hc Hdel) in Hfile.
  unfold recompute in Hfile.
  destruct (rebind_continue _ _ _ _ Hc)
    as [(t & _ & _ & Hr)|[Hr|(t & entries & Hf & _ & _ & Hr)]];
    rewrite Hr in Hfile; simpl in Hfile.
  - right. by exists entries'.
  - unfold save_cache in Hfile.
    destruct (cache_writable e); [|right; by exists entries'].
    unfold cache_entries in Hfile. simpl in Hfile.
    destruct (decide (cache_path p period = path)) as [<-|Hne].
    + rewrite lookup_insert_eq in Hfile. injection Hfile as <-.
      rewrite run_loop_cache in Hs.
      destruct (decide (s ∈ symbols)); [|by rewrite lookup_empty in Hs].
      destruct (computed p e symbols period s) as [a|err];
        [|by rewrite lookup_empty in Hs].
      injection Hs as <-. left. apply stats_of_Ok_non_null.
    + rewrite lookup_insert_ne in Hfile by done. right. by exists entries'.
  - unfold save_cache in Hfile.
    destruct (cache_writable e); [|right; by exists entries'].
    unfold cache_entries in Hfile. simpl in Hfile.
    destruct (decide (cache_path p period = path)) as [<-|Hne].
    + rewrite lookup_insert_eq in Hfile. injection Hfile as <-.
      rewrite run_loop_cache in Hs.
      assert (Hold : entries !! s = Some st ->
                non_null st \/
                exists entries0,
                  cache_entries w (cache_path p period) = Some entries0 /\
                  entries0 !! s = Some st).
      { intros H. right. exists entries. unfold cache_entries. by rewrite Hf. }
      destruct (decide (s ∈ symbols)); [|by apply Hold].
      destruct (computed p e symbols period s) as [a|err]; [|by apply Hold].
      injection Hs as <-. left. apply stats_of_Ok_non_null.
    + rewrite lookup_insert_ne in Hfile by done. right. by exists entries'.
Qed.

Lemma get_stats_caches_non_null p e symbols period w :
  caches_non_null w -> caches_non_null (get_stats p e symbols period w).2.
Proof.
  intros Hinv path entries' s st Hfile Hs.
  destruct (get_stats_cache_provenance _ _ _ _ _ _ _ _ _ Hfile Hs)
    as [?|(entries & Hold & Hs')]; [done|].
  by eapply Hinv.
Qed.

Lemma non_null_paired st :
  non_null st -> (volatility st = None <-> expectedReturn st = None).
Proof. intros [[v Hv] [r Hr]]. rewrite Hv, Hr. done. Qed.

Lemma get_stats_results_paired p e symbols period w results s st :
  caches_non_null w ->
  (get_stats p e symbols period w).1 = Ok results ->
  results !! s = Some st ->
  (volatility st = None <-> expectedReturn st = None).
Proof.
  intros Hinv Hres Hs.
  pose proof (consult_cache_view e (cache_dir w !! cache_path p period) symbols)
    as V.
  destruct (consult_cache e (cache_dir w !! cache_path p period) symbols)
    as [results0|cache_data] eqn:Hc.
  { rewrite (get_stats_hit _ _ _ _ _ _ Hc) in Hres. injection Hres as ->.
    inversion V as [t entries ? Hf _ _ Hlook| | |]; subst.
    rewrite Hlook in Hs. destruct (decide (s ∈ symbols)); [|done].
    apply non_null_paired.
    apply (Hinv (cache_path p period) entries s st); [|done].
    unfold cache_entries. by rewrite Hf. }
  destruct (delivered_dec p e symbols period) as [Hdel|Hno].
  2:{ rewrite (get_stats_undelivered _ _ _ _ _ _ Hc Hno) in Hres.
      injection Hres as <-. by rewrite lookup_empty in Hs. }
  rewrite (get_stats_delivered _ _ _ _ _ _ Hc Hdel) in Hres.
  unfold recompute in Hres.
  destruct (rebind_cache_data _ _ _) as [c0|err]; [|done].
  simpl in Hres. injection Hres as <-.
  rewrite run_loop_results in Hs. destruct (decide (s ∈ symbols)); [|done].
  injection Hs as <-. apply stats_of_paired.
Qed.

Lemma add_stock_unfold e symbol w :
  add_stock e symbol w
  = match load_settings w with
    | Raise KeyError => (Raise KeyError, w)
    | Raise _ => (Ok false, w)
    | Ok doc =>
        if decide (is_Some (stocks doc !! upper symbol)) then (Ok false, w)
        else
          let r := get_stats yahoo e [upper symbol] "5y" w in
          match r.1 with
          | Raise err => (Raise err, r.2)
          | Ok stock_data =>
              match stock_data !! upper symbol with
              | Some (Stats (Some v) (Some x)) =>
                  if settings_writable e
                  then (Ok true,
                        set_stock_settings
                          (Some (SettingsJson
                             (SettingsDoc
                                (<[upper symbol := new_entry v x]> (stocks doc))
                                (other_members doc)))) r.2)
                  else (Ok false, r.2)
              | _ => (Ok false, r.2)
              end
          end
    end.
Proof.
  unfold add_stock, load_settings, json_load_settings.
  destruct (stock_settings w) as [[|doc|members]|]; try done. simpl.
  destruct (decide _); [done|]. simpl.
  destruct (Yahoo.get_stock_volatility_and_returns e [upper symbol] "5y" w)
    as [[stock_data|err] w1]; [|done]. simpl.
  destruct (stock_data !! upper symbol) as [[[v|] [x|]]|]; try done.
  unfold save_settings. by destruct (settings_writable e).
Qed.

Lemma update_stock_settings_unfold e w :
  update_stock_settings e w
  = match load_settings w with
    | Raise KeyError => (Raise KeyError, w)
    | Raise _ => (Ok false, w)
    | Ok doc =>
        let r := get_stats nasdaq e (map_to_list (stocks doc)).*1 "y5" w in
        match r.1 with
        | Raise err => (Raise err, r.2)
        | Ok stock_data =>
            if settings_writable e
            then (Ok true,
                  set_stock_settings
                    (Some (SettingsJson
                       (set_stocks (update_stocks stock_data (stocks doc)) doc)))
                    r.2)
            else (Ok false, r.2)
        end
    end.
Proof.
  unfold update_stock_settings, load_settings, json_load_settings.
  destruct (stock_settings w) as [[|doc|members]|]; try done. simpl.
  destruct (Nasdaq.get_stock_volatility_and_returns e _ "y5" w)
    as [[stock_data|err] w1]; [|done]. simpl.
  unfold save_settings. by destruct (settings_writable e).
Qed.

Lemma add_stock_cache_dir e symbol w :
  cache_dir (add_stock e symbol w).2 = cache_dir w \/
  cache_dir (add_stock e symbol w).2
  = cache_dir (get_stats yahoo e [upper symbol] "5y" w).2.
Proof.
  rewrite add_stock_unfold.
  destruct (load_settings w) as [doc|[]]; try (by left).
  destruct (decide _); [by left|]. right. cbv zeta.
  destruct ((get_stats yahoo e [upper symbol] "5y" w).1) as [stock_data|err];
    [|done].
  destruct (stock_data !! upper symbol) as [[[v|] [r|]]|]; try done.
  by destruct (settings_writable e).
Qed.

Lemma update_stock_settings_cache_dir e w :
  cache_dir (update_stock_settings e w).2 = cache_dir w \/
  exists symbols,
    cache_dir (update_stock_settings e w).2
    = cache_dir (get_stats nasdaq e symbols "y5" w).2.
Proof.
  rewrite update_stock_settings_unfold.
  destruct (load_settings w) as [doc|[]]; try (by left).
  right. exists (map_to_list (stocks doc)).*1. cbv zeta.
  destruct ((get_stats nasdaq e (map_to_list (stocks doc)).*1 "y5" w).1)
    as [stock_data|err]; [|done].
  by destruct (settings_writable e).
Qed.

Lemma caches_non_null_cache_dir w w' :
  cache_dir w' = cache_dir w -> caches_non_null w -> caches_non_null w'.
Proof.
  intros Heq Hinv path entries s st. unfold cache_entries. rewrite Heq.
  apply Hinv.
Qed.

(** The invariant of the cache directory. *)
Lemma reachable_caches_non_null w : reachable w -> caches_non_null w.
Proof.
  induction 1 as [settings|p e symbols period w _ IH|e symbol w _ IH|e w _ IH].
  - intros path entries s st H. discriminate H.
  - by apply get_stats_caches_non_null.
  - destruct (add_stock_cache_dir e symbol w) as [Heq|Heq].
    + by eapply caches_non_null_cache_dir.
    + eapply caches_non_null_cache_dir; [exact Heq|].
      by apply get_stats_caches_non_null.
  - destruct (update_stock_settings_cache_dir e w) as [Heq|[symbols Heq]].
    + by eapply caches_non_null_cache_dir.
    + eapply caches_non_null_cache_dir; [exact Heq|].
      by apply get_stats_caches_non_null.
Qed.

(** C7, as stated, fails for a call answered from the cache: the entries
    of the cache file are returned as they are stored, also an entry with
    a volatility and no expected return. *)
Lemma half_null_cache_returned :
  exists results st,
    (get_stats nasdaq hour_later_env ["A"] "y5" half_null_world).1
    = Ok results /\
    results !! "A" = Some st /\
    ~ (volatility st = None <-> expectedReturn st = None).
Proof.
  destruct (consult_hit hour_later_env
              (cache_dir half_null_world !! cache_path nasdaq "y5") ["A"]
              0 half_null_entries) as (results & Hc & Hres);
    [reflexivity|reflexivity| |].
  { repeat constructor. by eexists. }
  exists results, (Stats (Some (Num 20)) None).
  rewrite (get_stats_hit _ _ _ _ _ _ Hc). split; [done|]. split.
  - rewrite Hres, decide_True by (by left). reflexivity.
  - simpl. intros [_ H]. by specialize (H eq_refl).
Qed.

(** C7, amended.  An entry of the mapping a call returns has both fields
    null or both non-null, unless the call is answered from the cache and
    the entry is one of the cache file, which is returned as it is stored.
    So the two fields are null together in every entry computed by the
    call, and in every entry returned when the cache files are those the
    program itself has written, starting from an empty cache directory. *)
Theorem results_both_or_neither (p : provider) (e : env)
    (symbols : list string) (period : string) (w : world)
    (results : gmap string stats) (s : string) (st : stats) :
  (get_stats p e symbols period w).1 = Ok results ->
  results !! s = Some st ->
  ((volatility st = None <-> expectedReturn st = None) \/
   exists entries,
     consult_cache e (cache_dir w !! cache_path p period) symbols
     = Return results /\
     cache_entries w (cache_path p period) = Some entries /\
     entries !! s = Some st) /\
  (reachable w -> (volatility st = None <-> expectedReturn st = None)).
Proof.
  intros Hres Hs. split.
  - pose proof (consult_cache_view e (cache_dir w !! cache_path p period)
                  symbols) as V.
    destruct (consult_cache e (cache_dir w !! cache_path p period) symbols)
      as [results0|cache_data] eqn:Hc.
    { rewrite (get_stats_hit _ _ _ _ _ _ Hc) in Hres. injection Hres as ->.
      inversion V as [t entries ? Hf _ _ Hlook| | |]; subst.
      rewrite Hlook in Hs. destruct (decide (s ∈ symbols)); [|done].
      right. exists entries. split; [done|]. split; [|done].
      unfold cache_entries. by rewrite Hf. }
    left. destruct (delivered_dec p e symbols period) as [Hdel|Hno].
    2:{ rewrite (get_stats_undelivered _ _ _ _ _ _ Hc Hno) in Hres.
        injection Hres as <-. by rewrite lookup_empty in Hs. }
    rewrite (get_stats_delivered _ _ _ _ _ _ Hc Hdel) in Hres.
    unfold recompute in Hres.
    destruct (rebind_cache_data _ _ _) as [c0|err]; [|done].
    simpl in Hres. injection Hres as <-.
    rewrite run_loop_results in Hs. destruct (decide (s ∈ symbols)); [|done].
    injection Hs as <-. apply stats_of_paired.
  - intros Hreach. eapply get_stats_results_paired; [|done..].
    by apply reachable_caches_non_null.
Qed.

Lemma only_A_results :
  (get_stats nasdaq only_A_env ["A"; "B"] "y5" empty_world).1
  = Ok (run_loop (computed nasdaq only_A_env ["A"; "B"] "y5") ["A"; "B"] ∅).1.
Proof.
  rewrite (get_stats_delivered nasdaq only_A_env ["A"; "B"] "y5" empty_world
             None); [done|done|].
  exists "A". split; [by left|]. by eexists.
Qed.

Lemma results_both_or_neither_witness :
  (get_stats nasdaq only_A_env ["A"; "B"] "y5" empty_world).1
  = Ok (run_loop (computed nasdaq only_A_env ["A"; "B"] "y5") ["A"; "B"] ∅).1 /\
  (run_loop (computed nasdaq only_A_env ["A"; "B"] "y5") ["A"; "B"] ∅).1 !! "B"
  = Some null_stats /\
  ((volatility null_stats = None <-> expectedReturn null_stats = None) \/
   exists entries,
     consult_cache only_A_env
       (cache_dir empty_world !! cache_path nasdaq "y5") ["A"; "B"]
     = Return (run_loop (computed nasdaq only_A_env ["A"; "B"] "y5")
                 ["A"; "B"] ∅).1 /\
     cache_entries empty_world (cache_path nasdaq "y5") = Some entries /\
     entries !! "B" = Some null_stats) /\
  (reachable empty_world ->
   (volatility null_stats = None <-> expectedReturn null_stats = None)).
Proof.
  assert (H3 : (run_loop (computed nasdaq only_A_env ["A"; "B"] "y5")
                  ["A"; "B"] ∅).1 !! "B" = Some null_stats).
  { rewrite run_loop_results. reflexivity. }
  split; [exact only_A_results|]. split; [exact H3|].
  exact (results_both_or_neither nasdaq only_A_env ["A"; "B"] "y5" empty_world
           _ "B" null_stats only_A_results H3).
Defined.

(** C10, as stated, fails on a fresh cache file that holds a null entry and
    lacks a requested symbol: the call merges its results into the
    document it read and writes the null entry back. *)
Lemma null_entry_rewritten :
  exists entries',
    cache_entries
      (get_stats nasdaq hour_later_AC_env ["C"] "y5" null_entry_world).2
      (cache_path nasdaq "y5") = Some entries' /\
    cache_dir (get_stats nasdaq hour_later_AC_env ["C"] "y5" null_entry_world).2
      !! cache_path nasdaq "y5"
    <> cache_dir null_entry_world !! cache_path nasdaq "y5" /\
    entries' !! "B" = Some null_stats /\
    ~ non_null null_stats.
Proof.
  assert (Hd : delivered nasdaq hour_later_AC_env ["C"] "y5").
  { exists "C". split; [by left|]. by eexists. }
  rewrite (fresh_partial_recompute nasdaq hour_later_AC_env ["C"] "y5"
             null_entry_world 0 null_entries); [|reflexivity|reflexivity| |done].
  2:{ intros H. apply Forall_cons_1 in H as [[v Hv] _]. discriminate Hv. }
  eexists. cbn [snd]. unfold cache_entries.
  rewrite save_cache_file by reflexivity. split; [done|]. split; [|split].
  - by intros [=].
  - rewrite run_loop_cache, decide_False; [done|].
    intros H%list_elem_of_singleton. discriminate H.
  - by intros [[v Hv] _].
Qed.

(** C10, amended.  An entry of a cache file after a call was computed by
    this call, and then has both fields non-null, or was in that file
    before the call: a call writes no null statistics of its own, the null
    entries of failed symbols are in the returned mapping only.  So the
    cache files the program alone has written, starting from an empty
    cache directory, hold non-null pairs only. *)
Theorem cache_entries_non_null (p : provider) (e : env)
    (symbols : list string) (period : string) (w : world) (path : string)
    (entries : gmap string stats) (s : string) (st : stats) :
  cache_entries (get_stats p e symbols period w).2 path = Some entries ->
  entries !! s = Some st ->
  (non_null st \/
   exists entries0,
     cache_entries w path = Some entries0 /\ entries0 !! s = Some st) /\
  (reachable w -> non_null st).
Proof.
  intros Hfile Hs. split.
  - by eapply get_stats_cache_provenance.
  - intros Hreach.
    apply (get_stats_caches_non_null p e symbols period w
             (reachable_caches_non_null w Hreach) path entries s st);
      done.
Qed.

Lemma only_A_cache :
  cache_entries (get_stats nasdaq only_A_env ["A"; "B"] "y5" empty_world).2
                (cache_path nasdaq "y5")
  = Some (run_loop (computed nasdaq only_A_env ["A"; "B"] "y5") ["A"; "B"] ∅).2.
Proof.
  rewrite (get_stats_delivered nasdaq only_A_env ["A"; "B"] "y5" empty_world
             None); [|done|].
  - destruct (recompute_written nasdaq only_A_env ["A"; "B"] "y5"
                empty_world None ∅) as [_ Hfile]; [reflexivity..|].
    unfold cache_entries. by rewrite Hfile.
  - exists "A". split; [by left|]. by eexists.
Qed.

Lemma only_A_cache_entry :
  (run_loop (computed nasdaq only_A_env ["A"; "B"] "y5") ["A"; "B"] ∅).2 !! "A"
  = Some (stats_of (Nasdaq.compute_symbol (DateIndexed three_day_rows))).
Proof.
  rewrite run_loop_cache.
  change (computed nasdaq only_A_env ["A"; "B"] "y5" "A")
    with (Nasdaq.compute_symbol (DateIndexed three_day_rows)).
  destruct (nasdaq_compute_total (Row 0 (Num 100))
              [Row ns_per_day (Num 110); Row (2 * ns_per_day) (Num 105)])
    as (v & x & Hvx).
  unfold three_day_rows. by rewrite Hvx.
Qed.

Lemma cache_entries_non_null_witness :
  cache_entries (get_stats nasdaq only_A_env ["A"; "B"] "y5" empty_world).2
                (cache_path nasdaq "y5")
  = Some (run_loop (computed nasdaq only_A_env ["A"; "B"] "y5") ["A"; "B"] ∅).2 /\
  (run_loop (computed nasdaq only_A_env ["A"; "B"] "y5") ["A"; "B"] ∅).2 !! "A"
  = Some (stats_of (Nasdaq.compute_symbol (DateIndexed three_day_rows))) /\
  non_null (stats_of (Nasdaq.compute_symbol (DateIndexed three_day_rows))).
Proof.
  split; [exact only_A_cache|]. split; [exact only_A_cache_entry|].
  exact (proj2 (cache_entries_non_null nasdaq only_A_env ["A"; "B"] "y5"
                  empty_world _ _ "A" _ only_A_cache only_A_cache_entry)
           (reach_init None ∅)).
Defined.

(** ** The settings synchronizer *)

(** C8.  When the uppercased symbol is already under ["stocks"],
    [add_stock] returns [False] and changes nothing: the settings file and
    the cache files are as before, and no request is sent. *)
Theorem add_stock_existing (e : env) (symbol : string) (w : world)
    (doc : settings_doc) :
  load_settings w = Ok doc ->
  is_Some (stocks doc !! upper symbol) ->
  add_stock e symbol w = (Ok false, w).
Proof.
  intros Hload Hin. rewrite add_stock_unfold, Hload.
  by rewrite decide_True.
Qed.

Lemma add_stock_existing_witness :
  load_settings tsla_world = Ok tsla_doc /\
  is_Some (stocks tsla_doc !! upper "tsla") /\
  add_stock yahoo_env "tsla" tsla_world = (Ok false, tsla_world).
Proof.
  assert (H1 : load_settings tsla_world = Ok tsla_doc) by reflexivity.
  assert (H2 : is_Some (stocks tsla_doc !! upper "tsla")) by (by eexists).
  split; [exact H1|]. split; [exact H2|].
  exact (add_stock_existing yahoo_env "tsla" tsla_world tsla_doc H1 H2).
Defined.

Lemma update_stocks_lookup (stock_data : gmap string stats)
    (stocks : gmap string (gmap string json)) (s : string) :
  update_stocks stock_data stocks !! s
  = updated_fields (stock_data !! s) <$> stocks !! s.
Proof.
  revert s. unfold update_stocks.
  apply (map_fold_weak_ind
           (fun r m => forall s, r !! s = updated_fields (m !! s) <$> stocks !! s)).
  - intros s. rewrite lookup_empty. by destruct (stocks !! s).
  - intros i x m r Hi IH s.
    pose proof (IH i) as IHi. rewrite Hi in IHi.
    destruct (decide (i = s)) as [<-|Hne].
    + rewrite lookup_insert_eq, IHi.
      destruct (stocks !! i) as [fields|]; simpl; [|done].
      destruct x as [[v|] [x|]]; simpl;
        by rewrite ?lookup_insert_eq, ?IHi.
    + rewrite (lookup_insert_ne m) by done. rewrite <- IH.
      destruct (r !! i) as [fields|]; [|done].
      destruct x as [[v|] [x|]]; simpl; try done.
      by rewrite lookup_insert_ne.
Qed.

Lemma updated_fields_other computed_stats fields k :
  k <> "volatility" -> k <> "expectedReturn" ->
  updated_fields computed_stats fields !! k = fields !! k.
Proof.
  intros Hv Hr. destruct computed_stats as [[[v|] [r|]]|]; simpl; try done.
  by rewrite !lookup_insert_ne.
Qed.

Lemma get_stats_stock_settings p e symbols period w :
  stock_settings (get_stats p e symbols period w).2 = stock_settings w.
Proof.
  destruct (consult_cache e (cache_dir w !! cache_path p period) symbols)
    as [res|cd] eqn:Hc.
  { by rewrite (get_stats_hit _ _ _ _ _ _ Hc). }
  destruct (delivered_dec p e symbols period) as [Hdel|Hno].
  - rewrite (get_stats_delivered _ _ _ _ _ _ Hc Hdel). unfold recompute.
    destruct (rebind_cache_data _ _ _); [|done]. simpl.
    unfold save_cache. by destruct (cache_writable e).
  - by rewrite (get_stats_undelivered _ _ _ _ _ _ Hc Hno).
Qed.

(** C9.  A run of [update_stock_settings] that reaches the write replaces
    the settings document by one in which the members outside ["stocks"]
    are as before, each stock of the document is still there, the stocks
    with computed non-null statistics have their [volatility] and
    [expectedReturn] overwritten and every other field as before, the other
    stocks are as before, and no stock is added.  A run that does not
    reach the write leaves the settings file as it was. *)
Theorem update_stock_settings_frame (e : env) (w : world) (doc : settings_doc) :
  load_settings w = Ok doc ->
  let symbols := (map_to_list (stocks doc)).*1 in
  let fetched_stats := (get_stats nasdaq e symbols "y5" w).1 in
  let w' := (update_stock_settings e w).2 in
  (forall err, fetched_stats = Raise err -> stock_settings w' = stock_settings w) /\
  (settings_writable e = false -> stock_settings w' = stock_settings w) /\
  (forall stock_data,
     fetched_stats = Ok stock_data -> settings_writable e = true ->
     exists doc',
       stock_settings w' = Some (SettingsJson doc') /\
       other_members doc' = other_members doc /\
       (forall s, stocks doc' !! s
                  = updated_fields (stock_data !! s) <$> stocks doc !! s) /\
       (forall s fields fields' k,
          stocks doc !! s = Some fields -> stocks doc' !! s = Some fields' ->
          k <> "volatility" -> k <> "expectedReturn" ->
          fields' !! k = fields !! k)).
Proof.
  intros Hload. cbv zeta.
  pose proof (get_stats_stock_settings nasdaq e (map_to_list (stocks doc)).*1
                "y5" w) as Hset.
  rewrite update_stock_settings_unfold, Hload. cbv zeta.
  destruct ((get_stats nasdaq e (map_to_list (stocks doc)).*1 "y5" w).1)
    as [stock_data|err].
  - destruct (settings_writable e); simpl; (split; [done|]); (split; [done|]).
    + intros sd [= <-] _. eexists. split; [done|]. split; [done|]. split.
      * intros s. apply update_stocks_lookup.
      * intros s fields fields' k Hs Hs' Hv Hr. simpl in Hs'.
        rewrite update_stocks_lookup, Hs in Hs'. injection Hs' as <-.
        by apply updated_fields_other.
    + done.
  - split; [done|]. split; [done|]. done.
Qed.

Lemma update_stock_settings_frame_witness :
  load_settings tsla_world = Ok tsla_doc /\
  let symbols := (map_to_list (stocks tsla_doc)).*1 in
  let fetched_stats := (get_stats nasdaq live_env symbols "y5" tsla_world).1 in
  let w' := (update_stock_settings live_env tsla_world).2 in
  (forall err, fetched_stats = Raise err ->
     stock_settings w' = stock_settings tsla_world) /\
  (settings_writable live_env = false ->
     stock_settings w' = stock_settings tsla_world) /\
  (forall stock_data,
     fetched_stats = Ok stock_data -> settings_writable live_env = true ->
     exists doc',
       stock_settings w' = Some (SettingsJson doc') /\
       other_members doc' = other_members tsla_doc /\
       (forall s, stocks doc' !! s
                  = updated_fields (stock_data !! s) <$> stocks tsla_doc !! s) /\
       (forall s fields fields' k,
          stocks tsla_doc !! s = Some fields -> stocks doc' !! s = Some fields' ->
          k <> "volatility" -> k <> "expectedReturn" ->
          fields' !! k = fields !! k)).
Proof.
  assert (H1 : load_settings tsla_world = Ok tsla_doc) by reflexivity.
  split; [exact H1|].
  exact (update_stock_settings_frame live_env tsla_world tsla_doc H1).
Defined.

(** ** Worked examples *)

Lemma fadd_IZR a b c :
  a + b = c -> Z.abs c < 2 ^ 53 -> fadd (Num (IZR a)) (Num (IZR b)) = Num (IZR c).
Proof. intros <- H. cbn [fadd]. by rewrite <- plus_IZR, fround_IZR. Qed.

Lemma fsub_IZR a b c :
  a - b = c -> Z.abs c < 2 ^ 53 -> fsub (Num (IZR a)) (Num (IZR b)) = Num (IZR c).
Proof.
  intros <- H. unfold fsub. cbn [fneg fadd].
  by rewrite <- opp_IZR, <- plus_IZR, fround_IZR.
Qed.

Lemma fmul_IZR a b c :
  a * b = c -> Z.abs c < 2 ^ 53 -> fmul (Num (IZR a)) (Num (IZR b)) = Num (IZR c).
Proof. intros <- H. cbn [fmul]. by rewrite <- mult_IZR, fround_IZR. Qed.

Lemma fdiv_IZR a b q :
  a = q * b -> 0 < b -> Z.abs q < 2 ^ 53 ->
  fdiv (Num (IZR a)) (Num (IZR b)) = Num (IZR q).
Proof.
  intros -> Hb Hq. cbn [fdiv]. rewrite Rsign_pos by (apply IZR_lt; lia).
  replace (IZR (q * b) / IZR b)%R with (IZR q).
  - by apply fround_IZR.
  - rewrite mult_IZR. field. apply not_0_IZR. lia.
Qed.

Lemma round2_0 : round2 (Num 0) = Num 0.
Proof.
  cbn [round2]. rewrite Rmult_0_l. change 0%R with (IZR 0).
  rewrite Rround_half_even_IZR.
  replace (IZR 0 / 100)%R with (IZR 0) by (simpl; lra).
  by apply fround_IZR.
Qed.

(** A tie goes to the even neighbour: 0.125 rounds to the binary64 number
    next to 0.12. *)
Example round2_tie : round2 (Num (1 / 8)) = fround (12 / 100).
Proof.
  cbn [round2]. unfold Rround_half_even.
  assert (H : Int_part (1 / 8 * 100) = 12) by (symmetry; apply Int_part_spec; lra).
  rewrite H.
  destruct (total_order_T (1 / 8 * 100 - 12) (1 / 2)) as [[H'|H']|H']; [lra|done|lra].
Qed.

Example upper_tsla : upper "tsla" = "TSLA" /\ upper "Brk.b" = "BRK.B".
Proof. split; reflexivity. Qed.

(** Doubling in 365 days is an expected return of 100 percent, in both
    copies. *)
Lemma doubling_annual_return :
  fmul (fsub (fpow (fadd (Num 1)
                      (fsub (fdiv (Num 200) (Num 100)) (Num 1)))
                   (rnd (365 / 365)))
             (Num 1))
       (Num 100)
  = Num 100.
Proof.
  rewrite (fdiv_IZR 200 100 2), (fsub_IZR 2 1 1), (fadd_IZR 1 1 2) by done.
  replace (365 / 365)%R with (IZR 1) by (simpl; lra).
  rewrite rnd_IZR by done.
  assert (Hpow : fpow (Num (IZR 2)) (IZR 1) = Num (IZR 2)).
  { unfold fpow. rewrite !Rsign_pos by lra.
    rewrite Rpower_1 by lra. by apply fround_IZR. }
  by rewrite Hpow, (fsub_IZR 2 1 1), (fmul_IZR 1 100 100).
Qed.

Example expected_return_doubling :
  Nasdaq.calculate_expected_return doubling_rows = Ok (Num 100) /\
  Yahoo.calculate_expected_return doubling_rows = Ok (Num 100).
Proof.
  assert (Hdiv : truediv 365 365 = Ok (rnd (365 / 365))) by reflexivity.
  split.
  - unfold Nasdaq.calculate_expected_return.
    change (span_days doubling_rows) with (Ok (A:=Z) 365).
    cbn -[fmul fsub fpow fadd fdiv rnd truediv].
    rewrite decide_False, Hdiv by done.
    cbn -[fmul fsub fpow fadd fdiv rnd].
    by rewrite doubling_annual_return.
  - unfold Yahoo.calculate_expected_return.
    change (span_days doubling_rows) with (Ok (A:=Z) 365).
    cbn -[fmul fsub fpow fadd fdiv rnd truediv]. rewrite Hdiv.
    cbn -[fmul fsub fpow fadd fdiv rnd].
    by rewrite doubling_annual_return.
Qed.

(** A price that does not move has volatility 0. *)
Example volatility_flat : calculate_annualized_volatility flat_rows = Num 0.
Proof.
  unfold calculate_annualized_volatility.
  change (Adj_Close flat_rows) with [Num 100; Num 100; Num 100].
  rewrite daily_returns_cons, dropna_nan_cons.
  assert (Hlog : flog (fdiv (Num 100) (Num 100)) = Num 0).
  { rewrite (fdiv_IZR 100 100 1) by done. cbn [flog].
    rewrite Rsign_pos by lra. rewrite ln_1. by apply (fround_IZR 0). }
  assert (Hr : later_returns [Num 100; Num 100; Num 100] = [Num 0; Num 0]).
  { unfold later_returns. cbn [tail zip_with map]. by rewrite Hlog. }
  rewrite Hr, (dropna_finite [Num 0; Num 0]) by (by repeat constructor).
  assert (Hstd : std [Num 0; Num 0] = Num 0).
  { unfold std. rewrite (dropna_finite [Num 0; Num 0]) by (by repeat constructor).
    cbn [length]. destruct (decide _) as [?|_]; [lia|]. cbv zeta.
    replace (INR 2) with (IZR 2) by (simpl; lra).
    rewrite (fround_IZR 2) by done. unfold fsum. cbn [foldl map].
    rewrite !(fadd_IZR 0 0 0), (fsub_IZR 2 1 1), (fdiv_IZR 0 2 0) by done.
    rewrite (fsub_IZR 0 0 0), (fmul_IZR 0 0 0), !(fadd_IZR 0 0 0) by done.
    rewrite (fdiv_IZR 0 1 0) by done. cbn [fsqrt].
    rewrite Rsign_0, sqrt_0. by apply (fround_IZR 0). }
  rewrite Hstd.
  destruct (fsqrt_bounded_nonneg 8 (Num 252)) as (t & -> & _); [lia..| |].
  { exists 252%R. split; [done|]. rewrite (bpow_IZR 8) by lia. simpl. lra. }
  cbn [fmul]. rewrite Rmult_0_l, (fround_IZR 0) by done.
  by rewrite (fmul_IZR 0 100 0).
Qed.

(** End to end: a two-row table with identical dates gets expected return
    0.0 from the NASDAQ provider, next to a volatility that is NaN. *)
Example same_day_entry (symbol : string) :
  (get_stats nasdaq same_day_env [symbol] "y5" empty_world).1
  = Ok {[ symbol := Stats (Some NaN) (Some (Num 0)) ]}.
Proof.
  assert (HF : computed nasdaq same_day_env [symbol] "y5" symbol
               = Ok (NaN, Num 0)).
  { change (computed nasdaq same_day_env [symbol] "y5" symbol)
      with (Nasdaq.compute_symbol (DateIndexed same_day_rows)).
    unfold Nasdaq.compute_symbol, expected_return_on, table.
    rewrite (volatility_short same_day_rows) by (simpl; lia).
    by rewrite (nasdaq_expected_return_same_day same_day_rows). }
  rewrite (get_stats_delivered nasdaq same_day_env [symbol] "y5" empty_world
             None); [|done|].
  - unfold recompute.
    change (rebind_cache_data _ _ None) with (Ok (∅ : gmap string stats)).
    cbv zeta. cbn [fst]. f_equal. apply map_eq. intros s.
    rewrite run_loop_results.
    destruct (decide (s ∈ [symbol])) as [->%list_elem_of_singleton|Hs].
    + rewrite HF, lookup_singleton_eq. cbn [stats_of]. by rewrite round2_0.
    + rewrite lookup_singleton_ne; [done|].
      intros ->. apply Hs. by left.
  - exists symbol. split; [by left|]. by eexists.
Qed.

(** The same table from the Yahoo provider: the division error is caught
    by the loop, and the symbol gets null statistics. *)
Example same_day_entry_yahoo (symbol : string) :
  (get_stats yahoo same_day_yahoo_env [symbol] "1y" empty_world).1
  = Ok {[ symbol := null_stats ]}.
Proof.
  assert (HF : computed yahoo same_day_yahoo_env [symbol] "1y" symbol
               = Raise ZeroDivisionError).
  { unfold computed. cbn [fetched yf_download same_day_yahoo_env].
    unfold Yahoo.select_symbol_data. rewrite decide_True by done.
    cbn [compute_stats expected_return_on].
    rewrite (yahoo_expected_return_same_day same_day_rows); reflexivity. }
  assert (Hdel : delivered yahoo same_day_yahoo_env [symbol] "1y").
  { simpl. by eexists. }
  rewrite (get_stats_delivered yahoo same_day_yahoo_env [symbol] "1y"
             empty_world None eq_refl Hdel).
  unfold recompute.
  change (rebind_cache_data _ _ None) with (Ok (∅ : gmap string stats)).
  cbv zeta. cbn [fst].
  assert (Hres : (run_loop (computed yahoo same_day_yahoo_env [symbol] "1y")
                    [symbol] ∅).1 = {[ symbol := null_stats ]}).
  { apply map_eq. intros s. rewrite run_loop_results.
    destruct (decide (s ∈ [symbol])) as [->%list_elem_of_singleton|Hs].
    - by rewrite HF, lookup_singleton_eq.
    - rewrite lookup_singleton_ne; [done|].
      intros ->. apply Hs. by left. }
  by rewrite Hres.
Qed.

(** X13.  Two calls in a row: when a call recomputes, computes the
    statistics of every requested symbol and writes the cache file, the
    same request within a day returns the same mapping from the cache,
    sends no request and writes no file. *)
Lemma recompute_then_hit (p : provider) (e1 e2 : env) (symbols : list string)
    (period : string) (w : world) (cache_data : option (gmap string stats))
    (c0 : gmap string stats) :
  consult_cache e1 (cache_dir w !! cache_path p period) symbols
  = Continue cache_data ->
  delivered p e1 symbols period ->
  rebind_cache_data e1 (cache_dir w !! cache_path p period) cache_data = Ok c0 ->
  cache_writable e1 = true ->
  (forall s, s ∈ symbols -> exists a, computed p e1 symbols period s = Ok a) ->
  now e2 - write_time e1 < one_day ->
  get_stats p e2 symbols period (get_stats p e1 symbols period w).2
  = ((get_stats p e1 symbols period w).1, (get_stats p e1 symbols period w).2).
Proof.
  intros Hc Hdel Hr Hw Hall Hfresh.
  rewrite (get_stats_delivered _ _ _ _ _ _ Hc Hdel).
  destruct (recompute_written p e1 symbols period w cache_data c0 Hr Hw)
    as [_ Hfile].
  set (w1 := (recompute p e1 symbols period w cache_data).2) in *.
  set (F := computed p e1 symbols period) in *.
  assert (Hpresent : Forall (fun s => is_Some ((run_loop F symbols c0).2 !! s))
                            symbols).
  { apply Forall_forall. intros s Hs. rewrite run_loop_cache, decide_True by done.
    destruct (Hall s Hs) as [a Ha]. fold F in Ha. rewrite Ha. by eexists. }
  destruct (consult_hit e2 _ symbols _ _ Hfile Hfresh Hpresent)
    as (results & Hhit & Hres).
  rewrite (get_stats_hit _ _ _ _ _ _ Hhit). f_equal.
  unfold recompute. rewrite Hr. cbn [fst]. f_equal.
  apply map_eq. intros s. rewrite Hres, run_loop_results, run_loop_cache.
  fold F. repeat case_decide; try done.
  destruct (Hall s) as [a Ha]; [done|]. by rewrite Ha.
Qed.

(** * Further properties of the code *)

(** ** Expected return: where it raises, what it computes *)

Lemma span_days_head_last symbol_data r0 r1 :
  head symbol_data = Some r0 -> last symbol_data = Some r1 ->
  span_days symbol_data = Ok (timedelta_days (date r1 - date r0)).
Proof.
  intros Hh Hl. unfold span_days, iloc_last, iloc_first, index.
  rewrite fmap_last, Hl. simpl.
  destruct symbol_data as [|r rest]; [done|].
  simpl in Hh. injection Hh as ->. done.
Qed.

Lemma expected_return_head_last symbol_data r0 r1 :
  head symbol_data = Some r0 -> last symbol_data = Some r1 ->
  iloc_first (Adj_Close symbol_data) = Ok (adj_close r0) /\
  iloc_last (Adj_Close symbol_data) = Ok (adj_close r1).
Proof.
  intros Hh Hl. unfold iloc_last, iloc_first, Adj_Close.
  rewrite fmap_last, Hl. split; [|done].
  destruct symbol_data as [|r rest]; [done|].
  simpl in Hh. injection Hh as ->. done.
Qed.

Lemma nonempty_head_last (symbol_data : DataFrame) :
  symbol_data <> [] ->
  exists r0 r1, head symbol_data = Some r0 /\ last symbol_data = Some r1.
Proof.
  intros Hne. destruct symbol_data as [|r rest]; [done|].
  destruct (last (r :: rest)) as [r1|] eqn:E.
  - by exists r, r1.
  - by apply last_None in E.
Qed.


(** X2.  The Yahoo copy raises [IndexError] on the empty table,
    [ZeroDivisionError] on a table whose day count is 0 (the last row is
    dated less than a day after the first), and returns a number on every
    other table. *)
Theorem yahoo_expected_return_raises_iff (symbol_data : DataFrame) :
  (Yahoo.calculate_expected_return symbol_data = Raise IndexError
   <-> symbol_data = []) /\
  (Yahoo.calculate_expected_return symbol_data = Raise ZeroDivisionError
   <-> span_days symbol_data = Ok 0) /\
  ((exists x, Yahoo.calculate_expected_return symbol_data = Ok x)
   <-> symbol_data <> [] /\ span_days symbol_data <> Ok 0).
Proof.
  destruct symbol_data as [|r rest].
  - split; [done|]. split; [done|]. split; [by intros [x Hx]|by intros [? _]].
  - destruct (nonempty_head_last (r :: rest)) as (r0 & r1 & Hh & Hl); [done|].
    pose proof (span_days_head_last _ _ _ Hh Hl) as Hspan.
    destruct (expected_return_head_last _ _ _ Hh Hl) as [Hf Hla].
    unfold Yahoo.calculate_expected_return. rewrite Hf, Hla, Hspan.
    simpl. unfold truediv.
    destruct (decide (timedelta_days (date r1 - date r0) = 0)) as [Hd|Hd].
    + rewrite Hd. simpl. split; [done|]. split; [done|].
      split; [by intros [x Hx]|by intros [_ ?]].
    + simpl. split; [done|]. split.
      * split; [done|]. intros [= H]. done.
      * split; [|by eexists]. intros _. split; [done|]. intros [= H]. done.
Qed.

(** X3.  On a table whose day count is not 0 (and on the empty table) the
    two copies of [calculate_expected_return] do the same: they return the
    same value or raise the same exception. *)
Theorem expected_return_copies_agree (symbol_data : DataFrame) :
  span_days symbol_data <> Ok 0 ->
  Yahoo.calculate_expected_return symbol_data
  = Nasdaq.calculate_expected_return symbol_data.
Proof.
  intros Hdays.
  unfold Yahoo.calculate_expected_return, Nasdaq.calculate_expected_return.
  destruct (iloc_first (Adj_Close symbol_data)) as [p0|]; [|done].
  destruct (iloc_last (Adj_Close symbol_data)) as [p1|]; [|done].
  destruct (span_days symbol_data) as [d|]; [|done]. simpl.
  destruct (decide (d = 0)) as [->|]; [done|done].
Qed.

Lemma expected_return_copies_agree_witness :
  span_days doubling_rows <> Ok 0 /\
  Yahoo.calculate_expected_return doubling_rows
  = Nasdaq.calculate_expected_return doubling_rows.
Proof.
  assert (H : span_days doubling_rows <> Ok 0) by (intros [= H]; done).
  split; [exact H|]. exact (expected_return_copies_agree doubling_rows H).
Defined.

(** ** One call, all cases *)

Lemma get_stats_cases p e symbols period w :
  (exists results,
     consult_cache e (cache_dir w !! cache_path p period) symbols
     = Return results /\
     get_stats p e symbols period w = (Ok results, w)) \/
  (exists cache_data,
     consult_cache e (cache_dir w !! cache_path p period) symbols
     = Continue cache_data /\
     ~ delivered p e symbols period /\
     get_stats p e symbols period w
     = (Ok ∅, fetch_world p e symbols period w)) \/
  (exists cache_data,
     consult_cache e (cache_dir w !! cache_path p period) symbols
     = Continue cache_data /\
     delivered p e symbols period /\
     get_stats p e symbols period w = recompute p e symbols period w cache_data).
Proof.
  destruct (consult_cache e (cache_dir w !! cache_path p period) symbols)
    as [results|cache_data] eqn:Hc.
  - left. exists results. split; [done|]. by apply get_stats_hit.
  - right. destruct (delivered_dec p e symbols period) as [Hdel|Hno].
    + right. exists cache_data. split; [done|]. split; [done|].
      by apply get_stats_delivered.
    + left. exists cache_data. split; [done|]. split; [done|].
      by apply (get_stats_undelivered _ _ _ _ _ cache_data).
Qed.

Lemma recompute_cache_dir_other p e symbols period w cache_data path :
  path <> cache_path p period ->
  cache_dir (recompute p e symbols period w cache_data).2 !! path
  = cache_dir w !! path.
Proof.
  intros Hne. unfold recompute.
  destruct (rebind_cache_data _ _ _); [|done]. simpl.
  unfold save_cache. destruct (cache_writable e); [|done].
  simpl. by rewrite lookup_insert_ne.
Qed.

Lemma recompute_requests p e symbols period w cache_data :
  requests (recompute p e symbols period w cache_data).2
  = requests w ++ sent p symbols period.
Proof.
  unfold recompute. destruct (rebind_cache_data _ _ _); [|done]. simpl.
  unfold save_cache. by destruct (cache_writable e).
Qed.

(** ** Cache files are kept apart by provider and period *)

Lemma list_ascii_of_string_app s1 s2 :
  list_ascii_of_string (s1 +:+ s2)
  = list_ascii_of_string s1 ++ list_ascii_of_string s2.
Proof.
  induction s1 as [|c s1 IH]; [done|].
  change (String c s1 +:+ s2) with (String c (s1 +:+ s2)).
  simpl. by rewrite IH.
Qed.

Lemma string_app_inj_r s1 s2 t : s1 +:+ t = s2 +:+ t -> s1 = s2.
Proof.
  intros H. apply (f_equal list_ascii_of_string) in H.
  rewrite !list_ascii_of_string_app in H. apply app_inv_tail in H.
  apply (f_equal string_of_list_ascii) in H.
  by rewrite !string_of_list_ascii_of_string in H.
Qed.

Lemma cache_path_inj p p' period period' :
  cache_path p period = cache_path p' period' -> p = p' /\ period = period'.
Proof.
  destruct p, p'; simpl;
    unfold Yahoo.cache_path, Nasdaq.cache_path; intros H.
  - apply (inj (String.append "volatility_cache_")) in H.
    by apply string_app_inj_r in H.
  - discriminate H.
  - discriminate H.
  - apply (inj (String.append "nasdaq_volatility_cache_")) in H.
    by apply string_app_inj_r in H.
Qed.

(** X7.  A call leaves the settings file alone and changes no cache file
    but its own: the files of the other provider and of the other periods
    are as before. *)
Theorem get_stats_frame (p : provider) (e : env) (symbols : list string)
    (period : string) (w : world) :
  stock_settings (get_stats p e symbols period w).2 = stock_settings w /\
  (forall path, path <> cache_path p period ->
     cache_dir (get_stats p e symbols period w).2 !! path
     = cache_dir w !! path) /\
  (forall p' period', p' <> p \/ period' <> period ->
     cache_dir (get_stats p e symbols period w).2 !! cache_path p' period'
     = cache_dir w !! cache_path p' period').
Proof.
  assert (Hother : forall path, path <> cache_path p period ->
            cache_dir (get_stats p e symbols period w).2 !! path
            = cache_dir w !! path).
  { intros path Hne.
    destruct (get_stats_cases p e symbols period w)
      as [(results & _ & ->)|[(cd & _ & _ & ->)|(cd & _ & _ & ->)]];
      [done|done|].
    by apply recompute_cache_dir_other. }
  split; [apply get_stats_stock_settings|]. split; [exact Hother|].
  intros p' period' Hne. apply Hother. intros [-> ->]%cache_path_inj.
  by destruct Hne.
Qed.

(** X8.  A call that answers from the cache sends no request; every other
    call sends the requests of the whole batch, whatever the cache holds:
    one download for Yahoo, one request per listed symbol, in order, for
    NASDAQ. *)
Theorem get_stats_requests (p : provider) (e : env) (symbols : list string)
    (period : string) (w : world) :
  requests (get_stats p e symbols period w).2
  = requests w ++
    match consult_cache e (cache_dir w !! cache_path p period) symbols with
    | Return _ => []
    | Continue _ =>
        match p with
        | yahoo => [YfDownload symbols period]
        | nasdaq => map (fun s => NasdaqGet s period) symbols
        end
    end.
Proof.
  destruct (get_stats_cases p e symbols period w)
    as [(results & -> & ->)|[(cd & -> & _ & ->)|(cd & -> & _ & ->)]].
  - simpl. by rewrite app_nil_r.
  - by destruct p.
  - rewrite recompute_requests. by destruct p.
Qed.

(** ** The keys of the result *)

(** X9.  The mapping a call returns holds no symbol outside the request,
    and it is all or nothing: it is empty or it holds every requested
    symbol. *)
Theorem result_keys (p : provider) (e : env) (symbols : list string)
    (period : string) (w : world) (results : gmap string stats) :
  (get_stats p e symbols period w).1 = Ok results ->
  (forall s, is_Some (results !! s) -> s ∈ symbols) /\
  (results = ∅ \/ forall s, s ∈ symbols -> is_Some (results !! s)).
Proof.
  intros Hres.
  destruct (get_stats_cases p e symbols period w)
    as [(results0 & Hc & Heq)|[(cd & _ & _ & Heq)|(cd & Hc & _ & Heq)]];
    rewrite Heq in Hres.
  - injection Hres as ->.
    pose proof (consult_cache_view e (cache_dir w !! cache_path p period)
                  symbols) as V.
    rewrite Hc in V. inversion V as [t entries ? _ _ Hall Hlook| | |]; subst.
    split.
    + intros s [st Hs]. rewrite Hlook in Hs. by destruct (decide (s ∈ symbols)).
    + right. intros s Hs. rewrite Hlook, decide_True by done.
      by apply (proj1 (Forall_forall _ _) Hall).
  - injection Hres as <-. split; [|by left].
    intros s [st Hs]. by rewrite lookup_empty in Hs.
  - unfold recompute in Hres.
    destruct (rebind_cache_data _ _ _) as [c0|]; [|done].
    simpl in Hres. injection Hres as <-. split.
    + intros s [st Hs]. rewrite run_loop_results in Hs.
      by destruct (decide (s ∈ symbols)).
    + right. intros s Hs. rewrite run_loop_results, decide_True by done.
      by eexists.
Qed.

Lemma result_keys_witness :
  (get_stats nasdaq only_A_env ["A"; "B"] "y5" empty_world).1
  = Ok (run_loop (computed nasdaq only_A_env ["A"; "B"] "y5") ["A"; "B"] ∅).1 /\
  (forall s,
     is_Some ((run_loop (computed nasdaq only_A_env ["A"; "B"] "y5")
                 ["A"; "B"] ∅).1 !! s) -> s ∈ ["A"; "B"]) /\
  ((run_loop (computed nasdaq only_A_env ["A"; "B"] "y5") ["A"; "B"] ∅).1 = ∅ \/
   forall s, s ∈ ["A"; "B"] ->
     is_Some ((run_loop (computed nasdaq only_A_env ["A"; "B"] "y5")
                 ["A"; "B"] ∅).1 !! s)).
Proof.
  split; [exact only_A_results|].
  exact (result_keys nasdaq only_A_env ["A"; "B"] "y5" empty_world _
           only_A_results).
Defined.

(** ** A cache that is not fresh, a provider that delivers nothing, a file
       that cannot be written *)

Lemma not_fresh_consult e f symbols :
  cache_fresh e f = false ->
  consult_cache e f symbols = Continue None /\
  forall cache_data, rebind_cache_data e f cache_data = Ok ∅.
Proof.
  intros H. unfold consult_cache, rebind_cache_data.
  by rewrite H, andb_false_r.
Qed.

(** X10.  A cache file that is absent or a day old is never read, readable
    or not: when the provider delivers, the call does not raise, and the
    file it writes holds exactly the requested symbols whose statistics
    were computed, each with the entry the call returns for it. *)
Theorem stale_cache_ignored (p : provider) (e : env) (symbols : list string)
    (period : string) (w : world) :
  cache_fresh e (cache_dir w !! cache_path p period) = false ->
  delivered p e symbols period ->
  cache_writable e = true ->
  exists results entries',
    (get_stats p e symbols period w).1 = Ok results /\
    cache_dir (get_stats p e symbols period w).2 !! cache_path p period
    = Some (CacheFile (write_time e) (CacheJson entries')) /\
    (forall s, is_Some (entries' !! s)
               <-> s ∈ symbols /\ exists a, computed p e symbols period s = Ok a) /\
    (forall s st, entries' !! s = Some st -> results !! s = Some st).
Proof.
  intros Hstale Hdel Hw.
  destruct (not_fresh_consult e _ symbols Hstale) as [Hc Hr].
  rewrite (get_stats_delivered _ _ _ _ _ _ Hc Hdel).
  destruct (recompute_written p e symbols period w None ∅ (Hr None) Hw)
    as [_ Hfile].
  unfold recompute in *. rewrite (Hr None) in *. simpl in *.
  eexists _, _. split; [done|]. split; [exact Hfile|]. split.
  - intros s. rewrite run_loop_cache. split.
    + intros [st Hs]. destruct (decide (s ∈ symbols)) as [Hin|];
        [|by rewrite lookup_empty in Hs].
      split; [done|].
      destruct (computed p e symbols period s) as [a|];
        [by exists a|by rewrite lookup_empty in Hs].
    + intros [Hin [a Ha]]. rewrite decide_True, Ha by done. by eexists.
  - intros s st. rewrite run_loop_cache, run_loop_results.
    destruct (decide (s ∈ symbols)); [|by rewrite lookup_empty].
    destruct (computed p e symbols period s); [done|by rewrite lookup_empty].
Qed.

Lemma stale_cache_ignored_witness :
  cache_fresh two_days_later_env
    (cache_dir cached_world !! cache_path nasdaq "y5") = false /\
  delivered nasdaq two_days_later_env ["C"] "y5" /\
  cache_writable two_days_later_env = true /\
  exists results entries',
    (get_stats nasdaq two_days_later_env ["C"] "y5" cached_world).1 = Ok results /\
    cache_dir (get_stats nasdaq two_days_later_env ["C"] "y5" cached_world).2
      !! cache_path nasdaq "y5"
    = Some (CacheFile (write_time two_days_later_env) (CacheJson entries')) /\
    (forall s, is_Some (entries' !! s)
               <-> s ∈ ["C"] /\
                   exists a, computed nasdaq two_days_later_env ["C"] "y5" s = Ok a) /\
    (forall s st, entries' !! s = Some st -> results !! s = Some st).
Proof.
  assert (H1 : cache_fresh two_days_later_env
                 (cache_dir cached_world !! cache_path nasdaq "y5") = false)
    by reflexivity.
  assert (H2 : delivered nasdaq two_days_later_env ["C"] "y5").
  { exists "C". split; [by left|]. by eexists. }
  assert (H3 : cache_writable two_days_later_env = true) by reflexivity.
  split; [exact H1|]. split; [exact H2|]. split; [exact H3|].
  exact (stale_cache_ignored nasdaq two_days_later_env ["C"] "y5" cached_world
           H1 H2 H3).
Defined.

(** X11.  When the provider delivers nothing for the batch, the call does
    not raise and writes no cache file, whatever state the cache is in: it
    answers from a fresh complete cache or returns the empty mapping. *)
Theorem undelivered_returns (p : provider) (e : env) (symbols : list string)
    (period : string) (w : world) :
  ~ delivered p e symbols period ->
  cache_dir (get_stats p e symbols period w).2 = cache_dir w /\
  ((get_stats p e symbols period w).1 = Ok ∅ \/
   exists results,
     (get_stats p e symbols period w).1 = Ok results /\
     consult_cache e (cache_dir w !! cache_path p period) symbols
     = Return results).
Proof.
  intros Hno.
  destruct (get_stats_cases p e symbols period w)
    as [(results & Hc & ->)|[(cd & _ & _ & ->)|(cd & _ & Hdel & _)]].
  - split; [done|]. right. by exists results.
  - split; [done|]. by left.
  - done.
Qed.

Lemma undelivered_returns_witness :
  ~ delivered nasdaq dead_env ["A"; "B"] "y5" /\
  cache_dir (get_stats nasdaq dead_env ["A"; "B"] "y5" empty_world).2
  = cache_dir empty_world /\
  ((get_stats nasdaq dead_env ["A"; "B"] "y5" empty_world).1 = Ok ∅ \/
   exists results,
     (get_stats nasdaq dead_env ["A"; "B"] "y5" empty_world).1 = Ok results /\
     consult_cache dead_env (cache_dir empty_world !! cache_path nasdaq "y5")
       ["A"; "B"] = Return results).
Proof.
  split; [apply dead_env_undelivered|].
  exact (undelivered_returns nasdaq dead_env ["A"; "B"] "y5" empty_world
           (dead_env_undelivered ["A"; "B"] "y5")).
Defined.

Lemma consult_with_cache_writable b e f symbols :
  consult_cache (with_cache_writable b e) f symbols = consult_cache e f symbols.
Proof. done. Qed.

Lemma delivered_with_cache_writable b p e symbols period :
  delivered p (with_cache_writable b e) symbols period
  <-> delivered p e symbols period.
Proof. by destruct p. Qed.

(** X12.  A cache file that cannot be written costs nothing but the cache:
    the call returns what it would return otherwise, and the cache
    directory stays as it was. *)
Theorem cache_write_failure_harmless (p : provider) (e : env)
    (symbols : list string) (period : string) (w : world) :
  (get_stats p (with_cache_writable false e) symbols period w).1
  = (get_stats p e symbols period w).1 /\
  cache_dir (get_stats p (with_cache_writable false e) symbols period w).2
  = cache_dir w.
Proof.
  set (e' := with_cache_writable false e).
  destruct (get_stats_cases p e symbols period w)
    as [(results & Hc & ->)|[(cd & Hc & Hno & ->)|(cd & Hc & Hdel & ->)]].
  - rewrite (get_stats_hit p e' symbols period w results Hc). done.
  - rewrite (get_stats_undelivered p e' symbols period w cd Hc); [done|].
    intros H. by apply Hno, (delivered_with_cache_writable false).
  - rewrite (get_stats_delivered p e' symbols period w cd Hc);
      [|by apply delivered_with_cache_writable].
    unfold recompute.
    change (rebind_cache_data e' (cache_dir w !! cache_path p period) cd)
      with (rebind_cache_data e (cache_dir w !! cache_path p period) cd).
    destruct (rebind_cache_data _ _ _) as [c0|]; [|done]. simpl.
    split; [reflexivity|done].
Qed.

Lemma live_env_computed symbols period s :
  exists a, computed nasdaq live_env symbols period s = Ok a.
Proof.
  change (computed nasdaq live_env symbols period s)
    with (Nasdaq.compute_symbol (DateIndexed three_day_rows)).
  destruct (nasdaq_compute_total (Row 0 (Num 100))
              [Row ns_per_day (Num 110); Row (2 * ns_per_day) (Num 105)])
    as (v & x & Hvx).
  exists (v, x). exact Hvx.
Qed.

Lemma recompute_then_hit_witness :
  consult_cache live_env (cache_dir empty_world !! cache_path nasdaq "y5")
    ["A"; "B"] = Continue None /\
  delivered nasdaq live_env ["A"; "B"] "y5" /\
  rebind_cache_data live_env (cache_dir empty_world !! cache_path nasdaq "y5")
    None = Ok ∅ /\
  cache_writable live_env = true /\
  (forall s, s ∈ ["A"; "B"] ->
     exists a, computed nasdaq live_env ["A"; "B"] "y5" s = Ok a) /\
  now live_hour_later_env - write_time live_env < one_day /\
  get_stats nasdaq live_hour_later_env ["A"; "B"] "y5"
    (get_stats nasdaq live_env ["A"; "B"] "y5" empty_world).2
  = ((get_stats nasdaq live_env ["A"; "B"] "y5" empty_world).1,
     (get_stats nasdaq live_env ["A"; "B"] "y5" empty_world).2).
Proof.
  assert (H1 : consult_cache live_env
                 (cache_dir empty_world !! cache_path nasdaq "y5")
                 ["A"; "B"] = Continue None) by reflexivity.
  assert (H2 : delivered nasdaq live_env ["A"; "B"] "y5").
  { exists "A". split; [by left|]. by eexists. }
  assert (H3 : rebind_cache_data live_env
                 (cache_dir empty_world !! cache_path nasdaq "y5") None = Ok ∅)
    by reflexivity.
  assert (H4 : cache_writable live_env = true) by reflexivity.
  assert (H5 : forall s, s ∈ ["A"; "B"] ->
                 exists a, computed nasdaq live_env ["A"; "B"] "y5" s = Ok a).
  { intros s _. apply live_env_computed. }
  assert (H6 : now live_hour_later_env - write_time live_env < one_day)
    by reflexivity.
  split; [exact H1|]. split; [exact H2|]. split; [exact H3|].
  split; [exact H4|]. split; [exact H5|]. split; [exact H6|].
  exact (recompute_then_hit nasdaq live_env live_hour_later_env
           ["A"; "B"] "y5" empty_world None ∅ H1 H2 H3 H4 H5 H6).
Defined.

(** X14.  A symbol that is in the fresh cache and fails on a forced
    re-fetch is returned with null statistics, while the rewritten cache
    file still holds its old entry. *)
Theorem failed_refetch_keeps_cache_entry (p : provider) (e : env)
    (symbols : list string) (period : string) (w : world) (t : Z)
    (entries : gmap string stats) (s : string) (st : stats) :
  cache_dir w !! cache_path p period = Some (CacheFile t (CacheJson entries)) ->
  now e - t < one_day ->
  ~ Forall (fun s => is_Some (entries !! s)) symbols ->
  delivered p e symbols period ->
  cache_writable e = true ->
  s ∈ symbols ->
  entries !! s = Some st ->
  fetched p e symbols period s = None ->
  exists results entries',
    (get_stats p e symbols period w).1 = Ok results /\
    cache_dir (get_stats p e symbols period w).2 !! cache_path p period
    = Some (CacheFile (write_time e) (CacheJson entries')) /\
    results !! s = Some null_stats /\
    entries' !! s = Some st.
Proof.
  intros Hf Hfresh Hpart Hdel Hw Hs Hst Hfetch.
  rewrite (fresh_partial_recompute _ _ _ _ _ _ _ Hf Hfresh Hpart Hdel).
  eexists _, _. split; [done|]. split; [by apply save_cache_file|].
  assert (HF : computed p e symbols period s = Raise KeyError).
  { unfold computed. by rewrite Hfetch. }
  split.
  - by rewrite run_loop_results, decide_True, HF.
  - by rewrite run_loop_cache, decide_True, HF.
Qed.

Lemma failed_refetch_keeps_cache_entry_witness :
  cache_dir cached_world !! cache_path nasdaq "y5"
  = Some (CacheFile 0 (CacheJson two_entries)) /\
  now hour_later_AC_env - 0 < one_day /\
  ~ Forall (fun s => is_Some (two_entries !! s)) ["B"; "C"] /\
  delivered nasdaq hour_later_AC_env ["B"; "C"] "y5" /\
  cache_writable hour_later_AC_env = true /\
  "B" ∈ ["B"; "C"] /\
  two_entries !! "B" = Some (Stats (Some (Num 30)) (Some (Num 7))) /\
  fetched nasdaq hour_later_AC_env ["B"; "C"] "y5" "B" = None /\
  exists results entries',
    (get_stats nasdaq hour_later_AC_env ["B"; "C"] "y5" cached_world).1
    = Ok results /\
    cache_dir (get_stats nasdaq hour_later_AC_env ["B"; "C"] "y5" cached_world).2
      !! cache_path nasdaq "y5"
    = Some (CacheFile (write_time hour_later_AC_env) (CacheJson entries')) /\
    results !! "B" = Some null_stats /\
    entries' !! "B" = Some (Stats (Some (Num 30)) (Some (Num 7))).
Proof.
  assert (H1 : cache_dir cached_world !! cache_path nasdaq "y5"
               = Some (CacheFile 0 (CacheJson two_entries))) by reflexivity.
  assert (H2 : now hour_later_AC_env - 0 < one_day) by reflexivity.
  assert (H3 : ~ Forall (fun s => is_Some (two_entries !! s)) ["B"; "C"]).
  { intros H. inversion H as [|? ? _ H']. inversion H' as [|? ? [v Hv] _].
    discriminate Hv. }
  assert (H4 : delivered nasdaq hour_later_AC_env ["B"; "C"] "y5").
  { exists "C". split; [right; by left|]. by eexists. }
  assert (H5 : cache_writable hour_later_AC_env = true) by reflexivity.
  assert (H6 : "B" ∈ ["B"; "C"]) by (by left).
  assert (H7 : two_entries !! "B" = Some (Stats (Some (Num 30)) (Some (Num 7))))
    by reflexivity.
  assert (H8 : fetched nasdaq hour_later_AC_env ["B"; "C"] "y5" "B" = None)
    by reflexivity.
  split; [exact H1|]. split; [exact H2|]. split; [exact H3|].
  split; [exact H4|]. split; [exact H5|]. split; [exact H6|].
  split; [exact H7|]. split; [exact H8|].
  exact (failed_refetch_keeps_cache_entry nasdaq hour_later_AC_env ["B"; "C"]
           "y5" cached_world 0 two_entries "B" _ H1 H2 H3 H4 H5 H6 H7 H8).
Defined.

(** ** The NASDAQ batch fetch *)

Lemma debug_path_inj s s' : debug_path s = debug_path s' -> s = s'.
Proof. unfold debug_path. apply string_app_inj_r. Qed.

Lemma debug_dumps_snoc e symbols x period d :
  debug_dumps nasdaq e (symbols ++ [x]) period d
  = match nasdaq_get e x period with
    | ProcessingError csv_content true =>
        write_debug x csv_content (debug_dumps nasdaq e symbols period d)
    | _ => debug_dumps nasdaq e symbols period d
    end.
Proof. unfold debug_dumps. by rewrite foldl_snoc. Qed.

Lemma debug_dumps_written e symbols period d s csv_content :
  s ∈ symbols ->
  nasdaq_get e s period = ProcessingError csv_content true ->
  debug_dumps nasdaq e symbols period d !! debug_path s
  = Some (dumped_text csv_content).
Proof.
  intros Hs Hget. induction symbols as [|x symbols IH] using rev_ind.
  { by apply elem_of_nil in Hs. }
  rewrite debug_dumps_snoc. destruct (decide (x = s)) as [->|Hne].
  - rewrite Hget. apply lookup_insert_eq.
  - apply elem_of_snoc in Hs as [Hs| ->]; [|done].
    destruct (nasdaq_get e x period) as [|c [|]|t]; try by apply IH.
    unfold write_debug. rewrite lookup_insert_ne; [by apply IH|].
    by intros ?%debug_path_inj.
Qed.

Lemma debug_dumps_other e symbols period d path :
  (forall s csv_content, s ∈ symbols ->
     nasdaq_get e s period = ProcessingError csv_content true ->
     path <> debug_path s) ->
  debug_dumps nasdaq e symbols period d !! path = d !! path.
Proof.
  induction symbols as [|x symbols IH] using rev_ind; intros Hother; [done|].
  rewrite debug_dumps_snoc.
  assert (Hrest : debug_dumps nasdaq e symbols period d !! path = d !! path).
  { apply IH. intros s c Hs. apply Hother. apply elem_of_snoc. by left. }
  destruct (nasdaq_get e x period) as [|c [|]|t] eqn:Hx; try done.
  unfold write_debug. rewrite lookup_insert_ne; [done|].
  intros E. refine (Hother x c _ Hx _); [|done].
  apply elem_of_snoc. by right.
Qed.

(** X15.  [fetch_historical_data] of the NASDAQ provider returns exactly
    the listed symbols whose request delivered a frame with at least one
    row, each with that frame; it sends one request per listed symbol, in
    order; it leaves the cache files and the settings file alone; and in
    the [debug] directory it writes the dump of each listed symbol whose
    response could not be processed (the first 1000 characters of the
    body, nothing of a body that is not text), and no other file. *)
Theorem nasdaq_fetch_historical_data_spec (e : env) (symbols : list string)
    (period : string) (w : world) :
  (forall s t,
     (Nasdaq.fetch_historical_data e symbols period w).1 !! s = Some t
     <-> s ∈ symbols /\ nasdaq_get e s period = Processed t /\ table t <> []) /\
  requests (Nasdaq.fetch_historical_data e symbols period w).2
  = requests w ++ map (fun s => NasdaqGet s period) symbols /\
  cache_dir (Nasdaq.fetch_historical_data e symbols period w).2 = cache_dir w /\
  stock_settings (Nasdaq.fetch_historical_data e symbols period w).2
  = stock_settings w /\
  (forall s csv_content, s ∈ symbols ->
     nasdaq_get e s period = ProcessingError csv_content true ->
     debug_dir (Nasdaq.fetch_historical_data e symbols period w).2
       !! debug_path s
     = Some (dumped_text csv_content)) /\
  (forall path,
     (forall s csv_content, s ∈ symbols ->
        nasdaq_get e s period = ProcessingError csv_content true ->
        path <> debug_path s) ->
     debug_dir (Nasdaq.fetch_historical_data e symbols period w).2 !! path
     = debug_dir w !! path).
Proof.
  destruct (nasdaq_fetch_spec e symbols period w) as (dict & -> & Hdict).
  split; [|split; [done|split; [done|split; [done|split]]]].
  - intros s t. simpl. rewrite Hdict. split.
    + destruct (decide (s ∈ symbols)) as [Hs|]; [|done].
      simpl. destruct (nasdaq_get e s period) as [| |t']; [done..|].
      destruct (table t') eqn:E; [done|]. intros [= <-].
      split; [done|]. split; [done|]. by rewrite E.
    + intros (Hs & Hget & Hne). rewrite decide_True by done. simpl.
      rewrite Hget. by destruct (table t).
  - intros s c Hs Hget. by apply debug_dumps_written.
  - intros path Hother. by apply debug_dumps_other.
Qed.

(** ** The only exception *)

(** X16.  [get_stock_volatility_and_returns] raises in one situation only:
    the cache file is fresh and unreadable and the provider delivers.  What
    it raises then is [UnboundLocalError]. *)
Theorem raises_only_on_fresh_corrupt_cache (p : provider) (e : env)
    (symbols : list string) (period : string) (w : world) (err : exn) :
  (get_stats p e symbols period w).1 = Raise err ->
  err = UnboundLocalError /\
  fresh_corrupt e w (cache_path p period) /\
  delivered p e symbols period.
Proof.
  intros Hres.
  destruct (get_stats_cases p e symbols period w)
    as [(results & _ & Heq)|[(cd & _ & _ & Heq)|(cd & Hc & Hdel & Heq)]];
    rewrite Heq in Hres; [done|done|].
  unfold recompute in Hres.
  destruct (rebind_continue _ _ _ _ Hc)
    as [(t & Hf & Hfresh & Hr)|[Hr|(t & entries & _ & _ & _ & Hr)]];
    rewrite Hr in Hres; [|done|done].
  simpl in Hres. injection Hres as <-.
  split; [done|]. split; [by exists t|done].
Qed.

Lemma corrupt_world_raises :
  (get_stats yahoo yahoo_env ["TSLA"] "1y" corrupt_world).1
  = Raise UnboundLocalError.
Proof.
  assert (Hc : consult_cache yahoo_env
                 (cache_dir corrupt_world !! cache_path yahoo "1y") ["TSLA"]
               = Continue None) by reflexivity.
  assert (Hd : delivered yahoo yahoo_env ["TSLA"] "1y") by (simpl; by eexists).
  by rewrite (get_stats_delivered _ _ _ _ _ _ Hc Hd).
Qed.

Lemma raises_only_on_fresh_corrupt_cache_witness :
  (get_stats yahoo yahoo_env ["TSLA"] "1y" corrupt_world).1
  = Raise UnboundLocalError /\
  UnboundLocalError = UnboundLocalError /\
  fresh_corrupt yahoo_env corrupt_world (cache_path yahoo "1y") /\
  delivered yahoo yahoo_env ["TSLA"] "1y".
Proof.
  split; [exact corrupt_world_raises|].
  exact (raises_only_on_fresh_corrupt_cache yahoo yahoo_env ["TSLA"] "1y"
           corrupt_world UnboundLocalError corrupt_world_raises).
Defined.

(** ** Adding a stock *)

Lemma add_stock_succeeds e symbol w doc stock_data v r :
  load_settings w = Ok doc ->
  stocks doc !! upper symbol = None ->
  (get_stats yahoo e [upper symbol] "5y" w).1 = Ok stock_data ->
  stock_data !! upper symbol = Some (Stats (Some v) (Some r)) ->
  settings_writable e = true ->
  add_stock e symbol w
  = (Ok true,
     set_stock_settings
       (Some (SettingsJson
                (SettingsDoc (<[upper symbol := new_entry v r]> (stocks doc))
                             (other_members doc))))
       (get_stats yahoo e [upper symbol] "5y" w).2).
Proof.
  intros Hload Hnew Hget Hs Hw. rewrite add_stock_unfold, Hload.
  rewrite decide_False by (rewrite Hnew; by intros [? ?]).
  cbv zeta. by rewrite Hget, Hs, Hw.
Qed.

(** X17.  [add_stock] returns [True] exactly when the settings file can be
    parsed and has a ["stocks"] object that does not list the uppercased
    symbol, the Yahoo statistics of that symbol over "5y" are both
    non-null and the settings file can be written.  The file then holds
    the old document with one more stock, whose entry has the two
    statistics and no other field. *)
Theorem add_stock_true_iff (e : env) (symbol : string) (w : world) :
  ((add_stock e symbol w).1 = Ok true <->
   exists doc stock_data v r,
     load_settings w = Ok doc /\
     stocks doc !! upper symbol = None /\
     (get_stats yahoo e [upper symbol] "5y" w).1 = Ok stock_data /\
     stock_data !! upper symbol = Some (Stats (Some v) (Some r)) /\
     settings_writable e = true) /\
  (forall doc stock_data v r,
     (add_stock e symbol w).1 = Ok true ->
     load_settings w = Ok doc ->
     (get_stats yahoo e [upper symbol] "5y" w).1 = Ok stock_data ->
     stock_data !! upper symbol = Some (Stats (Some v) (Some r)) ->
     stock_settings (add_stock e symbol w).2
     = Some (SettingsJson
               (SettingsDoc (<[upper symbol := new_entry v r]> (stocks doc))
                            (other_members doc)))).
Proof.
  assert (Hiff : (add_stock e symbol w).1 = Ok true <->
            exists doc stock_data v r,
              load_settings w = Ok doc /\
              stocks doc !! upper symbol = None /\
              (get_stats yahoo e [upper symbol] "5y" w).1 = Ok stock_data /\
              stock_data !! upper symbol = Some (Stats (Some v) (Some r)) /\
              settings_writable e = true).
  { split.
    - rewrite add_stock_unfold.
      destruct (load_settings w) as [doc|[]]; try done.
      destruct (decide _) as [|Hnew]; [done|]. cbv zeta.
      destruct ((get_stats yahoo e [upper symbol] "5y" w).1)
        as [stock_data|] eqn:Hget; [|done].
      destruct (stock_data !! upper symbol) as [[[v|] [x|]]|] eqn:Hs;
        try done.
      destruct (settings_writable e) eqn:Hw; [|done].
      intros _. exists doc, stock_data, v, x.
      repeat split; try done.
      destruct (stocks doc !! upper symbol) eqn:E; [|done].
      exfalso. apply Hnew. by eexists.
    - intros (doc & stock_data & v & r & Hload & Hnew & Hget & Hs & Hw).
      by rewrite (add_stock_succeeds _ _ _ _ _ _ _ Hload Hnew Hget Hs Hw). }
  split; [exact Hiff|].
  intros doc stock_data v r Htrue Hload Hget Hs.
  apply Hiff in Htrue as (doc' & sd & v' & r' & Hload' & Hnew & Hget' & Hs' & Hw).
  rewrite Hload in Hload'. injection Hload' as <-.
  rewrite Hget in Hget'. injection Hget' as <-.
  rewrite Hs in Hs'. injection Hs' as <- <-.
  by rewrite (add_stock_succeeds _ _ _ _ _ _ _ Hload Hnew Hget Hs Hw).
Qed.

Lemma add_stock_failure_settings e symbol w :
  (add_stock e symbol w).1 <> Ok true ->
  stock_settings (add_stock e symbol w).2 = stock_settings w.
Proof.
  rewrite add_stock_unfold.
  destruct (load_settings w) as [doc|[]]; try done.
  destruct (decide _); [done|]. cbv zeta.
  pose proof (get_stats_stock_settings yahoo e [upper symbol] "5y" w) as Hset.
  destruct ((get_stats yahoo e [upper symbol] "5y" w).1) as [stock_data|];
    [|done].
  destruct (stock_data !! upper symbol) as [[[v|] [x|]]|]; try done.
  by destruct (settings_writable e).
Qed.

(** X18.  Whenever [add_stock] does not return [True] - it returns [False]
    or an exception leaves it - the settings file is as it was. *)
Theorem add_stock_failure_keeps_settings (e : env) (symbol : string)
    (w : world) :
  (add_stock e symbol w).1 <> Ok true ->
  stock_settings (add_stock e symbol w).2 = stock_settings w.
Proof. apply add_stock_failure_settings. Qed.

Lemma add_stock_failure_keeps_settings_witness :
  (add_stock dead_env "nvda" tsla_world).1 <> Ok true /\
  stock_settings (add_stock dead_env "nvda" tsla_world).2
  = stock_settings tsla_world.
Proof.
  assert (H : (add_stock dead_env "nvda" tsla_world).1 <> Ok true).
  { intros H. discriminate H. }
  split; [exact H|].
  exact (add_stock_failure_keeps_settings dead_env "nvda" tsla_world H).
Defined.

Lemma upper_ascii_idemp c : upper_ascii (upper_ascii c) = upper_ascii c.
Proof. by destruct c as [[] [] [] [] [] [] [] []]. Qed.

Lemma upper_idemp s : upper (upper s) = upper s.
Proof.
  induction s as [|c s IH]; [done|]. simpl. by rewrite upper_ascii_idemp, IH.
Qed.

(** X19.  [add_stock] does not tell the letter case of its argument: the
    symbol and its uppercased form have the same effect and the same
    result. *)
Theorem add_stock_case_insensitive (e : env) (symbol : string) (w : world) :
  add_stock e (upper symbol) w = add_stock e symbol w.
Proof. by rewrite !add_stock_unfold, upper_idemp. Qed.

Lemma add_stock_true_written e symbol w :
  (add_stock e symbol w).1 = Ok true ->
  exists doc v r,
    stock_settings (add_stock e symbol w).2
    = Some (SettingsJson
              (SettingsDoc (<[upper symbol := new_entry v r]> (stocks doc))
                           (other_members doc))).
Proof.
  rewrite add_stock_unfold.
  destruct (load_settings w) as [doc|[]]; try done.
  destruct (decide _); [done|]. cbv zeta.
  destruct ((get_stats yahoo e [upper symbol] "5y" w).1) as [stock_data|];
    [|done].
  destruct (stock_data !! upper symbol) as [[[v|] [x|]]|]; try done.
  destruct (settings_writable e); [|done].
  intros _. by exists doc, v, x.
Qed.

(** X20.  Adding twice: after [add_stock] has returned [True], adding the
    same symbol again, in any letter case and whatever the environment,
    returns [False] and changes nothing. *)
Theorem add_stock_twice (e1 e2 : env) (symbol symbol' : string) (w : world) :
  (add_stock e1 symbol w).1 = Ok true ->
  upper symbol' = upper symbol ->
  add_stock e2 symbol' (add_stock e1 symbol w).2
  = (Ok false, (add_stock e1 symbol w).2).
Proof.
  intros Htrue Hcase.
  destruct (add_stock_true_written e1 symbol w Htrue) as (doc & v & r & Hset).
  rewrite add_stock_unfold. unfold load_settings, json_load_settings.
  rewrite Hset, Hcase. cbn [mbind result_bind getitem_stocks stocks]. rewrite decide_True; [done|].
  rewrite lookup_insert_eq. by eexists.
Qed.

Lemma yahoo_three_day_computed symbols period :
  exists a, computed yahoo yahoo_env [symbols] period symbols = Ok a.
Proof.
  unfold computed. cbn [fetched yf_download yahoo_env].
  unfold Yahoo.select_symbol_data. rewrite decide_True by done.
  cbn [compute_stats]. unfold Yahoo.calculate_expected_return.
  change (span_days three_day_rows) with (Ok (A:=Z) 2).
  cbn -[fmul fdiv fpow fsub fadd calculate_annualized_volatility].
  unfold truediv. rewrite decide_False by done.
  by eexists.
Qed.

Lemma add_nvda_succeeds :
  (add_stock yahoo_env "nvda" tsla_world).1 = Ok true.
Proof.
  destruct (yahoo_three_day_computed "NVDA" "5y") as [[v r] Ha].
  assert (Hd : delivered yahoo yahoo_env ["NVDA"] "5y") by (simpl; by eexists).
  assert (Hget : (get_stats yahoo yahoo_env [upper "nvda"] "5y" tsla_world).1
                 = Ok (run_loop (computed yahoo yahoo_env ["NVDA"] "5y")
                         ["NVDA"] ∅).1).
  { change (upper "nvda") with "NVDA".
    by rewrite (get_stats_delivered yahoo yahoo_env ["NVDA"] "5y" tsla_world
                  None eq_refl Hd). }
  assert (Hs : (run_loop (computed yahoo yahoo_env ["NVDA"] "5y") ["NVDA"] ∅).1
                 !! upper "nvda"
               = Some (Stats (Some (round2 v)) (Some (round2 r)))).
  { change (upper "nvda") with "NVDA".
    rewrite run_loop_results, decide_True by (by left). by rewrite Ha. }
  by rewrite (add_stock_succeeds yahoo_env "nvda" tsla_world tsla_doc _ _ _
                eq_refl eq_refl Hget Hs eq_refl).
Qed.

Lemma add_stock_twice_witness :
  (add_stock yahoo_env "nvda" tsla_world).1 = Ok true /\
  upper "Nvda" = upper "nvda" /\
  (add_stock dead_env "Nvda" (add_stock yahoo_env "nvda" tsla_world).2
   = (Ok false, (add_stock yahoo_env "nvda" tsla_world).2)).
Proof.
  assert (H2 : upper "Nvda" = upper "nvda") by reflexivity.
  split; [exact add_nvda_succeeds|]. split; [exact H2|].
  exact (add_stock_twice yahoo_env dead_env "nvda" "Nvda" tsla_world
           add_nvda_succeeds H2).
Defined.

(** ** Exit statuses *)

Lemma add_stock_main_one_symbol e script symbol w :
  add_stock_main e [script; symbol] w
  = match add_stock e symbol w with
    | (Ok success, w1) => (if success then 0 else 1, w1)
    | (Raise _, w1) => (1, w1)
    end.
Proof. done. Qed.

Lemma add_stock_main_bad_arguments e argv w :
  length argv <> 2%nat -> add_stock_main e argv w = (1, w).
Proof. intros H. unfold add_stock_main. by rewrite decide_True. Qed.

(** X21.  The [add_stock] command exits with status 0 exactly when it was
    given one symbol and [add_stock] returned [True]; in every other case
    the status is 1 and the settings file is as it was. *)
Theorem add_stock_main_exit (e : env) (argv : list string) (w : world) :
  ((add_stock_main e argv w).1 = 0 <->
   exists script symbol,
     argv = [script; symbol] /\ (add_stock e symbol w).1 = Ok true) /\
  ((add_stock_main e argv w).1 <> 0 ->
   (add_stock_main e argv w).1 = 1 /\
   stock_settings (add_stock_main e argv w).2 = stock_settings w).
Proof.
  destruct (decide (length argv = 2%nat)) as [Hlen|Hlen].
  - destruct argv as [|script [|symbol [|]]]; try done.
    rewrite add_stock_main_one_symbol.
    pose proof (add_stock_failure_settings e symbol w) as Hfail.
    destruct (add_stock e symbol w) as [[[|]|err] w1] eqn:Hadd; simpl in *.
    + split; [|done]. split; [|done]. intros _. exists script, symbol.
      by rewrite Hadd.
    + split.
      * split; [done|]. intros (? & ? & [= <- <-] & H). by rewrite Hadd in H.
      * intros _. split; [done|]. by apply Hfail.
    + split.
      * split; [done|]. intros (? & ? & [= <- <-] & H). by rewrite Hadd in H.
      * intros _. split; [done|]. by apply Hfail.
  - rewrite add_stock_main_bad_arguments by done. split; [|done].
    split; [done|]. intros (script & symbol & -> & _). by exfalso.
Qed.

Lemma load_settings_KeyError w :
  load_settings w = Raise KeyError
  <-> exists members, stock_settings w = Some (NoStocks members).
Proof.
  unfold load_settings, json_load_settings.
  destruct (stock_settings w) as [[|doc|members]|]; split; try done.
  - by intros [? ?].
  - by intros [? ?].
  - intros _. by eexists.
  - by intros [? ?].
Qed.

Lemma get_stats_raises_iff p e symbols period w :
  (exists err, (get_stats p e symbols period w).1 = Raise err)
  <-> fresh_corrupt e w (cache_path p period) /\ delivered p e symbols period.
Proof.
  split.
  - intros [err Hres].
    destruct (get_stats_cases p e symbols period w)
      as [(results & _ & Heq)|[(cd & _ & _ & Heq)|(cd & Hc & Hdel & Heq)]];
      rewrite Heq in Hres; [done|done|].
    unfold recompute in Hres.
    destruct (rebind_continue _ _ _ _ Hc)
      as [(t & Hf & Hfresh & Hr)|[Hr|(t & entries & _ & _ & _ & Hr)]];
      rewrite Hr in Hres; [|done|done].
    split; [by exists t|done].
  - intros [Hcorrupt Hdel]. exists UnboundLocalError.
    destruct (consult_fresh_corrupt e w _ symbols Hcorrupt) as [Hc Hr].
    rewrite (get_stats_delivered _ _ _ _ _ _ Hc Hdel).
    unfold recompute. by rewrite Hr.
Qed.

(** X22.  The update command exits with status 0 whenever
    [update_stock_settings] returns, also when it returns [False].  Its
    status is not 0 in two situations only: the settings file can be
    parsed but has no ["stocks"] member, or the fresh NASDAQ cache for
    "y5" is unreadable and the provider delivers.  The status is then 1,
    and the settings file is as it was. *)
Theorem update_stock_data_main_exit (e : env) (w : world) :
  (forall b, (update_stock_settings e w).1 = Ok b ->
     (update_stock_data_main e w).1 = 0) /\
  ((update_stock_data_main e w).1 <> 0 <->
   (exists members, stock_settings w = Some (NoStocks members)) \/
   (exists doc,
      load_settings w = Ok doc /\
      fresh_corrupt e w (cache_path nasdaq "y5") /\
      delivered nasdaq e (map_to_list (stocks doc)).*1 "y5")) /\
  ((update_stock_data_main e w).1 <> 0 ->
   (update_stock_data_main e w).1 = 1 /\
   stock_settings (update_stock_data_main e w).2 = stock_settings w).
Proof.
  pose proof (load_settings_KeyError w) as Hkey.
  assert (Hmain : (update_stock_data_main e w).1
                  = match (update_stock_settings e w).1 with
                    | Ok _ => 0 | Raise _ => 1
                    end /\
                  (update_stock_data_main e w).2 = (update_stock_settings e w).2).
  { unfold update_stock_data_main.
    by destruct (update_stock_settings e w) as [[b|err] w']. }
  destruct Hmain as [-> ->].
  assert (Hraise : (exists err, (update_stock_settings e w).1 = Raise err) <->
            (exists members, stock_settings w = Some (NoStocks members)) \/
            (exists doc,
               load_settings w = Ok doc /\
               fresh_corrupt e w (cache_path nasdaq "y5") /\
               delivered nasdaq e (map_to_list (stocks doc)).*1 "y5")).
  { rewrite update_stock_settings_unfold.
    destruct (load_settings w) as [doc|err] eqn:Hload.
    - cbv zeta.
      pose proof (get_stats_raises_iff nasdaq e
                    (map_to_list (stocks doc)).*1 "y5" w) as Hget.
      destruct ((get_stats nasdaq e (map_to_list (stocks doc)).*1 "y5" w).1)
        as [stock_data|err].
      + split.
        * intros [err Herr]. by destruct (settings_writable e).
        * intros [H|(doc' & [= <-] & Hcor & Hdel)]; [by apply Hkey in H|].
          destruct (proj2 Hget (conj Hcor Hdel)) as [err Herr]. done.
      + split; [|by eexists]. intros _. right. exists doc.
        split; [done|]. apply Hget. by eexists.
    - split.
      + intros [err' Herr]. left. apply Hkey. by destruct err.
      + intros [H|(doc & H & _)]; [|done].
        apply Hkey in H. injection H as ->. by eexists. }
  assert (Hset : stock_settings (update_stock_settings e w).2 = stock_settings w
                 \/ exists b, (update_stock_settings e w).1 = Ok b).
  { rewrite update_stock_settings_unfold.
    destruct (load_settings w) as [doc|[]]; try (by left). cbv zeta.
    pose proof (get_stats_stock_settings nasdaq e
                  (map_to_list (stocks doc)).*1 "y5" w) as Hs.
    destruct ((get_stats nasdaq e (map_to_list (stocks doc)).*1 "y5" w).1);
      [right|by left].
    destruct (settings_writable e); by eexists. }
  split; [|split].
  - intros b Hb. by rewrite Hb.
  - rewrite <- Hraise.
    destruct ((update_stock_settings e w).1) as [b|err]; split; try done.
    + by intros [? ?].
    + intros _. by eexists.
  - destruct ((update_stock_settings e w).1) as [b|err] eqn:E; [done|].
    intros _. split; [done|]. destruct Hset as [H|[b H]]; [done|].
    congruence.
Qed.

Lemma tsla_symbols : (map_to_list (stocks tsla_doc)).*1 = ["TSLA"].
Proof. by vm_compute. Qed.

Lemma corrupt_nasdaq_world_exit :
  (update_stock_data_main live_env corrupt_nasdaq_world).1 <> 0.
Proof.
  unfold update_stock_data_main. rewrite update_stock_settings_unfold.
  change (load_settings corrupt_nasdaq_world) with (Ok tsla_doc).
  cbv beta iota zeta. rewrite tsla_symbols.
  assert (Hc : consult_cache live_env
                 (cache_dir corrupt_nasdaq_world !! cache_path nasdaq "y5")
                 ["TSLA"] = Continue None) by reflexivity.
  assert (Hd : delivered nasdaq live_env ["TSLA"] "y5").
  { exists "TSLA". split; [by left|]. by eexists. }
  rewrite (get_stats_delivered _ _ _ _ _ _ Hc Hd). done.
Qed.

Lemma update_stock_data_main_exit_witness :
  (update_stock_data_main live_env corrupt_nasdaq_world).1 <> 0 /\
  (update_stock_data_main live_env corrupt_nasdaq_world).1 = 1 /\
  stock_settings (update_stock_data_main live_env corrupt_nasdaq_world).2
  = stock_settings corrupt_nasdaq_world.
Proof.
  split; [exact corrupt_nasdaq_world_exit|].
  exact (proj2 (proj2 (update_stock_data_main_exit live_env corrupt_nasdaq_world))
           corrupt_nasdaq_world_exit).
Defined.

(** ** Updating twice *)

Lemma updated_fields_idemp computed_stats fields :
  updated_fields computed_stats (updated_fields computed_stats fields)
  = updated_fields computed_stats fields.
Proof.
  destruct computed_stats as [[[v|] [r|]]|]; simpl; try done.
  apply map_eq. intros k.
  destruct (decide (k = "expectedReturn")) as [->|Hr].
  { by rewrite !lookup_insert_eq. }
  rewrite !(lookup_insert_ne _ "expectedReturn") by done.
  destruct (decide (k = "volatility")) as [->|Hv].
  { by rewrite !lookup_insert_eq. }
  rewrite !(lookup_insert_ne _ "volatility") by done.
  by rewrite !lookup_insert_ne.
Qed.

Lemma update_stocks_idemp (stock_data : gmap string stats)
    (stocks : gmap string (gmap string json)) :
  update_stocks stock_data (update_stocks stock_data stocks)
  = update_stocks stock_data stocks.
Proof.
  apply map_eq. intros s. rewrite !update_stocks_lookup.
  destruct (stocks !! s) as [fields|]; [|done]. simpl.
  by rewrite updated_fields_idemp.
Qed.

(** X23.  The update loop is idempotent, and statistics with a null field
    change nothing: applying the same computed statistics a second time
    leaves every stock as the first application left it. *)
Theorem update_stocks_idempotent (stock_data : gmap string stats)
    (stocks : gmap string (gmap string json)) :
  update_stocks stock_data (update_stocks stock_data stocks)
  = update_stocks stock_data stocks /\
  ((forall s st, stock_data !! s = Some st ->
      volatility st = None \/ expectedReturn st = None) ->
   update_stocks stock_data stocks = stocks).
Proof.
  split; [apply update_stocks_idemp|].
  intros Hnull. apply map_eq. intros s. rewrite update_stocks_lookup.
  destruct (stocks !! s) as [fields|]; [|done]. simpl. f_equal.
  destruct (stock_data !! s) as [[[v|] [r|]]|] eqn:E; try done.
  by destruct (Hnull s _ E).
Qed.

Lemma elem_of_keys {V : Type} (m : gmap string V) (s : string) :
  s ∈ (map_to_list m).*1 <-> is_Some (m !! s).
Proof.
  rewrite list_elem_of_fmap. split.
  - intros ([k v] & -> & Hkv). apply elem_of_map_to_list in Hkv. by eexists.
  - intros [v Hv]. exists (s, v). split; [done|]. by apply elem_of_map_to_list.
Qed.

Lemma update_stocks_keys stock_data (stocks : gmap string (gmap string json)) s :
  is_Some (update_stocks stock_data stocks !! s) <-> is_Some (stocks !! s).
Proof. rewrite update_stocks_lookup. by rewrite fmap_is_Some. Qed.

(** X24.  Running the bulk update twice: when a run recomputes the
    statistics of every stock, writes the cache file and the settings
    file, a second run within a day returns [True], sends no request and
    leaves the settings file and the cache file exactly as the first run
    left them. *)
Theorem update_stock_settings_twice (e1 e2 : env) (w : world)
    (doc : settings_doc) (cache_data : option (gmap string stats))
    (c0 : gmap string stats) :
  load_settings w = Ok doc ->
  consult_cache e1 (cache_dir w !! cache_path nasdaq "y5")
    (map_to_list (stocks doc)).*1 = Continue cache_data ->
  delivered nasdaq e1 (map_to_list (stocks doc)).*1 "y5" ->
  rebind_cache_data e1 (cache_dir w !! cache_path nasdaq "y5") cache_data
  = Ok c0 ->
  cache_writable e1 = true ->
  settings_writable e1 = true ->
  settings_writable e2 = true ->
  (forall s, s ∈ (map_to_list (stocks doc)).*1 ->
     exists a, computed nasdaq e1 (map_to_list (stocks doc)).*1 "y5" s = Ok a) ->
  now e2 - write_time e1 < one_day ->
  (update_stock_settings e1 w).1 = Ok true /\
  update_stock_settings e2 (update_stock_settings e1 w).2
  = (Ok true, (update_stock_settings e1 w).2).
Proof.
  intros Hload Hc Hdel Hr Hcw Hsw1 Hsw2 Hall Hfresh.
  set (symbols := (map_to_list (stocks doc)).*1) in *.
  set (F := computed nasdaq e1 symbols "y5") in *.
  set (sd := (run_loop F symbols c0).1).
  set (doc1 := set_stocks (update_stocks sd (stocks doc)) doc).
  destruct (recompute_written nasdaq e1 symbols "y5" w cache_data c0 Hr Hcw)
    as [_ Hfile].
  assert (Hrun1 : get_stats nasdaq e1 symbols "y5" w
                  = (Ok sd, (recompute nasdaq e1 symbols "y5" w cache_data).2)).
  { rewrite (get_stats_delivered _ _ _ _ _ _ Hc Hdel).
    unfold recompute. by rewrite Hr. }
  set (w1 := (recompute nasdaq e1 symbols "y5" w cache_data).2) in *.
  assert (Hfirst : update_stock_settings e1 w
                   = (Ok true,
                      set_stock_settings (Some (SettingsJson doc1)) w1)).
  { rewrite update_stock_settings_unfold, Hload. cbv zeta. fold symbols.
    by rewrite Hrun1, Hsw1. }
  rewrite Hfirst. split; [done|]. cbn [snd].
  set (W1 := set_stock_settings (Some (SettingsJson doc1)) w1).
  set (symbols' := (map_to_list (stocks doc1)).*1).
  assert (Hsame : forall s, s ∈ symbols' <-> s ∈ symbols).
  { intros s. unfold symbols', symbols. rewrite !elem_of_keys.
    apply update_stocks_keys. }
  assert (Hpresent : Forall (fun s => is_Some ((run_loop F symbols c0).2 !! s))
                            symbols').
  { apply Forall_forall. intros s Hs%Hsame.
    rewrite run_loop_cache, decide_True by done.
    destruct (Hall s Hs) as [a Ha]. rewrite Ha. by eexists. }
  destruct (consult_hit e2 (cache_dir W1 !! cache_path nasdaq "y5") symbols'
              (write_time e1) (run_loop F symbols c0).2 Hfile Hfresh Hpresent)
    as (results & Hhit & Hres).
  assert (Hresults : results = sd).
  { apply map_eq. intros s. unfold sd.
    rewrite Hres, run_loop_results, run_loop_cache.
    destruct (decide (s ∈ symbols')) as [Hs|Hs].
    - apply Hsame in Hs. rewrite !decide_True by done.
      destruct (Hall s Hs) as [a Ha]. by rewrite Ha.
    - rewrite decide_False; [done|]. by intros ?%Hsame. }
  rewrite update_stock_settings_unfold.
  change (load_settings W1) with (Ok doc1). cbv beta iota zeta.
  fold symbols'. rewrite (get_stats_hit _ _ _ _ _ _ Hhit), Hresults. cbn [fst snd].
  rewrite Hsw2. f_equal.
  assert (Hdoc : set_stocks (update_stocks sd (stocks doc1)) doc1 = doc1).
  { unfold doc1, set_stocks. cbn [stocks other_members].
    by rewrite update_stocks_idemp. }
  by rewrite Hdoc.
Qed.

Lemma update_stock_settings_twice_witness :
  load_settings tsla_world = Ok tsla_doc /\
  consult_cache live_env (cache_dir tsla_world !! cache_path nasdaq "y5")
    (map_to_list (stocks tsla_doc)).*1 = Continue None /\
  delivered nasdaq live_env (map_to_list (stocks tsla_doc)).*1 "y5" /\
  rebind_cache_data live_env (cache_dir tsla_world !! cache_path nasdaq "y5")
    None = Ok ∅ /\
  cache_writable live_env = true /\
  settings_writable live_env = true /\
  settings_writable live_hour_later_env = true /\
  (forall s, s ∈ (map_to_list (stocks tsla_doc)).*1 ->
     exists a, computed nasdaq live_env (map_to_list (stocks tsla_doc)).*1
                 "y5" s = Ok a) /\
  now live_hour_later_env - write_time live_env < one_day /\
  (update_stock_settings live_env tsla_world).1 = Ok true /\
  update_stock_settings live_hour_later_env
    (update_stock_settings live_env tsla_world).2
  = (Ok true, (update_stock_settings live_env tsla_world).2).
Proof.
  assert (H1 : load_settings tsla_world = Ok tsla_doc) by reflexivity.
  assert (H2 : consult_cache live_env
                 (cache_dir tsla_world !! cache_path nasdaq "y5")
                 (map_to_list (stocks tsla_doc)).*1 = Continue None)
    by reflexivity.
  assert (H3 : delivered nasdaq live_env (map_to_list (stocks tsla_doc)).*1 "y5").
  { exists "TSLA". split; [rewrite tsla_symbols; by left|]. by eexists. }
  assert (H4 : rebind_cache_data live_env
                 (cache_dir tsla_world !! cache_path nasdaq "y5") None = Ok ∅)
    by reflexivity.
  assert (H5 : cache_writable live_env = true) by reflexivity.
  assert (H6 : settings_writable live_env = true) by reflexivity.
  assert (H7 : settings_writable live_hour_later_env = true) by reflexivity.
  assert (H8 : forall s, s ∈ (map_to_list (stocks tsla_doc)).*1 ->
                 exists a, computed nasdaq live_env
                             (map_to_list (stocks tsla_doc)).*1 "y5" s = Ok a).
  { intros s _. apply live_env_computed. }
  assert (H9 : now live_hour_later_env - write_time live_env < one_day)
    by reflexivity.
  split; [exact H1|]. split; [exact H2|]. split; [exact H3|].
  split; [exact H4|]. split; [exact H5|]. split; [exact H6|].
  split; [exact H7|]. split; [exact H8|]. split; [exact H9|].
  exact (update_stock_settings_twice live_env live_hour_later_env tsla_world
           tsla_doc None ∅ H1 H2 H3 H4 H5 H6 H7 H8 H9).
Defined.

(** ** The column mapping of the NASDAQ tables *)

(** The names the produced frame can have, in the order of the mapping. *)
Lemma map_columns_cases {C : Type} (df : list (string * C)) :
  map_columns df
  = match first_matching "Close/Last" df with
    | None => Raise KeyError
    | Some close =>
        Ok (from_option (fun c => [("Date", c)]) [] (first_matching "Date" df)
            ++ [("Close", close)]
            ++ from_option (fun c => [("Volume", c)]) [] (first_matching "Volume" df)
            ++ from_option (fun c => [("Open", c)]) [] (first_matching "Open" df)
            ++ from_option (fun c => [("High", c)]) [] (first_matching "High" df)
            ++ from_option (fun c => [("Low", c)]) [] (first_matching "Low" df)
            ++ [("Adj Close", close)])
    end.
Proof.
  unfold map_columns, column_mapping. cbn [foldl].
  destruct (first_matching "Date" df), (first_matching "Close/Last" df),
    (first_matching "Volume" df), (first_matching "Open" df),
    (first_matching "High" df), (first_matching "Low" df);
    reflexivity.
Qed.

(** X25.  The column mapping succeeds exactly when some column name
    contains "Close/Last"; the produced frame then has [Adj Close] equal
    to [Close], both the first such column.  Otherwise it raises
    [KeyError]; a column named just "Close" is not recognised. *)
Theorem map_columns_close {C : Type} (df : list (string * C)) :
  match first_matching "Close/Last" df with
  | Some close =>
      exists processed_df,
        map_columns df = Ok processed_df /\
        get_column "Close" processed_df = Ok close /\
        get_column "Adj Close" processed_df = Ok close
  | None => map_columns df = Raise KeyError
  end.
Proof.
  rewrite map_columns_cases.
  destruct (first_matching "Close/Last" df) as [close|]; [|done].
  eexists. split; [done|].
  destruct (first_matching "Date" df), (first_matching "Volume" df),
    (first_matching "Open" df), (first_matching "High" df),
    (first_matching "Low" df); by split.
Qed.

Lemma column_mapping_names :
  column_mapping
  = map (fun our_col => (nasdaq_name our_col, our_col))
        ["Date"; "Close"; "Volume"; "Open"; "High"; "Low"].
Proof. reflexivity. Qed.

Lemma decide_is_Some_filter {A : Type} (o : option A) (x : string)
    (l : list string) :
  (if decide (is_Some o) then x :: l else l)
  = from_option (fun _ => [x]) [] o ++ l.
Proof.
  destruct o.
  - by rewrite decide_True by (by eexists).
  - by rewrite decide_False by (by intros [? ?]).
Qed.

(** X26.  The frame the column mapping produces has distinct column
    names: those of Date, Close, Volume, Open, High, Low whose NASDAQ
    header is contained in some column name, in this order whatever the
    order of the input, and then Adj Close. *)
Theorem map_columns_schema {C : Type} (df processed_df : list (string * C)) :
  map_columns df = Ok processed_df ->
  processed_df.*1
  = filter (fun our_col => is_Some (first_matching (nasdaq_name our_col) df))
           ["Date"; "Close"; "Volume"; "Open"; "High"; "Low"]
    ++ ["Adj Close"] /\
  NoDup processed_df.*1.
Proof.
  rewrite map_columns_cases. intros H.
  rewrite !filter_cons, filter_nil.
  change (nasdaq_name "Date") with "Date".
  change (nasdaq_name "Close") with "Close/Last".
  change (nasdaq_name "Volume") with "Volume".
  change (nasdaq_name "Open") with "Open".
  change (nasdaq_name "High") with "High".
  change (nasdaq_name "Low") with "Low".
  rewrite !decide_is_Some_filter.
  destruct (first_matching "Close/Last" df) as [close|]; [|done].
  injection H as <-.
  destruct (first_matching "Date" df), (first_matching "Volume" df),
    (first_matching "Open" df), (first_matching "High" df),
    (first_matching "Low" df);
    (split; [reflexivity|]); cbn [fmap list_fmap from_option app fst];
    refine (bool_decide_unpack _ _); by vm_compute.
Qed.

Lemma map_columns_schema_witness :
  map_columns (nasdaq_columns 1 2 3 4 5)
  = Ok [("Close", 1); ("Volume", 2); ("Open", 3); ("High", 4); ("Low", 5);
        ("Adj Close", 1)] /\
  [("Close", 1); ("Volume", 2); ("Open", 3); ("High", 4); ("Low", 5);
   ("Adj Close", 1)].*1
  = filter (fun our_col =>
              is_Some (first_matching (nasdaq_name our_col)
                         (nasdaq_columns 1 2 3 4 5)))
           ["Date"; "Close"; "Volume"; "Open"; "High"; "Low"]
    ++ ["Adj Close"] /\
  NoDup [("Close", 1); ("Volume", 2); ("Open", 3); ("High", 4); ("Low", 5);
         ("Adj Close", 1)].*1.
Proof.
  assert (H : map_columns (nasdaq_columns 1 2 3 4 5)
              = Ok [("Close", 1); ("Volume", 2); ("Open", 3); ("High", 4);
                    ("Low", 5); ("Adj Close", 1)]) by reflexivity.
  split; [exact H|].
  exact (map_columns_schema (nasdaq_columns 1 2 3 4 5) _ H).
Defined.

(** [contains] is the substring test. *)
Lemma prefix_spec needle haystack :
  String.prefix needle haystack = true
  <-> exists post, haystack = needle +:+ post.
Proof.
  revert haystack. induction needle as [|c needle IH]; intros haystack.
  - split; [|by destruct haystack]. intros _. by exists haystack.
  - destruct haystack as [|d haystack]; simpl.
    + split; [done|]. by intros [post H].
    + destruct (Ascii.ascii_dec c d) as [->|Hne].
      * rewrite IH. split; intros [post H]; exists post.
        -- by rewrite H.
        -- by injection H.
      * split; [done|]. intros [post H]. injection H as H _. by symmetry in H.
Qed.

Lemma contains_spec needle haystack :
  contains needle haystack = true
  <-> exists pre post, haystack = pre +:+ needle +:+ post.
Proof.
  induction haystack as [|d haystack IH].
  - cbn [contains]. rewrite orb_false_r, prefix_spec. split.
    + intros [post H]. by exists "", post.
    + intros ([|? pre] & post & H); [by exists post|done].
  - cbn [contains]. rewrite orb_true_iff, prefix_spec, IH. split.
    + intros [[post H]|(pre & post & H)].
      * by exists "", post.
      * exists (String d pre), post. by rewrite H.
    + intros ([|c pre] & post & H).
      * left. by exists post.
      * right. exists pre, post. by injection H.
Qed.

Example map_columns_examples :
  map_columns [("Date", 0); ("Close", 1); ("Volume", 2)] = Raise KeyError /\
  map_columns [(" Low", 5); (" Close/Last", 1); ("Closing/Last", 9)]
  = Ok [("Close", 1); ("Low", 5); ("Adj Close", 1)].
Proof. split; reflexivity. Qed.

(** ** The order of a NASDAQ request *)

Lemma Forall_same_elements {A : Type} (P : A -> Prop) (l l' : list A) :
  (forall x, x ∈ l <-> x ∈ l') -> Forall P l -> Forall P l'.
Proof.
  intros H Hl. apply Forall_forall. intros x Hx%H.
  by apply (proj1 (Forall_forall _ _) Hl).
Qed.

Lemma consult_cache_same_elements e f (symbols symbols' : list string) :
  (forall s, s ∈ symbols <-> s ∈ symbols') ->
  consult_cache e f symbols = consult_cache e f symbols'.
Proof.
  intros Hsame.
  assert (Hsym : forall s, s ∈ symbols' <-> s ∈ symbols)
    by (intros s; by rewrite Hsame).
  unfold consult_cache.
  destruct (cache_exists f && cache_fresh e f); [|done].
  destruct (json_load f) as [cache_data|]; [|done].
  destruct (filter _ symbols) as [|x l] eqn:E;
    destruct (filter _ symbols') as [|x' l'] eqn:E'.
  - apply missing_symbols_nil in E, E'.
    destruct (cached_results_spec _ _ E) as (results & -> & Hres).
    destruct (cached_results_spec _ _ E') as (results' & -> & Hres').
    f_equal. apply map_eq. intros s. rewrite Hres, Hres'.
    destruct (decide (s ∈ symbols)) as [Hs|Hs].
    + by rewrite decide_True by (by apply Hsame).
    + by rewrite decide_False by (by intros ?%Hsym).
  - apply missing_symbols_nil in E.
    apply (Forall_same_elements _ _ symbols' Hsame) in E.
    apply missing_symbols_nil in E. congruence.
  - apply missing_symbols_nil in E'.
    apply (Forall_same_elements _ _ symbols Hsym) in E'.
    apply missing_symbols_nil in E'. congruence.
  - done.
Qed.

Lemma run_loop_same_elements F (symbols symbols' : list string) c0 :
  (forall s, s ∈ symbols <-> s ∈ symbols') ->
  run_loop F symbols c0 = run_loop F symbols' c0.
Proof.
  intros Hsame.
  assert (Hdec : forall (A : Type) s (a b : A),
            (if decide (s ∈ symbols) then a else b)
            = if decide (s ∈ symbols') then a else b).
  { intros A s a b. destruct (decide (s ∈ symbols)) as [Hs|Hs].
    - by rewrite decide_True by (by apply Hsame).
    - rewrite decide_False; [done|]. intros H. by apply Hs, Hsame. }
  apply injective_projections; apply map_eq; intros s.
  - by rewrite !run_loop_results, Hdec.
  - by rewrite !run_loop_cache, Hdec.
Qed.

(** X27.  For NASDAQ the order of the requested symbols and their
    repetition change neither what a call returns nor what it leaves in
    the cache directory: two requests with the same set of symbols differ
    in the requests they send only. *)
Theorem nasdaq_request_order_irrelevant (e : env)
    (symbols symbols' : list string) (period : string) (w : world) :
  (forall s, s ∈ symbols <-> s ∈ symbols') ->
  (get_stats nasdaq e symbols period w).1
  = (get_stats nasdaq e symbols' period w).1 /\
  cache_dir (get_stats nasdaq e symbols period w).2
  = cache_dir (get_stats nasdaq e symbols' period w).2.
Proof.
  intros Hsame.
  pose proof (consult_cache_same_elements e
                (cache_dir w !! cache_path nasdaq period) _ _ Hsame) as Hcons.
  assert (Hdel : delivered nasdaq e symbols period
                 <-> delivered nasdaq e symbols' period).
  { split; intros (s & Hs & Hf); exists s; (split; [by apply Hsame|done]). }
  destruct (get_stats_cases nasdaq e symbols period w)
    as [(results & Hc & ->)|[(cd & Hc & Hno & ->)|(cd & Hc & Hyes & ->)]];
    rewrite Hcons in Hc.
  - by rewrite (get_stats_hit _ _ _ _ _ _ Hc).
  - rewrite (get_stats_undelivered _ _ _ _ _ _ Hc); [done|].
    by intros ?%Hdel.
  - rewrite (get_stats_delivered _ _ _ _ _ _ Hc) by (by apply Hdel).
    unfold recompute. destruct (rebind_cache_data _ _ _) as [c0|]; [|done].
    change (computed nasdaq e symbols' period)
      with (computed nasdaq e symbols period).
    rewrite (run_loop_same_elements _ symbols symbols' c0 Hsame).
    simpl. split; [done|]. unfold save_cache. by destruct (cache_writable e).
Qed.

Lemma nasdaq_request_order_irrelevant_witness :
  (forall s, s ∈ ["A"; "B"] <-> s ∈ ["B"; "A"; "B"]) /\
  (get_stats nasdaq only_A_env ["A"; "B"] "y5" empty_world).1
  = (get_stats nasdaq only_A_env ["B"; "A"; "B"] "y5" empty_world).1 /\
  cache_dir (get_stats nasdaq only_A_env ["A"; "B"] "y5" empty_world).2
  = cache_dir (get_stats nasdaq only_A_env ["B"; "A"; "B"] "y5" empty_world).2.
Proof.
  assert (H : forall s, s ∈ ["A"; "B"] <-> s ∈ ["B"; "A"; "B"]).
  { intros s. rewrite !elem_of_cons. rewrite !elem_of_nil. tauto. }
  split; [exact H|].
  exact (nasdaq_request_order_irrelevant only_A_env ["A"; "B"] ["B"; "A"; "B"]
           "y5" empty_world H).
Defined.
